(** * Event-window performance simulation of [backend/main.py]

    A shallow embedding of the simulation core of the Market Confidence
    backend: the date axis built inside [simulate_portfolio_event],
    [calculate_scenario_performance], [calculate_performance_metrics] and
    the ranking step of [generate_investment_advice]; then the market
    impact and the event analysis of [backend/event_analyzer.py], the
    portfolio store with its handlers, [get_portfolio_performance], the
    whole simulation handler and [search_assets].

    Conventions of the embedding.
    - Python [float] values are exact rationals ([Q]); rounding is not
      modelled, division by zero raises [ZeroDivisionError] as in Python.
      Equality of values is [Qeq] ([==]).  Statements that compare
      values are worded so that they survive rounding, or say that they
      are about exact arithmetic.
    - [calculate_scenario_performance] is embedded a second time, in
      module [Binary64], over the kernel's binary64 floats with every
      operation in the order of the code: there the products are
      rounded as Python rounds them.
    - Date keys are the ["%Y-%m-%d"] strings the code stores; they are
      compared as Python compares [str] (lexicographically, [String.le]).
      The date parser reads ASCII digits only.
    - Exceptions are values of an error monad ([result]).
    - External collaborators (price provider, OpenAI) are inputs.
    - The global dict [portfolios] is threaded through the handlers that
      change it, as a list of pairs in insertion order.
    - [str.lower()] is modelled on ASCII strings. *)

From Stdlib Require Import ZArith QArith Lqa Lia String Ascii Floats Bool.
From stdpp Require Import base list strings gmap sorting pretty.

Local Open Scope Q_scope.

(** ** Exceptions and the error monad *)

Inductive exn : Type :=
  | ZeroDivisionError
  | ValueError
  | IndexError
  | HTTPException (status_code : Z) (detail : string).

Inductive result (A : Type) : Type :=
  | Ok (a : A)
  | Raise (e : exn).
Arguments Ok {A} a.
Arguments Raise {A} e.

Global Instance result_ret : MRet result := fun _ a => Ok a.
Global Instance result_bind : MBind result := fun _ _ f m =>
  match m with
  | Ok a => f a
  | Raise e => Raise e
  end.

Definition returns {A} (m : result A) : Prop := exists a, m = Ok a.

(** [xs[i]] for a non-negative [i]: out of range raises. *)
Definition getitem {A} (xs : list A) (i : nat) : result A :=
  match xs !! i with
  | Some a => Ok a
  | None => Raise IndexError
  end.

(** ** Python arithmetic on exact rationals *)

Definition Qltb (x y : Q) : bool := negb (Qle_bool y x).

(** [x / y] on floats: a zero divisor raises. *)
Definition pydiv (x y : Q) : result Q :=
  if Qeq_bool y 0 then Raise ZeroDivisionError else Ok (x / y).

(** [max(a, b)]: the first argument is kept unless the second is greater. *)
Definition pymax (a b : Q) : Q := if Qltb a b then b else a.

(** ** [datetime.datetime.strptime(s, "%Y-%m-%d")] and day differences *)

Module PyDate.

Record date : Type := mkdate { year : Z; month : Z; day : Z }.

Definition _is_leap (y : Z) : bool :=
  ((y mod 4 =? 0) && (negb (y mod 100 =? 0) || (y mod 400 =? 0)))%Z.

Definition _DAYS_IN_MONTH : list Z :=
  [-1; 31; 28; 31; 30; 31; 30; 31; 31; 30; 31; 30; 31]%Z.

Definition _DAYS_BEFORE_MONTH : list Z :=
  [-1; 0; 31; 59; 90; 120; 151; 181; 212; 243; 273; 304; 334]%Z.

Definition _days_in_month (y m : Z) : Z :=
  if ((m =? 2) && _is_leap y)%Z then 29%Z
  else nth (Z.to_nat m) _DAYS_IN_MONTH 0%Z.

Definition _days_before_year (y : Z) : Z :=
  (let y := y - 1 in y * 365 + y / 4 - y / 100 + y / 400)%Z.

Definition _days_before_month (y m : Z) : Z :=
  (nth (Z.to_nat m) _DAYS_BEFORE_MONTH 0
   + (if (2 <? m) && _is_leap y then 1 else 0))%Z.

Definition toordinal (d : date) : Z :=
  (_days_before_year (year d) + _days_before_month (year d) (month d)
   + day d)%Z.

(** [_check_date_fields]: MINYEAR = 1, MAXYEAR = 9999. *)
Definition check_date_fields (y m d : Z) : bool :=
  ((1 <=? y) && (y <=? 9999) && (1 <=? m) && (m <=? 12)
   && (1 <=? d) && (d <=? _days_in_month y m))%Z.

Definition valid (d : date) : Prop :=
  check_date_fields (year d) (month d) (day d) = true.

(** Calendar order: lexicographic on year, month, day. *)
Definition lt (a b : date) : Prop :=
  (year a < year b
   \/ (year a = year b /\ month a < month b)
   \/ (year a = year b /\ month a = month b /\ day a < day b))%Z.

(** [\d] on an ASCII character. *)
Definition digit (c : ascii) : option Z :=
  let n := N_of_ascii c in
  if ((48 <=? n) && (n <=? 57))%N then Some (Z.of_N n - 48)%Z else None.

Definition digit_in (lo hi : Z) (c : ascii) : option Z :=
  match digit c with
  | Some v => if ((lo <=? v) && (v <=? hi))%Z then Some v else None
  | None => None
  end.

(** Regex pieces: two characters, one character, ordered alternation. *)
Definition two (pa pb : ascii -> option Z) (s : string)
  : option (Z * string) :=
  match s with
  | String a (String b rest) =>
      match pa a, pb b with
      | Some u, Some v => Some (u * 10 + v, rest)%Z
      | _, _ => None
      end
  | _ => None
  end.

Definition one (pa : ascii -> option Z) (s : string)
  : option (Z * string) :=
  match s with
  | String a rest =>
      match pa a with
      | Some u => Some (u, rest)
      | None => None
      end
  | EmptyString => None
  end.

Definition orelse {A} (x y : option A) : option A :=
  match x with
  | Some _ => x
  | None => y
  end.

Definition space (c : ascii) : option Z :=
  if Ascii.eqb c " " then Some 0%Z else None.

(** [%Y] is [\d\d\d\d]. *)
Definition parse_Y (s : string) : option (Z * string) :=
  match two digit digit s with
  | Some (hi, rest) =>
      match two digit digit rest with
      | Some (lo, rest') => Some (hi * 100 + lo, rest')%Z
      | None => None
      end
  | None => None
  end.

(** [%m] is [1[0-2]|0[1-9]|[1-9]]. *)
Definition parse_m (s : string) : option (Z * string) :=
  orelse (two (digit_in 1 1) (digit_in 0 2) s)
    (orelse (two (digit_in 0 0) (digit_in 1 9) s)
       (one (digit_in 1 9) s)).

(** [%d] is [3[0-1]|[1-2]\d|0[1-9]|[1-9]| [1-9]]. *)
Definition parse_d (s : string) : option (Z * string) :=
  orelse (two (digit_in 3 3) (digit_in 0 1) s)
    (orelse (two (digit_in 1 2) digit s)
       (orelse (two (digit_in 0 0) (digit_in 1 9) s)
          (orelse (one (digit_in 1 9) s)
             (two space (digit_in 1 9) s)))).

Definition expect (c : ascii) (s : string) : option string :=
  match s with
  | String a rest => if Ascii.eqb a c then Some rest else None
  | EmptyString => None
  end.

(** The match must consume the whole string ("unconverted data remains"
    otherwise) and the fields must form a date; every failure is a
    [ValueError]. *)
Definition strptime (s : string) : result date :=
  match parse_Y s with
  | Some (y, s1) =>
      match expect "-" s1 with
      | Some s2 =>
          match parse_m s2 with
          | Some (m, s3) =>
              match expect "-" s3 with
              | Some s4 =>
                  match parse_d s4 with
                  | Some (d, EmptyString) =>
                      if check_date_fields y m d then Ok (mkdate y m d)
                      else Raise ValueError
                  | _ => Raise ValueError
                  end
              | None => Raise ValueError
              end
          | None => Raise ValueError
          end
      | None => Raise ValueError
      end
  | None => Raise ValueError
  end.

(** [(b - a).days] for two midnights. *)
Definition days_between (a b : date) : Z := (toordinal b - toordinal a)%Z.

End PyDate.

(** ** Data model *)

(** One row of an asset's fetched history:
    [{"date": ..., "close": ..., "allocation": ...}]. *)
Record DataPoint : Type := mkDataPoint {
  dp_date : string;
  close : Q;
  allocation : Q
}.

(** One entry of a value series: [{"date": ..., "value": ...}]. *)
Record Point : Type := mkPoint {
  date : string;
  value : Q
}.

(** [event_data]: a dict from symbol to rows, in insertion order. *)
Definition EventData : Type := list (string * list DataPoint).

(** The fields of [Portfolio] the simulation reads. *)
Record Portfolio : Type := mkPortfolio {
  id : string;
  name : string;
  investment_amount : option Q
}.

Record Metrics : Type := mkMetrics {
  total_return : Q;
  max_drawdown : Q;
  recovery_days : option Z
}.

(** ** [calculate_scenario_performance] *)

(** Truth value of [middle_date]: [None] and the empty string are false. *)
Definition truthy (middle_date : option string) : bool :=
  match middle_date with
  | Some m => negb (String.eqb m "")
  | None => false
  end.

(** [middle_date and date >= middle_date]. *)
Definition on_or_after (middle_date : option string) (d : string) : bool :=
  match middle_date with
  | Some m => truthy middle_date && String.leb m d
  | None => false
  end.

Definition adjustment_factor (scenario : string) (middle_date : option string)
    (d : string) : Q :=
  if String.eqb scenario "withdraw" && on_or_after middle_date d then 0.8
  else if String.eqb scenario "add" && on_or_after middle_date d then 1.2
  else 1.0.

(** [next((d for d in asset_data if d["date"] == date), None)]. *)
Definition data_point_at (asset_data : list DataPoint) (d : string)
    : option DataPoint :=
  List.find (fun p => String.eqb (dp_date p) d) asset_data.

(** The inner loop over [event_data.items()]. *)
Definition raw_value (event_data : EventData) (d : string) : Q :=
  foldl (fun portfolio_value '(_, asset_data) =>
           match data_point_at asset_data d with
           | Some data_point =>
               portfolio_value + close data_point * (allocation data_point / 100)
           | None => portfolio_value
           end) 0 event_data.

(** [portfolio and portfolio.investment_amount is not None
     and portfolio_value > 0]. *)
Definition scale_by_amount (portfolio : option Portfolio) (portfolio_value : Q)
    : Q :=
  match portfolio with
  | Some p =>
      match investment_amount p with
      | Some amount =>
          if Qltb 0 portfolio_value then portfolio_value * amount
          else portfolio_value
      | None => portfolio_value
      end
  | None => portfolio_value
  end.

Definition scenario_value (event_data : EventData) (scenario : string)
    (middle_date : option string) (portfolio : option Portfolio) (d : string)
    : Q :=
  scale_by_amount portfolio
    (raw_value event_data d * adjustment_factor scenario middle_date d).

Definition calculate_scenario_performance (event_data : EventData)
    (dates : list string) (scenario : string) (middle_date : option string)
    (portfolio : option Portfolio) : list Point :=
  List.map (fun d => mkPoint d
                       (scenario_value event_data scenario middle_date portfolio d))
    dates.

(** ** [calculate_scenario_performance] in binary64 *)

Module Binary64.

(** The rows, entries and portfolio of the data model, with binary64
    numbers. *)
Record DataPoint : Type := mkDataPoint {
  dp_date : string;
  close : float;
  allocation : float
}.

Record Point : Type := mkPoint {
  date : string;
  value : float
}.

Definition EventData : Type := list (string * list DataPoint).

Record Portfolio : Type := mkPortfolio {
  id : string;
  name : string;
  investment_amount : option float
}.

(** The literals [0.8] and [1.2] are the nearest doubles. *)
Definition adjustment_factor (scenario : string) (middle_date : option string)
    (d : string) : float :=
  if String.eqb scenario "withdraw" && on_or_after middle_date d
  then 0x1.999999999999ap-1%float
  else if String.eqb scenario "add" && on_or_after middle_date d
  then 0x1.3333333333333p+0%float
  else 1%float.

(** [next((d for d in asset_data if d["date"] == date), None)]. *)
Definition data_point_at (asset_data : list DataPoint) (d : string)
    : option DataPoint :=
  List.find (fun p => String.eqb (dp_date p) d) asset_data.

(** The inner loop: [portfolio_value = 0], then
    [portfolio_value += close * (allocation / 100)] for each asset that
    has a row on the date. *)
Definition raw_value (event_data : EventData) (d : string) : float :=
  foldl (fun portfolio_value '(_, asset_data) =>
           match data_point_at asset_data d with
           | Some data_point =>
               (portfolio_value
                + close data_point * (allocation data_point / 100))%float
           | None => portfolio_value
           end) 0%float event_data.

(** [portfolio and portfolio.investment_amount is not None
     and portfolio_value > 0]. *)
Definition scale_by_amount (portfolio : option Portfolio)
    (portfolio_value : float) : float :=
  match portfolio with
  | Some p =>
      match investment_amount p with
      | Some amount =>
          if (0 <? portfolio_value)%float
          then (portfolio_value * amount)%float
          else portfolio_value
      | None => portfolio_value
      end
  | None => portfolio_value
  end.

(** [portfolio_value *= adjustment_factor], then the multiplication by
    the investment amount. *)
Definition scenario_value (event_data : EventData) (scenario : string)
    (middle_date : option string) (portfolio : option Portfolio) (d : string)
    : float :=
  scale_by_amount portfolio
    (raw_value event_data d * adjustment_factor scenario middle_date d)%float.

Definition calculate_scenario_performance (event_data : EventData)
    (dates : list string) (scenario : string) (middle_date : option string)
    (portfolio : option Portfolio) : list Point :=
  List.map (fun d => mkPoint d
                       (scenario_value event_data scenario middle_date portfolio d))
    dates.

(** An adjusted series against the Hold series: same dates; from the
    pivot date on the value is the Hold value times [k] (one rounded
    product), before it the Hold value itself. *)
Definition adjusted_from (pivot : string) (k : float)
    (adjusted hold : list Point) : Prop :=
  Forall2 (fun a h =>
             date a = date h
             /\ if String.leb pivot (date h)
                then value a = (value h * k)%float
                else value a = value h)
    adjusted hold.

(** No investment amount is configured. *)
Definition no_amount (portfolio : option Portfolio) : Prop :=
  match portfolio with
  | Some p => investment_amount p = None
  | None => True
  end.

(** One asset held at 100%, quoted at 3.0 on two days, and a portfolio
    with an investment amount of 7.0. *)
Definition three_dollar_event_data : EventData :=
  [("SPY", [mkDataPoint "2020-01-01" 3 100; mkDataPoint "2020-01-02" 3 100])].

Definition seven_fold_portfolio : Portfolio :=
  mkPortfolio "p-7" "Core" (Some 7%float).

End Binary64.

(** ** [calculate_performance_metrics] *)

(** The drawdown loop, on the state [(peak_value, max_drawdown)]. *)
Fixpoint drawdown_loop (points : list Point) (peak_value max_dd : Q)
    : result Q :=
  match points with
  | [] => Ok max_dd
  | point :: rest =>
      let peak_value :=
        if Qltb peak_value (value point) then value point else peak_value in
      q ← pydiv (peak_value - value point) peak_value;
      let current_drawdown := q * 100 in
      drawdown_loop rest peak_value (pymax max_dd current_drawdown)
  end.

(** [min(range(len(xs)), key=lambda i: xs[i]["value"])] as a left-to-right
    scan: the best index is replaced only by a strictly smaller value.
    [i] is the index of the head of [points]. *)
Fixpoint argmin_from (points : list Point) (i best : nat) (best_value : Q)
    : nat :=
  match points with
  | [] => best
  | point :: rest =>
      if Qltb (value point) best_value
      then argmin_from rest (S i) i (value point)
      else argmin_from rest (S i) best best_value
  end.

Definition lowest_point_index (performance_data : list Point) : result nat :=
  match performance_data with
  | [] => Raise ValueError
  | point :: rest => Ok (argmin_from rest 1 0 (value point))
  end.

(** [for i in range(lowest_point_idx + 1, len(performance_data))] with its
    [break]; [points] is the part of the series after the trough. *)
Fixpoint recovery_scan (points : list Point) (initial_value : Q)
    (lowest_date : PyDate.date) : result (option Z) :=
  match points with
  | [] => Ok None
  | point :: rest =>
      if Qle_bool initial_value (value point)
      then recovery_date ← PyDate.strptime (date point);
           Ok (Some (PyDate.days_between lowest_date recovery_date))
      else recovery_scan rest initial_value lowest_date
  end.

Definition calculate_performance_metrics (performance_data : list Point)
    : result Metrics :=
  if (length performance_data <? 2)%nat then Ok (mkMetrics 0 0 None)
  else
    first ← getitem performance_data 0;
    final ← getitem performance_data (length performance_data - 1);
    let initial_value := value first in
    let final_value := value final in
    q ← pydiv (final_value - initial_value) initial_value;
    let total_return := q * 100 in
    max_drawdown ← drawdown_loop performance_data (value first) 0;
    lowest_point_idx ← lowest_point_index performance_data;
    recovery_days ←
      (if (lowest_point_idx <? length performance_data - 1)%nat
       then
         lowest ← getitem performance_data lowest_point_idx;
         lowest_date ← PyDate.strptime (date lowest);
         recovery_scan (drop (S lowest_point_idx) performance_data)
           initial_value lowest_date
       else Ok None);
    Ok (mkMetrics total_return max_drawdown recovery_days).

(** ** [simulate_portfolio_event] and [generate_investment_advice] *)

(** One entry of [simulation_results]. *)
Record SimulationResult : Type := mkSimulationResult {
  scenario : string;
  performance : list Point;
  res_total_return : Q;
  res_max_drawdown : Q;
  res_recovery_days : option Z
}.

Record Advice : Type := mkAdvice {
  best_scenario : string;
  text : string
}.

Record Simulation : Type := mkSimulation {
  middle_date : string;
  simulation_results : list SimulationResult;
  advice : Advice
}.

(** The [dates] set: every [data_point["date"]] of every asset. *)
Definition collect_dates (event_data : EventData) : gset string :=
  foldl (fun dates '(_, asset_data) =>
           foldl (fun dates data_point => dates ∪ {[ dp_date data_point ]})
             dates asset_data) ∅ event_data.

(** [sorted(list(dates))] on strings. *)
Definition sorted (l : list string) : list string := merge_sort String.le l.

Definition date_axis (event_data : EventData) : list string :=
  sorted (elements (collect_dates event_data)).

(** A dict in insertion order; assigning to a present key keeps its place. *)
Fixpoint dict_set {V} (d : list (string * V)) (k : string) (v : V)
    : list (string * V) :=
  match d with
  | [] => [(k, v)]
  | (k', v') :: rest =>
      if String.eqb k' k then (k', v) :: rest
      else (k', v') :: dict_set rest k v
  end.

Definition dict_get {V} (d : list (string * V)) (k : string) : option V :=
  match List.find (fun kv => String.eqb (fst kv) k) d with
  | Some kv => Some (snd kv)
  | None => None
  end.

(** [max(items, key=lambda x: x[1]["total_return"])]: the first item with
    the greatest key, [best] being the greatest so far. *)
Fixpoint max_by_total_return (items : list (string * Metrics))
    (best : string * Metrics) : string * Metrics :=
  match items with
  | [] => best
  | x :: rest =>
      if Qltb (total_return (snd best)) (total_return (snd x))
      then max_by_total_return rest x
      else max_by_total_return rest best
  end.

Definition fallback_text : string :=
  "Unable to generate investment advice. "
  ++ "Please analyze the simulation data to determine the best strategy.".

(** [openai_reply] is the outcome of the chat completion call: its text,
    or [None] when the call raised.  Any exception inside the [try]
    block leads to the fallback advice. *)
Definition generate_investment_advice
    (simulation_results : list SimulationResult)
    (openai_reply : option string) : Advice :=
  let scenarios :=
    foldl (fun d r =>
             dict_set d (scenario r)
               (mkMetrics (res_total_return r) (res_max_drawdown r)
                  (res_recovery_days r)))
      [] simulation_results in
  let fallback := mkAdvice "No Changes" fallback_text in
  match scenarios with
  | [] => fallback
  | x :: rest =>
      let best := fst (max_by_total_return rest x) in
      match dict_get scenarios "No Changes",
            dict_get scenarios "20% Withdrawal",
            dict_get scenarios "20% Addition", openai_reply with
      | Some _, Some _, Some _, Some reply => mkAdvice best reply
      | _, _, _, _ => fallback
      end
  end.

(** The block repeated for each scenario: the metrics of the series, then
    the entry appended to [simulation_results]. *)
Definition run_scenario (label : string) (performance : list Point)
    : result SimulationResult :=
  metrics ← calculate_performance_metrics performance;
  Ok (mkSimulationResult label performance (total_return metrics)
        (max_drawdown metrics) (recovery_days metrics)).

(** The simulation once the portfolio is found, the event period is known
    and [event_data] is fetched (lines 404-448 and the returned
    [middle_date], [simulation_results] and [advice]). *)
Definition simulate_portfolio_event (portfolio : Portfolio)
    (event_data : EventData) (openai_reply : option string)
    : result Simulation :=
  let dates := date_axis event_data in
  if (length dates =? 0)%nat
  then Raise (HTTPException 400 "Insufficient market data for simulation")
  else
    let middle_idx := (length dates / 2)%nat in
    middle_date ← getitem dates middle_idx;
    no_change ←
      run_scenario "No Changes"
        (calculate_scenario_performance event_data dates "no_change" None
           (Some portfolio));
    withdraw ←
      run_scenario "20% Withdrawal"
        (calculate_scenario_performance event_data dates "withdraw"
           (Some middle_date) (Some portfolio));
    add ←
      run_scenario "20% Addition"
        (calculate_scenario_performance event_data dates "add"
           (Some middle_date) (Some portfolio));
    let simulation_results := [no_change; withdraw; add] in
    let advice := generate_investment_advice simulation_results openai_reply in
    Ok (mkSimulation middle_date simulation_results advice).

(** ** Vocabulary of the specification *)

(** The relation between an adjusted series and the Hold series: same
    dates; from the pivot date on the value is [k] times the Hold value,
    before it the value is the Hold value itself. *)
Definition adjusted_from (pivot : string) (k : Q) (adjusted hold : list Point)
    : Prop :=
  Forall2 (fun a h =>
             date a = date h
             /\ if String.leb pivot (date h) then value a == k * value h
                else value a = value h)
    adjusted hold.

(** A series is non-decreasing. *)
Definition nondecreasing (points : list Point) : Prop :=
  StronglySorted (fun p q => value p <= value q) points.

(** The percentage decline from a peak to a trough. *)
Definition decline (peak trough : Point) : Q :=
  (value peak - value trough) / value peak * 100.

(** [peak], an entry at an index up to [j], has the greatest value among
    the entries at indices up to [j]. *)
Definition running_peak (points : list Point) (j : nat) (peak : Point) : Prop :=
  (exists i, (i <= j)%nat /\ points !! i = Some peak)
  /\ forall i p, (i <= j)%nat -> points !! i = Some p -> value p <= value peak.

(** No entry lies below a positive running peak. *)
Definition never_below_positive_peak (points : list Point) : Prop :=
  forall j p peak,
    points !! j = Some p -> running_peak points j peak -> 0 < value peak ->
    value peak <= value p.

(** [low], at index [t], is the global minimum of the series, first
    occurrence on ties. *)
Definition is_trough (points : list Point) (t : nat) (low : Point) : Prop :=
  points !! t = Some low
  /\ (forall j p, points !! j = Some p -> value low <= value p)
  /\ (forall j p, (j < t)%nat -> points !! j = Some p -> value low < value p).

(** Recovery days as the specification words them: absent when the trough
    is the last entry; otherwise the calendar-day difference between the
    trough and the first later entry whose value reaches the series' first
    value; absent when there is no such entry. *)
Definition recovery_spec (points : list Point) (r : option Z) : Prop :=
  exists t low first,
    is_trough points t low /\ points !! 0%nat = Some first
    /\ ((t = (length points - 1)%nat /\ r = None)
        \/ ((t < length points - 1)%nat
            /\ ((exists k pk d_low d_rec,
                    (t < k)%nat /\ points !! k = Some pk
                    /\ value first <= value pk
                    /\ (forall j pj, (t < j < k)%nat -> points !! j = Some pj ->
                                     value pj < value first)
                    /\ PyDate.strptime (date low) = Ok d_low
                    /\ PyDate.strptime (date pk) = Ok d_rec
                    /\ r = Some (PyDate.toordinal d_rec
                                 - PyDate.toordinal d_low)%Z)
                \/ ((forall j pj, (t < j)%nat -> points !! j = Some pj ->
                                  value pj < value first)
                    /\ r = None)))).

(** The dates of a series read as calendar dates. *)
Definition calendar_dates (points : list Point) (cal : list PyDate.date)
    : Prop :=
  Forall2 (fun p c => PyDate.strptime (date p) = Ok c) points cal.


(** ** Sample inputs *)

(** One asset held at 100%: 100, 80, 60, 90, 110 over five days. *)
Definition sample_event_data : EventData :=
  [("SPY", [mkDataPoint "2020-01-01" 100 100; mkDataPoint "2020-01-02" 80 100;
            mkDataPoint "2020-01-03" 60 100; mkDataPoint "2020-01-04" 90 100;
            mkDataPoint "2020-01-05" 110 100])].

(** An asset quoted at 0 on both days of the window. *)
Definition flat_zero_event_data : EventData :=
  [("CASH", [mkDataPoint "2020-03-02" 0 100; mkDataPoint "2020-03-03" 0 100])].

Definition sample_portfolio : Portfolio := mkPortfolio "p-1" "Core" None.

Definition funded_portfolio : Portfolio := mkPortfolio "p-2" "Core" (Some 1000).

Definition sample_series : list Point :=
  [mkPoint "2020-01-01" 100; mkPoint "2020-01-02" 80; mkPoint "2020-01-03" 60;
   mkPoint "2020-01-04" 90; mkPoint "2020-01-05" 110].

Definition sample_calendar : list PyDate.date :=
  [PyDate.mkdate 2020 1 1; PyDate.mkdate 2020 1 2; PyDate.mkdate 2020 1 3;
   PyDate.mkdate 2020 1 4; PyDate.mkdate 2020 1 5].

(** A falling series of negative values. *)
Definition negative_series : list Point :=
  [mkPoint "2020-03-02" (-1); mkPoint "2020-03-03" (-2)].

(** ** [calculate_market_impact] of [backend/event_analyzer.py] *)

(** One row of the index history: [{"date": ..., "close": ...}]. *)
Record MarketRow : Type := mkMarketRow {
  row_date : string;
  row_close : Q
}.

(** The returned dict; [None] is Python's [None]. *)
Record MarketImpact : Type := mkMarketImpact {
  pre_event_value : option Q;
  lowest_value : option Q;
  current_value : option Q;
  percent_change : option Q;
  impact_recovery_days : option Z;
  recovered : option bool
}.

(** [sum(xs)]: left to right from 0. *)
Definition pysum (xs : list Q) : Q := foldl Qplus 0 xs.

(** [min(rows, key=lambda x: x["close"])] with [best] the least so far:
    a row replaces it only when strictly smaller. *)
Fixpoint min_by_close (rows : list MarketRow) (best : MarketRow) : MarketRow :=
  match rows with
  | [] => best
  | row :: rest =>
      if Qltb (row_close row) (row_close best) then min_by_close rest row
      else min_by_close rest best
  end.

(** [next((i for i, item in enumerate(rows) if item["date"] == d), 0)],
    counting from [i]. *)
Fixpoint index_of_date (rows : list MarketRow) (d : string) (i : nat) : nat :=
  match rows with
  | [] => 0%nat
  | row :: rest =>
      if String.eqb (row_date row) d then i else index_of_date rest d (S i)
  end.

(** [for i in range(lowest_index + 1, len(event_data))] with its [break];
    [rows] is the part of the event window after [lowest_index]. *)
Fixpoint impact_recovery_scan (rows : list MarketRow) (pre_event_value : Q)
    (lowest_date : string) : result (option Z) :=
  match rows with
  | [] => Ok None
  | row :: rest =>
      if Qle_bool pre_event_value (row_close row)
      then recovery_date ← PyDate.strptime (row_date row);
           lowest_date_obj ← PyDate.strptime lowest_date;
           Ok (Some (PyDate.days_between lowest_date_obj recovery_date))
      else impact_recovery_scan rest pre_event_value lowest_date
  end.

Definition no_impact : MarketImpact :=
  mkMarketImpact None None None None None None.

Definition calculate_market_impact (market_data : list MarketRow)
    : result MarketImpact :=
  if (length market_data <? 2)%nat then Ok no_impact
  else
    let pre_event_days := Nat.min 30 (length market_data / 3) in
    pre_event_value ←
      pydiv (pysum (List.map row_close (take pre_event_days market_data)))
        (inject_Z (Z.of_nat pre_event_days));
    let event_data := drop pre_event_days market_data in
    match event_data with
    | [] => Ok (mkMarketImpact (Some pre_event_value) None None None None None)
    | first_row :: rest =>
        let lowest_point := min_by_close rest first_row in
        let lowest_value := row_close lowest_point in
        let lowest_date := row_date lowest_point in
        current ← getitem event_data (length event_data - 1);
        let current_value := row_close current in
        q ← pydiv (lowest_value - pre_event_value) pre_event_value;
        let percent_change := q * 100 in
        let recovered := Qle_bool pre_event_value current_value in
        recovery_days ←
          (if recovered
           then
             let lowest_index := index_of_date event_data lowest_date 0 in
             impact_recovery_scan (drop (S lowest_index) event_data)
               pre_event_value lowest_date
           else Ok None);
        Ok (mkMarketImpact (Some pre_event_value) (Some lowest_value)
              (Some current_value) (Some percent_change) recovery_days
              (Some recovered))
    end.

(** ** [generate_event_analysis], [analyze_event] and its endpoint *)

(** The outcome of a chat completion call: the stripped reply, or the
    message of the exception it raised. *)
Inductive completion : Type :=
  | Reply (text : string)
  | Failed (message : string).

(** The analysis dict; [ea_percent_change] is [None] when the key is
    missing or holds [None]. *)
Record EventAnalysis : Type := mkEventAnalysis {
  ea_event : string;
  ea_analysis : string;
  ea_percent_change : option Q;
  ea_recovery_status : string
}.

(** [recovered] and [recovery_days] are tested for truth: [None], [False]
    and [0] are false. *)
Definition recovery_status_of (impact_data : MarketImpact) : string :=
  match recovered impact_data with
  | Some true =>
      match impact_recovery_days impact_data with
      | Some days =>
          if (days =? 0)%Z then "Market recovered"
          else "Market recovered after " +:+ pretty days +:+ " days"
      | None => "Market recovered"
      end
  | _ => "Market did not fully recover"
  end.

Definition analysis_failure (event message : string) : EventAnalysis :=
  mkEventAnalysis event
    ("Unable to generate analysis due to an error: " +:+ message)
    None "Unknown".

(** [abs(percent_change)] raises a [TypeError] on [None], before the
    completion call is made. *)
Definition generate_event_analysis (event : string)
    (impact_data : MarketImpact) (openai : completion) : EventAnalysis :=
  let recovery_status := recovery_status_of impact_data in
  match percent_change impact_data with
  | None => analysis_failure event "bad operand type for abs(): 'NoneType'"
  | Some change =>
      match openai with
      | Reply analysis_text =>
          mkEventAnalysis event analysis_text (Some change) recovery_status
      | Failed message => analysis_failure event message
      end
  end.

(** [time_period] is the JSON object [get_event_time_period] returned
    ([{}] on failure), its values strings or null; [market_data_for] is
    [get_market_data_for_period] ([[]] on failure). *)
Definition analyze_event (event : string)
    (time_period : list (string * option string))
    (market_data_for : option string -> option string -> list MarketRow)
    (openai : completion)
    : result (EventAnalysis * option string * option string) :=
  match time_period with
  | [] =>
      Ok (mkEventAnalysis event
            "Could not determine the time period for this event." None
            "Unknown", None, None)
  | _ :: _ =>
      let start_date := default None (dict_get time_period "start_date") in
      let end_date := default None (dict_get time_period "end_date") in
      let market_data := market_data_for start_date end_date in
      if (length market_data <? 2)%nat
      then Ok (mkEventAnalysis event
                 "Insufficient market data available for this time period."
                 None "Unknown", start_date, end_date)
      else
        impact_data ← calculate_market_impact market_data;
        let analysis := generate_event_analysis event impact_data openai in
        Ok (analysis, start_date, end_date)
  end.

Record AnalysisResponse : Type := mkAnalysisResponse {
  ar_event : string;
  ar_analysis : string;
  ar_recovery_status : string;
  ar_percent_change : option Q;
  ar_start_date : option string;
  ar_end_date : option string
}.

Section Endpoint.

(** [str(e)] for the exceptions of this model. *)
Variable str_of_exn : exn -> string.

(** [POST /api/analyze-event]: every exception becomes an HTTP 500. *)
Definition analyze_market_event (event : string)
    (time_period : list (string * option string))
    (market_data_for : option string -> option string -> list MarketRow)
    (openai : completion) : result AnalysisResponse :=
  match analyze_event event time_period market_data_for openai with
  | Ok (analysis, start_date, end_date) =>
      Ok (mkAnalysisResponse event (ea_analysis analysis)
            (ea_recovery_status analysis) (ea_percent_change analysis)
            start_date end_date)
  | Raise e => Raise (HTTPException 500 (str_of_exn e))
  end.

End Endpoint.

(** ** The portfolio store and its handlers *)

Record PortfolioAsset : Type := mkPortfolioAsset {
  asset_symbol : string;
  asset_name : string;
  asset_type : string;
  asset_allocation : Q
}.

(** The pydantic model [Portfolio] with all its fields; [created_at] is a
    timestamp. *)
Record StoredPortfolio : Type := mkStoredPortfolio {
  sp_id : string;
  sp_name : string;
  sp_assets : list PortfolioAsset;
  sp_created_at : Z;
  sp_investment_amount : option Q
}.

Record PortfolioCreate : Type := mkPortfolioCreate {
  pc_name : string;
  pc_assets : list PortfolioAsset;
  pc_investment_amount : option Q
}.

(** The global dict [portfolios], in insertion order. *)
Definition Store : Type := list (string * StoredPortfolio).

(** The fields of a stored portfolio the simulation reads. *)
Definition as_portfolio (p : StoredPortfolio) : Portfolio :=
  mkPortfolio (sp_id p) (sp_name p) (sp_investment_amount p).

(** [del d[k]] for a present key. *)
Fixpoint dict_del {V} (d : list (string * V)) (k : string)
    : list (string * V) :=
  match d with
  | [] => []
  | (k', v) :: rest =>
      if String.eqb k' k then rest else (k', v) :: dict_del rest k
  end.

Definition not_found {A} : result A :=
  Raise (HTTPException 404 "Portfolio not found").

(** [new_id] and [now] are the values the default factories ([uuid4],
    [datetime.now]) produce for this call. *)
Definition create_portfolio (portfolios : Store) (new_id : string) (now : Z)
    (portfolio : PortfolioCreate) : Store * StoredPortfolio :=
  let new_portfolio :=
    mkStoredPortfolio new_id (pc_name portfolio) (pc_assets portfolio) now
      (pc_investment_amount portfolio) in
  (dict_set portfolios (sp_id new_portfolio) new_portfolio, new_portfolio).

Definition list_portfolios (portfolios : Store) : list StoredPortfolio :=
  List.map snd portfolios.

Definition get_portfolio (portfolios : Store) (portfolio_id : string)
    : result StoredPortfolio :=
  match dict_get portfolios portfolio_id with
  | None => not_found
  | Some portfolio => Ok portfolio
  end.

Definition update_portfolio (portfolios : Store) (portfolio_id : string)
    (portfolio_update : PortfolioCreate) : result (Store * StoredPortfolio) :=
  match dict_get portfolios portfolio_id with
  | None => not_found
  | Some existing_portfolio =>
      let updated_portfolio :=
        mkStoredPortfolio (sp_id existing_portfolio) (pc_name portfolio_update)
          (pc_assets portfolio_update) (sp_created_at existing_portfolio)
          (pc_investment_amount portfolio_update) in
      Ok (dict_set portfolios portfolio_id updated_portfolio, updated_portfolio)
  end.

Definition delete_portfolio (portfolios : Store) (portfolio_id : string)
    : result (Store * string) :=
  match dict_get portfolios portfolio_id with
  | None => not_found
  | Some _ =>
      Ok (dict_del portfolios portfolio_id, "Portfolio deleted successfully")
  end.

(** ** Fetching, [get_portfolio_performance] and the simulation handler *)

(** The loop over [portfolio.assets]: [history symbol] is the outcome of
    the provider call for that asset, its rows as
    [(date.strftime("%Y-%m-%d"), float(row["Close"]))] or [None] when the
    [try] block raised; a failed asset is skipped. *)
Definition fetch_asset_data (assets : list PortfolioAsset)
    (history : string -> option (list (string * Q))) : EventData :=
  foldl (fun event_data asset =>
           match history (asset_symbol asset) with
           | Some rows =>
               dict_set event_data (asset_symbol asset)
                 (List.map (fun '(d, c) =>
                              mkDataPoint d c (asset_allocation asset)) rows)
           | None => event_data
           end) [] assets.

Record PerformanceResponse : Type := mkPerformanceResponse {
  perf_portfolio_id : string;
  perf_portfolio_name : string;
  perf_performance : list Point
}.

Definition get_portfolio_performance (portfolios : Store)
    (portfolio_id : string) (history : string -> option (list (string * Q)))
    : result PerformanceResponse :=
  match dict_get portfolios portfolio_id with
  | None => not_found
  | Some portfolio =>
      let performance_data := fetch_asset_data (sp_assets portfolio) history in
      let dates := date_axis performance_data in
      let portfolio_performance :=
        List.map (fun d =>
                    mkPoint d
                      (scale_by_amount (Some (as_portfolio portfolio))
                         (raw_value performance_data d))) dates in
      Ok (mkPerformanceResponse (sp_id portfolio) (sp_name portfolio)
            portfolio_performance)
  end.

Record AssetPerformance : Type := mkAssetPerformance {
  ap_name : string;
  ap_allocation : Q;
  ap_performance : list DataPoint
}.

(** The loop that fills [asset_performance]. *)
Definition asset_performance_of (assets : list PortfolioAsset)
    (event_data : EventData) : list (string * AssetPerformance) :=
  foldl (fun asset_performance '(symbol, asset_data) =>
           match List.find (fun a => String.eqb (asset_symbol a) symbol) assets with
           | Some asset_info =>
               dict_set asset_performance symbol
                 (mkAssetPerformance (asset_name asset_info)
                    (asset_allocation asset_info) asset_data)
           | None => asset_performance
           end) [] event_data.

Record SimulationResponse : Type := mkSimulationResponse {
  resp_event : string;
  resp_portfolio_id : string;
  resp_portfolio_name : string;
  resp_start_date : option string;
  resp_end_date : option string;
  resp_simulation : Simulation;
  resp_asset_performance : list (string * AssetPerformance)
}.

(** The whole handler of [POST /api/portfolios/event-simulation].
    [analyzed] is the outcome of [analyze_event(request.event)];
    [history] answers the provider calls for that period. *)
Definition simulate_portfolio_event_handler (portfolios : Store)
    (portfolio_id event : string)
    (analyzed : result (EventAnalysis * option string * option string))
    (history : string -> option (list (string * Q)))
    (openai_reply : option string) : result SimulationResponse :=
  match dict_get portfolios portfolio_id with
  | None => not_found
  | Some portfolio =>
      analyzed ← analyzed;
      let '(_, start_date, end_date) := analyzed in
      if negb (truthy start_date) || negb (truthy end_date)
      then Raise (HTTPException 400 "Could not determine event time period")
      else
        let event_data := fetch_asset_data (sp_assets portfolio) history in
        simulation ←
          simulate_portfolio_event (as_portfolio portfolio) event_data
            openai_reply;
        Ok (mkSimulationResponse event (sp_id portfolio) (sp_name portfolio)
              start_date end_date simulation
              (asset_performance_of (sp_assets portfolio) event_data))
  end.

(** ** [search_assets] *)

Record Asset : Type := mkAsset {
  a_symbol : string;
  a_name : string;
  a_type : string
}.

Definition valid_assets : list Asset :=
  [mkAsset "AAPL" "Apple Inc." "equity";
   mkAsset "MSFT" "Microsoft Corporation" "equity";
   mkAsset "AMZN" "Amazon.com, Inc." "equity";
   mkAsset "GOOGL" "Alphabet Inc." "equity";
   mkAsset "META" "Meta Platforms, Inc." "equity";
   mkAsset "TSLA" "Tesla, Inc." "equity";
   mkAsset "SPY" "SPDR S&P 500 ETF Trust" "etf";
   mkAsset "QQQ" "Invesco QQQ Trust" "etf";
   mkAsset "VTI" "Vanguard Total Stock Market ETF" "etf";
   mkAsset "VOO" "Vanguard S&P 500 ETF" "etf";
   mkAsset "VEA" "Vanguard FTSE Developed Markets ETF" "etf";
   mkAsset "VWO" "Vanguard FTSE Emerging Markets ETF" "etf";
   mkAsset "BND" "Vanguard Total Bond Market ETF" "etf";
   mkAsset "AGG" "iShares Core U.S. Aggregate Bond ETF" "etf";
   mkAsset "GLD" "SPDR Gold Shares" "etf";
   mkAsset "IWM" "iShares Russell 2000 ETF" "etf";
   mkAsset "EFA" "iShares MSCI EAFE ETF" "etf";
   mkAsset "LQD" "iShares iBoxx $ Investment Grade Corporate Bond ETF" "etf";
   mkAsset "XLF" "Financial Select Sector SPDR Fund" "etf";
   mkAsset "XLE" "Energy Select Sector SPDR Fund" "etf"].

(** [str.lower()] on an ASCII string: only [A]-[Z] change.  The assets
    of the catalogue are ASCII; a query is taken to be ASCII too. *)
Definition lower_char (c : ascii) : ascii :=
  let n := N_of_ascii c in
  if ((65 <=? n) && (n <=? 90))%N then ascii_of_N (n + 32) else c.

Fixpoint lower (s : string) : string :=
  match s with
  | EmptyString => EmptyString
  | String c rest => String (lower_char c) (lower rest)
  end.

(** [needle in hay] on strings. *)
Fixpoint contains (needle hay : string) : bool :=
  String.prefix needle hay
  || match hay with
     | EmptyString => false
     | String _ rest => contains needle rest
     end.

Definition matches (query : string) (asset : Asset) : bool :=
  contains query (lower (a_symbol asset))
  || contains query (lower (a_name asset)).

Definition search_assets (query : string) : list Asset :=
  let query := lower query in
  take 10 (List.filter (matches query) valid_assets).

(** ** Further vocabulary *)

(** [scaled] is [points] with every value multiplied by [a]. *)
Definition scaled_series (a : Q) (scaled points : list Point) : Prop :=
  Forall2 (fun p q => date p = date q /\ value p == a * value q) scaled points.

(** Two outcomes of the metrics agree: the same exception, or equal
    returns and drawdowns and the same recovery days. *)
Definition same_metrics (x y : result Metrics) : Prop :=
  match x, y with
  | Ok m, Ok m' =>
      total_return m == total_return m' /\ max_drawdown m == max_drawdown m'
      /\ recovery_days m = recovery_days m'
  | Raise e, Raise e' => e = e'
  | _, _ => False
  end.

(** The dates of the index rows read as calendar dates. *)
Definition market_calendar (rows : list MarketRow) (cal : list PyDate.date)
    : Prop :=
  Forall2 (fun row c => PyDate.strptime (row_date row) = Ok c) rows cal.

(** Keys are distinct and each portfolio is stored under its own id. *)
Definition store_ok (portfolios : Store) : Prop :=
  NoDup (List.map fst portfolios)
  /\ Forall (fun kv => fst kv = sp_id (snd kv)) portfolios.

(** Both ends of the event period are non-empty strings. *)
Definition period_known (start_date end_date : option string) : Prop :=
  (exists s, start_date = Some s /\ s <> "")
  /\ (exists e, end_date = Some e /\ e <> "").

(** [needle] occurs in [hay]. *)
Definition is_substring (needle hay : string) : Prop :=
  exists pre post, hay = pre +:+ needle +:+ post.


(** ** Further sample inputs *)

Definition sample_market_data : list MarketRow :=
  [mkMarketRow "2020-01-01" 100; mkMarketRow "2020-01-02" 90;
   mkMarketRow "2020-01-03" 80; mkMarketRow "2020-01-04" 95;
   mkMarketRow "2020-01-05" 101; mkMarketRow "2020-01-06" 99;
   mkMarketRow "2020-01-07" 105].

Definition sample_market_calendar : list PyDate.date :=
  [PyDate.mkdate 2020 1 1; PyDate.mkdate 2020 1 2; PyDate.mkdate 2020 1 3;
   PyDate.mkdate 2020 1 4; PyDate.mkdate 2020 1 5; PyDate.mkdate 2020 1 6;
   PyDate.mkdate 2020 1 7].

Definition two_market_rows : list MarketRow :=
  [mkMarketRow "2020-01-01" 100; mkMarketRow "2020-01-02" 90].

Definition sample_time_period : list (string * option string) :=
  [("start_date", Some "2020-01-01"); ("end_date", Some "2020-01-07")].

Definition sample_asset : PortfolioAsset :=
  mkPortfolioAsset "SPY" "SPDR S&P 500 ETF Trust" "etf" 100.

Definition sample_store : Store :=
  [("p-1", mkStoredPortfolio "p-1" "Core" [sample_asset] 1577836800 None)].

Definition sample_history (symbol : string) : option (list (string * Q)) :=
  if String.eqb symbol "SPY"
  then Some [("2020-01-01", 100); ("2020-01-02", 80); ("2020-01-03", 60);
             ("2020-01-04", 90); ("2020-01-05", 110)]
  else None.

(** A series that starts at 0. *)
Definition zero_start_series : list Point :=
  [mkPoint "2020-03-02" 0; mkPoint "2020-03-03" 5].

Definition single_day_event_data : EventData :=
  [("SPY", [mkDataPoint "2020-01-02" 80 100])].

Definition sample_analysis : EventAnalysis :=
  mkEventAnalysis "the 2020 crash" "Markets fell and recovered." (Some (-20))
    "Market recovered".

(** * Properties *)

(** ** Comparisons and the error monad *)

Lemma Qltb_lt (x y : Q) : Qltb x y = true <-> x < y.
Proof.
  unfold Qltb. rewrite negb_true_iff, <- not_true_iff_false, Qle_bool_iff.
  split; [apply Qnot_le_lt | apply Qlt_not_le].
Qed.

Lemma Qltb_ge (x y : Q) : Qltb x y = false <-> y <= x.
Proof.
  unfold Qltb. rewrite negb_false_iff. apply Qle_bool_iff.
Qed.

Lemma Qle_bool_gt (x y : Q) : Qle_bool x y = false <-> y < x.
Proof.
  rewrite <- not_true_iff_false, Qle_bool_iff.
  split; [apply Qnot_le_lt | apply Qlt_not_le].
Qed.

Lemma pydiv_zero (x y : Q) : y == 0 -> pydiv x y = Raise ZeroDivisionError.
Proof.
  intros Hy. unfold pydiv. now rewrite (Qeq_eq_bool _ _ Hy).
Qed.

Lemma pydiv_Ok (x y q : Q) : pydiv x y = Ok q -> ~ y == 0 /\ q = x / y.
Proof.
  unfold pydiv. destruct (Qeq_bool y 0) eqn:E; [discriminate|].
  intros [= <-]. split; [|reflexivity]. now apply Qeq_bool_neq.
Qed.

Lemma pydiv_nonzero (x y : Q) : ~ y == 0 -> pydiv x y = Ok (x / y).
Proof.
  intros Hy. unfold pydiv. destruct (Qeq_bool y 0) eqn:E; [|reflexivity].
  now apply Qeq_bool_eq in E.
Qed.

Lemma bind_Ok {A B} (f : A -> result B) (m : result A) (b : B) :
  m ≫= f = Ok b -> exists a, m = Ok a /\ f a = Ok b.
Proof.
  destruct m as [a|e]; simpl; [eauto | discriminate].
Qed.

Lemma pymax_ge_l (a b : Q) : a <= pymax a b.
Proof.
  unfold pymax. destruct (Qltb a b) eqn:E; [|lra].
  apply Qltb_lt in E. lra.
Qed.

Lemma pymax_zero (a b : Q) :
  0 <= a -> 0 <= b -> (pymax a b == 0 <-> a == 0 /\ b == 0).
Proof.
  intros Ha Hb. unfold pymax. destruct (Qltb a b) eqn:E.
  - apply Qltb_lt in E. split; [intros H | intros [H1 H2]]; lra.
  - apply Qltb_ge in E. split; [intros H | intros [H1 H2]]; [split|]; lra.
Qed.

(** ** Fewer than two points *)

(** C7: a series with fewer than two points (empty or a single entry) gets
    total_return 0, max_drawdown 0 and no recovery_days. *)
Theorem short_series_metrics (performance_data : list Point) :
  (length performance_data < 2)%nat ->
  calculate_performance_metrics performance_data = Ok (mkMetrics 0 0 None).
Proof.
  intros Hlen. unfold calculate_performance_metrics.
  now apply Nat.ltb_lt in Hlen as ->.
Qed.

Lemma short_series_metrics_witness :
  calculate_performance_metrics [] = Ok (mkMetrics 0 0 None)
  /\ calculate_performance_metrics [mkPoint "2020-03-02" 250]
     = Ok (mkMetrics 0 0 None).
Proof.
  split; apply short_series_metrics; simpl; lia.
Defined.

(** ** The unguarded division by the starting value *)

Lemma metrics_unfold (first second : Point) (rest : list Point) :
  calculate_performance_metrics (first :: second :: rest) =
  let performance_data := first :: second :: rest in
  final ← getitem performance_data (length performance_data - 1);
  q ← pydiv (value final - value first) (value first);
  max_drawdown ← drawdown_loop performance_data (value first) 0;
  let lowest_point_idx := argmin_from (second :: rest) 1 0 (value first) in
  recovery_days ←
    (if (lowest_point_idx <? length performance_data - 1)%nat
     then
       lowest ← getitem performance_data lowest_point_idx;
       lowest_date ← PyDate.strptime (date lowest);
       recovery_scan (drop (S lowest_point_idx) performance_data)
         (value first) lowest_date
     else Ok None);
  Ok (mkMetrics (q * 100) max_drawdown recovery_days).
Proof. reflexivity. Qed.

Lemma getitem_last (first second : Point) (rest : list Point) :
  exists final,
    getitem (first :: second :: rest) (length (first :: second :: rest) - 1)
    = Ok final.
Proof.
  unfold getitem.
  destruct ((first :: second :: rest) !! (length (first :: second :: rest) - 1)%nat)
    as [p|] eqn:E; [eauto|].
  apply lookup_ge_None in E. simpl in E. lia.
Qed.

(** C1 (as the code has it): with at least two points and a starting value
    of 0 the division by the starting value is not guarded; the call raises
    ZeroDivisionError and reports no metrics. *)
Theorem zero_start_raises (performance_data : list Point) (first : Point) :
  (2 <= length performance_data)%nat ->
  head performance_data = Some first ->
  value first == 0 ->
  calculate_performance_metrics performance_data = Raise ZeroDivisionError.
Proof.
  intros Hlen Hhead Hzero.
  destruct performance_data as [|p [|second rest]]; simpl in Hlen; try lia.
  injection Hhead as ->.
  rewrite metrics_unfold. cbv zeta.
  destruct (getitem_last first second rest) as [final ->]. simpl.
  now rewrite (pydiv_zero _ _ Hzero).
Qed.

Lemma zero_start_raises_witness :
  calculate_performance_metrics
    [mkPoint "2020-03-02" 0; mkPoint "2020-03-03" 0; mkPoint "2020-03-04" 7]
  = Raise ZeroDivisionError.
Proof.
  apply (zero_start_raises _ (mkPoint "2020-03-02" 0));
    [simpl; lia | reflexivity | reflexivity].
Defined.

(** C1 fails as stated: on a two-point series starting at 0 no metrics are
    reported, the arithmetic fault propagates. *)
Lemma zero_start_counterexample :
  let performance_data := [mkPoint "2020-03-02" 0; mkPoint "2020-03-03" 5] in
  (2 <= length performance_data)%nat
  /\ (exists first, head performance_data = Some first /\ value first == 0)
  /\ calculate_performance_metrics performance_data = Raise ZeroDivisionError
  /\ ~ returns (calculate_performance_metrics performance_data).
Proof.
  cbv zeta. split; [simpl; lia|]. split; [eexists; split; reflexivity|].
  split; [reflexivity|]. intros [m Hm]. discriminate Hm.
Qed.

(** ** The adjustment factor *)

Lemma adjustment_factor_no_change (middle_date : option string) (d : string) :
  adjustment_factor "no_change" middle_date d = 1.0.
Proof. reflexivity. Qed.

Lemma adjustment_factor_None (scenario : string) (d : string) :
  adjustment_factor scenario None d = 1.0.
Proof.
  unfold adjustment_factor. simpl. now rewrite !andb_false_r.
Qed.

Lemma on_or_after_Some (pivot d : string) :
  pivot <> "" -> on_or_after (Some pivot) d = String.leb pivot d.
Proof.
  intros Hne. unfold on_or_after, truthy.
  destruct (String.eqb_spec pivot ""); [contradiction | reflexivity].
Qed.

Lemma adjustment_factor_withdraw (pivot d : string) :
  pivot <> "" ->
  adjustment_factor "withdraw" (Some pivot) d
  = if String.leb pivot d then 0.8 else 1.0.
Proof.
  intros Hne. unfold adjustment_factor. rewrite (on_or_after_Some _ _ Hne).
  now destruct (String.leb pivot d).
Qed.

Lemma adjustment_factor_add (pivot d : string) :
  pivot <> "" ->
  adjustment_factor "add" (Some pivot) d
  = if String.leb pivot d then 1.2 else 1.0.
Proof.
  intros Hne. unfold adjustment_factor. rewrite (on_or_after_Some _ _ Hne).
  now destruct (String.leb pivot d).
Qed.

(** Scaling by the investment amount commutes with a positive factor: the
    guard [portfolio_value > 0] has the same outcome on both sides. *)
Lemma scale_by_amount_factor (portfolio : option Portfolio) (raw k : Q) :
  0 < k ->
  scale_by_amount portfolio (raw * k)
  == k * scale_by_amount portfolio (raw * 1.0).
Proof.
  intros Hk. unfold scale_by_amount.
  destruct portfolio as [p|]; [|lra].
  destruct (investment_amount p) as [amount|]; [|lra].
  destruct (Qltb 0 (raw * k)) eqn:E1; destruct (Qltb 0 (raw * 1.0)) eqn:E2;
    try lra.
  - apply Qltb_lt in E1. apply Qltb_ge in E2. nra.
  - apply Qltb_ge in E1. apply Qltb_lt in E2. nra.
Qed.

(** C9: without a pivot date ([middle_date = None]) the "withdraw" and the
    "add" scenario produce exactly the "no_change" series: the adjustment
    factor stays 1.0 at every date. *)
Theorem no_pivot_is_no_change (event_data : EventData) (dates : list string)
    (portfolio : option Portfolio) :
  (forall scenario d, adjustment_factor scenario None d = 1.0)
  /\ calculate_scenario_performance event_data dates "withdraw" None portfolio
     = calculate_scenario_performance event_data dates "no_change" None portfolio
  /\ calculate_scenario_performance event_data dates "add" None portfolio
     = calculate_scenario_performance event_data dates "no_change" None portfolio.
Proof.
  split; [apply adjustment_factor_None|].
  unfold calculate_scenario_performance, scenario_value.
  split; apply map_ext; intros d; now rewrite !adjustment_factor_None.
Qed.

Lemma scenario_adjusted_from (event_data : EventData) (dates : list string)
    (scenario : string) (pivot : string) (k : Q)
    (hold_pivot : option string) (portfolio : option Portfolio) :
  0 < k ->
  (forall d, adjustment_factor scenario (Some pivot) d
             = if String.leb pivot d then k else 1.0) ->
  adjusted_from pivot k
    (calculate_scenario_performance event_data dates scenario (Some pivot)
       portfolio)
    (calculate_scenario_performance event_data dates "no_change" hold_pivot
       portfolio).
Proof.
  intros Hk Hfactor. unfold adjusted_from, calculate_scenario_performance.
  induction dates as [|d dates IH]; simpl; constructor; [|exact IH].
  simpl. split; [reflexivity|].
  unfold scenario_value. rewrite Hfactor, adjustment_factor_no_change.
  destruct (String.leb pivot d); [|reflexivity].
  now apply scale_by_amount_factor.
Qed.

(** ** The date axis *)

Lemma collect_dates_inner (asset_data : list DataPoint) (acc : gset string)
    (d : string) :
  d ∈ foldl (fun dates data_point => dates ∪ {[ dp_date data_point ]})
        acc asset_data
  <-> d ∈ acc \/ exists data_point, data_point ∈ asset_data
                                    /\ dp_date data_point = d.
Proof.
  revert acc. induction asset_data as [|p asset_data IH]; intros acc; simpl.
  - split; [auto | intros [H | (p & Hp & _)]; [exact H | inversion Hp]].
  - rewrite IH, elem_of_union, elem_of_singleton. split.
    + intros [[H | ->] | (q & Hq & Hd)]; [auto | right | right].
      * exists p. split; [left | reflexivity].
      * exists q. split; [now right | exact Hd].
    + intros [H | (q & Hq & Hd)]; [auto|].
      apply elem_of_cons in Hq as [-> | Hq]; [auto|].
      right. eauto.
Qed.

Lemma collect_dates_outer (event_data : EventData) (acc : gset string)
    (d : string) :
  d ∈ foldl (fun dates '(_, asset_data) =>
               foldl (fun dates data_point => dates ∪ {[ dp_date data_point ]})
                 dates asset_data) acc event_data
  <-> d ∈ acc \/ exists symbol asset_data data_point,
                   (symbol, asset_data) ∈ event_data
                   /\ data_point ∈ asset_data /\ dp_date data_point = d.
Proof.
  revert acc. induction event_data as [|[symbol asset_data] event_data IH];
    intros acc; simpl.
  - split; [auto | intros [H | (s & a & p & Hin & _)]; [exact H | inversion Hin]].
  - rewrite IH, collect_dates_inner. split.
    + intros [[H | (p & Hp & Hd)] | (s & a & p & Hin & Hp & Hd)]; [auto | right | right].
      * exists symbol, asset_data, p. split; [left | auto].
      * exists s, a, p. split; [now right | auto].
    + intros [H | (s & a & p & Hin & Hp & Hd)]; [auto|].
      apply elem_of_cons in Hin as [Heq | Hin].
      * injection Heq as -> ->. left. right. eauto.
      * right. eauto 6.
Qed.

Lemma elem_of_collect_dates (event_data : EventData) (d : string) :
  d ∈ collect_dates event_data
  <-> exists symbol asset_data data_point,
        (symbol, asset_data) ∈ event_data
        /\ data_point ∈ asset_data /\ dp_date data_point = d.
Proof.
  unfold collect_dates. rewrite collect_dates_outer. split; [|auto].
  intros [H | H]; [|exact H]. now apply not_elem_of_empty in H.
Qed.

Lemma date_axis_Permutation (event_data : EventData) :
  date_axis event_data ≡ₚ elements (collect_dates event_data).
Proof. apply merge_sort_Permutation. Qed.

Lemma elem_of_date_axis (event_data : EventData) (d : string) :
  d ∈ date_axis event_data
  <-> exists symbol asset_data data_point,
        (symbol, asset_data) ∈ event_data
        /\ data_point ∈ asset_data /\ dp_date data_point = d.
Proof.
  rewrite date_axis_Permutation, elem_of_elements.
  apply elem_of_collect_dates.
Qed.

Lemma date_axis_NoDup (event_data : EventData) : NoDup (date_axis event_data).
Proof.
  rewrite date_axis_Permutation. apply NoDup_elements.
Qed.

Lemma date_axis_Sorted (event_data : EventData) :
  StronglySorted String.le (date_axis event_data).
Proof.
  apply Sorted_StronglySorted; [apply _|].
  unfold date_axis, sorted. apply Sorted_merge_sort; apply _.
Qed.

Lemma StronglySorted_strict (l : list string) :
  StronglySorted String.le l -> NoDup l -> StronglySorted (strict String.le) l.
Proof.
  induction 1 as [|x l Hs IH Hall]; intros Hnd; constructor.
  - apply IH. now apply NoDup_cons in Hnd.
  - apply NoDup_cons in Hnd as [Hx _].
    rewrite Forall_forall in Hall |- *. intros y Hy. split; [now apply Hall|].
    intros Hyx. apply Hx.
    assert (x = y) as -> by (apply (anti_symm String.le); auto). exact Hy.
Qed.

Lemma date_axis_increasing (event_data : EventData) :
  StronglySorted (strict String.le) (date_axis event_data).
Proof.
  apply StronglySorted_strict; [apply date_axis_Sorted | apply date_axis_NoDup].
Qed.

(** ** Unfolding a simulation run *)

Lemma scenario_performance_dates (event_data : EventData)
    (dates : list string) (scenario : string) (middle_date : option string)
    (portfolio : option Portfolio) :
  List.map date
    (calculate_scenario_performance event_data dates scenario middle_date
       portfolio) = dates.
Proof.
  unfold calculate_scenario_performance. rewrite List.map_map. simpl.
  apply List.map_id.
Qed.

(** ** The scenario series in binary64 *)

Lemma digits2_pos_shift52 (m : positive) :
  Z.pos (digits2_pos (4503599627370496 * m)) = (Z.pos (digits2_pos m) + 52)%Z.
Proof.
  cbv [Pos.mul]. cbn [digits2_pos]. rewrite !Pos2Z.inj_succ. lia.
Qed.

Lemma SF64mul_1_r (x : spec_float) :
  valid_binary x = true -> SF64mul x (Prim2SF 1) = x.
Proof.
  change (Prim2SF 1) with (S754_finite false 4503599627370496 (-52)).
  destruct x as [s|s| |s m e]; intros Hv; cbn [SF64mul SFmul].
  - now rewrite xorb_false_r.
  - now rewrite xorb_false_r.
  - reflexivity.
  - rewrite xorb_false_r.
    cbn [SpecFloat.valid_binary] in Hv. unfold bounded, canonical_mantissa in Hv.
    apply andb_true_iff in Hv as [Hc He]. apply Z.eqb_eq in Hc.
    unfold binary_round_aux.
    rewrite (Pos.mul_comm m).
    unfold shr_fexp at 1. unfold Zdigits2.
    rewrite digits2_pos_shift52.
    replace (Z.pos (digits2_pos m) + 52 + (e + -52))%Z
      with (Z.pos (digits2_pos m) + e)%Z by lia.
    rewrite Hc.
    replace (e - (e + -52))%Z with 52%Z by lia.
    cbn [shr shr_record_of_loc].
    cbv [Pos.mul SpecFloat.iter_pos shr_1 orb].
    cbn [shr_m loc_of_shr_record shr_r shr_s round_nearest_even].
    replace (e + -52 + 52)%Z with e by lia.
    unfold shr_fexp, Zdigits2. rewrite Hc, Z.sub_diag.
    cbn [shr shr_record_of_loc shr_m].
    now rewrite He.
Qed.

Lemma float_mul_1_r (x : float) : (x * 1)%float = x.
Proof.
  apply Prim2SF_inj. rewrite mul_spec. apply SF64mul_1_r, Prim2SF_valid.
Qed.

Lemma adjustment_factor64_no_change (middle_date : option string) (d : string) :
  Binary64.adjustment_factor "no_change" middle_date d = 1%float.
Proof. reflexivity. Qed.

Lemma adjustment_factor64_withdraw (pivot d : string) :
  pivot <> "" ->
  Binary64.adjustment_factor "withdraw" (Some pivot) d
  = if String.leb pivot d then 0x1.999999999999ap-1%float else 1%float.
Proof.
  intros Hp. unfold Binary64.adjustment_factor.
  rewrite (on_or_after_Some _ _ Hp). simpl.
  destruct (String.leb pivot d); reflexivity.
Qed.

Lemma adjustment_factor64_add (pivot d : string) :
  pivot <> "" ->
  Binary64.adjustment_factor "add" (Some pivot) d
  = if String.leb pivot d then 0x1.3333333333333p+0%float else 1%float.
Proof.
  intros Hp. unfold Binary64.adjustment_factor.
  rewrite (on_or_after_Some _ _ Hp). simpl.
  destruct (String.leb pivot d); reflexivity.
Qed.

Lemma scenario_performance64_dates (event_data : Binary64.EventData)
    (dates : list string) (scenario : string) (middle_date : option string)
    (portfolio : option Binary64.Portfolio) :
  List.map Binary64.date
    (Binary64.calculate_scenario_performance event_data dates scenario
       middle_date portfolio) = dates.
Proof.
  unfold Binary64.calculate_scenario_performance. rewrite List.map_map. simpl.
  apply List.map_id.
Qed.

Lemma scenario_performance64_lookup (event_data : Binary64.EventData)
    (dates : list string) (scenario : string) (middle_date : option string)
    (portfolio : option Binary64.Portfolio) (i : nat) (d : string) :
  dates !! i = Some d ->
  Binary64.calculate_scenario_performance event_data dates scenario middle_date
    portfolio !! i
  = Some (Binary64.mkPoint d
            (Binary64.scenario_value event_data scenario middle_date portfolio d)).
Proof.
  unfold Binary64.calculate_scenario_performance. revert i.
  induction dates as [|a dates IH]; intros [|i] H; simpl in *; try discriminate.
  - now injection H as ->.
  - now apply IH.
Qed.

Lemma scale_by_amount64_no_amount (portfolio : option Binary64.Portfolio)
    (v : float) :
  Binary64.no_amount portfolio -> Binary64.scale_by_amount portfolio v = v.
Proof.
  unfold Binary64.no_amount, Binary64.scale_by_amount.
  destruct portfolio as [p|]; [|reflexivity]. now intros ->.
Qed.

Section Series64.

Variables (event_data : Binary64.EventData) (dates : list string).
Variables (pivot : string) (hold_pivot : option string).
Variable portfolio : option Binary64.Portfolio.
Hypothesis pivot_nonempty : pivot <> "".

Local Abbreviation series scenario middle_date :=
  (Binary64.calculate_scenario_performance event_data dates scenario
     middle_date portfolio).
Local Abbreviation scale := (Binary64.scale_by_amount portfolio).

Lemma hold_value64 (d : string) :
  Binary64.scenario_value event_data "no_change" hold_pivot portfolio d
  = scale (Binary64.raw_value event_data d).
Proof.
  unfold Binary64.scenario_value.
  now rewrite adjustment_factor64_no_change, float_mul_1_r.
Qed.

Lemma withdraw_value64 (d : string) :
  Binary64.scenario_value event_data "withdraw" (Some pivot) portfolio d
  = if String.leb pivot d
    then scale (Binary64.raw_value event_data d * 0x1.999999999999ap-1)%float
    else scale (Binary64.raw_value event_data d).
Proof.
  unfold Binary64.scenario_value.
  rewrite (adjustment_factor64_withdraw _ _ pivot_nonempty).
  destruct (String.leb pivot d); [reflexivity | now rewrite float_mul_1_r].
Qed.

Lemma add_value64 (d : string) :
  Binary64.scenario_value event_data "add" (Some pivot) portfolio d
  = if String.leb pivot d
    then scale (Binary64.raw_value event_data d * 0x1.3333333333333p+0)%float
    else scale (Binary64.raw_value event_data d).
Proof.
  unfold Binary64.scenario_value.
  rewrite (adjustment_factor64_add _ _ pivot_nonempty).
  destruct (String.leb pivot d); [reflexivity | now rewrite float_mul_1_r].
Qed.

Lemma series64_values (i : nat) (d : string) :
  dates !! i = Some d ->
  let raw := Binary64.raw_value event_data d in
  series "no_change" hold_pivot !! i = Some (Binary64.mkPoint d (scale raw))
  /\ series "withdraw" (Some pivot) !! i
     = Some (Binary64.mkPoint d
               (if String.leb pivot d
                then scale (raw * 0x1.999999999999ap-1)%float
                else scale raw))
  /\ series "add" (Some pivot) !! i
     = Some (Binary64.mkPoint d
               (if String.leb pivot d
                then scale (raw * 0x1.3333333333333p+0)%float
                else scale raw)).
Proof.
  intros Hi. cbv zeta.
  rewrite !(scenario_performance64_lookup _ _ _ _ _ _ _ Hi).
  now rewrite hold_value64, withdraw_value64, add_value64.
Qed.

Lemma series64_adjusted :
  Binary64.no_amount portfolio ->
  Binary64.adjusted_from pivot 0x1.999999999999ap-1
    (series "withdraw" (Some pivot)) (series "no_change" hold_pivot)
  /\ Binary64.adjusted_from pivot 0x1.3333333333333p+0
       (series "add" (Some pivot)) (series "no_change" hold_pivot).
Proof.
  intros Hno. unfold Binary64.adjusted_from, Binary64.calculate_scenario_performance.
  split; induction dates as [|d ds IH]; simpl; constructor; try exact IH;
    simpl; (split; [reflexivity|]);
    rewrite hold_value64, ?withdraw_value64, ?add_value64,
      !(scale_by_amount64_no_amount _ _ Hno);
    destruct (String.leb pivot d); reflexivity.
Qed.

End Series64.

(** C2 (as the code has it): for every event data, date list and pivot
    date (a date string, hence not empty) the "withdraw", "add" and
    "no_change" series carry exactly the given dates, and before the pivot
    the withdraw and add values are the Hold value itself.  From the pivot
    on, the code multiplies the date's weighted close sum by 0.8 (1.2)
    and then, when an investment amount is configured and the product is
    positive, by the amount; Hold multiplies the sum by 1.0 and then by
    the amount.  So the value is 0.8 (1.2) times the Hold value in exact
    arithmetic, and in binary64 it is the one rounded product
    [hold * 0.8] ([hold * 1.2]) when no investment amount is configured;
    with an amount the two agree only up to rounding. *)
Theorem withdraw_add_scale_hold (dates : list string) (pivot : string)
    (hold_pivot : option string)
    (event_data : EventData) (portfolio : option Portfolio)
    (event_data64 : Binary64.EventData)
    (portfolio64 : option Binary64.Portfolio) :
  pivot <> "" ->
  (let series scenario middle_date :=
     calculate_scenario_performance event_data dates scenario middle_date
       portfolio in
   List.map date (series "no_change" hold_pivot) = dates
   /\ List.map date (series "withdraw" (Some pivot)) = dates
   /\ List.map date (series "add" (Some pivot)) = dates
   /\ adjusted_from pivot 0.8 (series "withdraw" (Some pivot))
        (series "no_change" hold_pivot)
   /\ adjusted_from pivot 1.2 (series "add" (Some pivot))
        (series "no_change" hold_pivot))
  /\ (let series scenario middle_date :=
        Binary64.calculate_scenario_performance event_data64 dates scenario
          middle_date portfolio64 in
      let scale := Binary64.scale_by_amount portfolio64 in
      List.map Binary64.date (series "no_change" hold_pivot) = dates
      /\ List.map Binary64.date (series "withdraw" (Some pivot)) = dates
      /\ List.map Binary64.date (series "add" (Some pivot)) = dates
      /\ (Binary64.no_amount portfolio64 ->
          Binary64.adjusted_from pivot 0x1.999999999999ap-1
            (series "withdraw" (Some pivot)) (series "no_change" hold_pivot)
          /\ Binary64.adjusted_from pivot 0x1.3333333333333p+0
               (series "add" (Some pivot)) (series "no_change" hold_pivot))
      /\ (forall i d, dates !! i = Some d ->
            let raw := Binary64.raw_value event_data64 d in
            series "no_change" hold_pivot !! i
            = Some (Binary64.mkPoint d (scale raw))
            /\ series "withdraw" (Some pivot) !! i
               = Some (Binary64.mkPoint d
                         (if String.leb pivot d
                          then scale (raw * 0x1.999999999999ap-1)%float
                          else scale raw))
            /\ series "add" (Some pivot) !! i
               = Some (Binary64.mkPoint d
                         (if String.leb pivot d
                          then scale (raw * 0x1.3333333333333p+0)%float
                          else scale raw)))).
Proof.
  intros Hne. split; cbv beta zeta.
  - rewrite !scenario_performance_dates. repeat split;
      apply scenario_adjusted_from; try reflexivity; intros d;
      [now apply adjustment_factor_withdraw | now apply adjustment_factor_add].
  - rewrite !scenario_performance64_dates.
    split; [reflexivity|]. split; [reflexivity|]. split; [reflexivity|].
    split; [now apply series64_adjusted|].
    intros i d Hi. now apply series64_values.
Qed.

Lemma withdraw_add_scale_hold_witness :
  let dates := ["2020-01-01"; "2020-01-02"] in
  let series scenario middle_date :=
    calculate_scenario_performance sample_event_data dates scenario middle_date
      (Some funded_portfolio) in
  let series64 scenario middle_date :=
    Binary64.calculate_scenario_performance Binary64.three_dollar_event_data
      dates scenario middle_date None in
  (List.map date (series "no_change" None) = dates
   /\ List.map date (series "withdraw" (Some "2020-01-02")) = dates
   /\ List.map date (series "add" (Some "2020-01-02")) = dates
   /\ adjusted_from "2020-01-02" 0.8 (series "withdraw" (Some "2020-01-02"))
        (series "no_change" None)
   /\ adjusted_from "2020-01-02" 1.2 (series "add" (Some "2020-01-02"))
        (series "no_change" None))
  /\ List.map Binary64.date (series64 "no_change" None) = dates
  /\ List.map Binary64.date (series64 "withdraw" (Some "2020-01-02")) = dates
  /\ List.map Binary64.date (series64 "add" (Some "2020-01-02")) = dates
  /\ Binary64.adjusted_from "2020-01-02" 0x1.999999999999ap-1
       (series64 "withdraw" (Some "2020-01-02")) (series64 "no_change" None)
  /\ Binary64.adjusted_from "2020-01-02" 0x1.3333333333333p+0
       (series64 "add" (Some "2020-01-02")) (series64 "no_change" None)
  /\ series64 "withdraw" (Some "2020-01-02") !! 1%nat
     = Some (Binary64.mkPoint "2020-01-02" 0x1.3333333333334p+1).
Proof.
  cbv zeta.
  destruct (withdraw_add_scale_hold ["2020-01-01"; "2020-01-02"] "2020-01-02"
              None sample_event_data (Some funded_portfolio)
              Binary64.three_dollar_event_data None)
    as [Hexact (Hh & Hw & Ha & Hno & Hval)]; [discriminate|].
  cbv zeta in Hexact. split; [exact Hexact|].
  split; [exact Hh|]. split; [exact Hw|]. split; [exact Ha|].
  destruct (Hno I) as [Hw8 Ha12]. split; [exact Hw8|]. split; [exact Ha12|].
  destruct (Hval 1%nat "2020-01-02" eq_refl) as (_ & -> & _).
  vm_compute. reflexivity.
Defined.

(** C2 fails as stated: with an investment amount of 7 and a weighted sum
    of 3.0 the code's withdraw value is 3.0 * 0.8 * 7.0 =
    16.800000000000004, while the Hold value 21.0 times 0.8 is 16.8. *)
Lemma withdraw_binary64_counterexample :
  let dates := ["2020-01-01"; "2020-01-02"] in
  let portfolio := Some Binary64.seven_fold_portfolio in
  let withdraw :=
    Binary64.calculate_scenario_performance Binary64.three_dollar_event_data
      dates "withdraw" (Some "2020-01-02") portfolio in
  let hold :=
    Binary64.calculate_scenario_performance Binary64.three_dollar_event_data
      dates "no_change" None portfolio in
  exists w h,
    withdraw !! 1%nat = Some (Binary64.mkPoint "2020-01-02" w)
    /\ hold !! 1%nat = Some (Binary64.mkPoint "2020-01-02" h)
    /\ String.leb "2020-01-02" "2020-01-02" = true
    /\ h = 21%float
    /\ w = 0x1.0cccccccccccep+4%float
    /\ (h * 0x1.999999999999ap-1)%float = 0x1.0cccccccccccdp+4%float
    /\ (w =? h * 0x1.999999999999ap-1)%float = false
    /\ (w =? 0x1.999999999999ap-1 * h)%float = false.
Proof.
  cbv zeta. do 2 eexists. split; [vm_compute; reflexivity|].
  split; [vm_compute; reflexivity|].
  repeat split; vm_compute; reflexivity.
Qed.

Lemma run_scenario_Ok (label : string) (points : list Point)
    (r : SimulationResult) :
  run_scenario label points = Ok r ->
  exists m, calculate_performance_metrics points = Ok m
            /\ r = mkSimulationResult label points (total_return m)
                     (max_drawdown m) (recovery_days m).
Proof.
  unfold run_scenario. intros H. apply bind_Ok in H as (m & Hm & H).
  injection H as <-. eauto.
Qed.

Lemma middle_index_in_range (dates : list string) :
  dates <> [] -> exists pivot, dates !! (length dates / 2)%nat = Some pivot.
Proof.
  intros Hne. apply lookup_lt_is_Some.
  destruct dates; [contradiction|]. simpl length.
  apply Nat.div_lt; lia.
Qed.

Lemma simulate_empty (portfolio : Portfolio) (event_data : EventData)
    (openai_reply : option string) :
  date_axis event_data = [] ->
  simulate_portfolio_event portfolio event_data openai_reply
  = Raise (HTTPException 400 "Insufficient market data for simulation").
Proof.
  intros E. unfold simulate_portfolio_event. now rewrite E.
Qed.

Section Run.

Variables (portfolio : Portfolio) (event_data : EventData).
Variable openai_reply : option string.

Local Abbreviation dates := (date_axis event_data).
Local Abbreviation series scenario middle_date :=
  (calculate_scenario_performance event_data dates scenario middle_date
     (Some portfolio)).
Local Abbreviation entry label points m :=
  (mkSimulationResult label points (total_return m) (max_drawdown m)
     (recovery_days m)).

Lemma simulate_unfold (pivot : string) :
  dates !! (length dates / 2)%nat = Some pivot ->
  simulate_portfolio_event portfolio event_data openai_reply =
  (no_change ← run_scenario "No Changes" (series "no_change" None);
   withdraw ← run_scenario "20% Withdrawal" (series "withdraw" (Some pivot));
   add ← run_scenario "20% Addition" (series "add" (Some pivot));
   Ok (mkSimulation pivot [no_change; withdraw; add]
         (generate_investment_advice [no_change; withdraw; add]
            openai_reply))).
Proof.
  intros Hpivot. unfold simulate_portfolio_event.
  destruct dates as [|d ds] eqn:E; [discriminate|].
  rewrite <- E in *.
  replace (length dates =? 0)%nat with false by (rewrite E; reflexivity).
  unfold getitem. rewrite Hpivot. reflexivity.
Qed.

Lemma simulate_Ok (sim : Simulation) :
  simulate_portfolio_event portfolio event_data openai_reply = Ok sim ->
  exists pivot m_hold m_withdraw m_add,
    dates !! (length dates / 2)%nat = Some pivot
    /\ calculate_performance_metrics (series "no_change" None) = Ok m_hold
    /\ calculate_performance_metrics (series "withdraw" (Some pivot))
       = Ok m_withdraw
    /\ calculate_performance_metrics (series "add" (Some pivot)) = Ok m_add
    /\ let results :=
         [entry "No Changes" (series "no_change" None) m_hold;
          entry "20% Withdrawal" (series "withdraw" (Some pivot)) m_withdraw;
          entry "20% Addition" (series "add" (Some pivot)) m_add] in
       sim = mkSimulation pivot results
               (generate_investment_advice results openai_reply).
Proof.
  intros H.
  destruct (decide (dates = [])) as [E|E].
  { rewrite (simulate_empty _ _ _ E) in H. discriminate. }
  destruct (middle_index_in_range _ E) as [pivot Hpivot].
  rewrite (simulate_unfold _ Hpivot) in H.
  apply bind_Ok in H as (nc & Hnc & H).
  apply bind_Ok in H as (w & Hw & H).
  apply bind_Ok in H as (a & Ha & H).
  apply run_scenario_Ok in Hnc as (mn & Hmn & ->).
  apply run_scenario_Ok in Hw as (mw & Hmw & ->).
  apply run_scenario_Ok in Ha as (ma & Hma & ->).
  injection H as <-. exists pivot, mn, mw, ma. auto.
Qed.

Lemma simulate_returns (pivot : string) :
  dates !! (length dates / 2)%nat = Some pivot ->
  returns (calculate_performance_metrics (series "no_change" None)) ->
  returns (calculate_performance_metrics (series "withdraw" (Some pivot))) ->
  returns (calculate_performance_metrics (series "add" (Some pivot))) ->
  returns (simulate_portfolio_event portfolio event_data openai_reply).
Proof.
  intros Hpivot [mn Hmn] [mw Hmw] [ma Hma].
  rewrite (simulate_unfold _ Hpivot). unfold run_scenario.
  rewrite Hmn, Hmw, Hma. simpl. eexists. reflexivity.
Qed.

End Run.


(** ** Axis, pivot and the three scenarios *)

Lemma StronglySorted_lookup_lt {A} (R : relation A) (l : list A) (i j : nat)
    (x y : A) :
  StronglySorted R l -> (i < j)%nat ->
  l !! i = Some x -> l !! j = Some y -> R x y.
Proof.
  intros Hs. revert i j. induction Hs as [|a l Hs IH Hall]; intros i j Hij Hi Hj.
  - now rewrite lookup_nil in Hi.
  - destruct j as [|j]; [lia|]. simpl in Hj. destruct i as [|i].
    + injection Hi as <-. rewrite Forall_forall in Hall.
      apply Hall. eapply list_elem_of_lookup_2. exact Hj.
    + simpl in Hi. apply (IH i j); [lia | assumption | assumption].
Qed.

Lemma axis_on_or_after (dates : list string) (k i : nat) (pivot d : string) :
  StronglySorted (strict String.le) dates ->
  dates !! k = Some pivot -> dates !! i = Some d ->
  String.leb pivot d = bool_decide (k <= i)%nat.
Proof.
  intros Hs Hk Hi. case_bool_decide as Hki.
  - apply Is_true_true. destruct (decide (k = i)) as [->|Hne].
    + rewrite Hk in Hi. injection Hi as ->. apply (reflexivity (R := String.le)).
    + apply (StronglySorted_lookup_lt _ _ k i pivot d Hs); [lia | assumption..].
  - apply not_true_is_false. intros Hle. apply Is_true_true in Hle.
    assert (strict String.le d pivot) as [_ Hn]
      by (apply (StronglySorted_lookup_lt _ _ i k d pivot Hs); [lia | assumption..]).
    now apply Hn.
Qed.

Lemma max_by_total_return_spec (items : list (string * Metrics))
    (best : string * Metrics) :
  max_by_total_return items best ∈ best :: items
  /\ forall x, x ∈ best :: items ->
       total_return (snd x) <= total_return (snd (max_by_total_return items best)).
Proof.
  revert best. induction items as [|y items IH]; intros best; simpl.
  - split; [left|]. intros x Hx. apply list_elem_of_singleton in Hx as ->. lra.
  - destruct (Qltb (total_return (snd best)) (total_return (snd y))) eqn:E.
    + destruct (IH y) as [Hin Hmax]. split; [now right|].
      intros x Hx. apply elem_of_cons in Hx as [->|Hx]; [|now apply Hmax].
      apply Qltb_lt in E. specialize (Hmax y ltac:(left)). lra.
    + destruct (IH best) as [Hin Hmax]. split.
      * apply elem_of_cons in Hin as [->|Hin]; [left | right; now right].
      * intros x Hx. apply elem_of_cons in Hx as [->|Hx]; [apply Hmax; left|].
        apply elem_of_cons in Hx as [->|Hx]; [|apply Hmax; now right].
        apply Qltb_ge in E. specialize (Hmax best ltac:(left)). lra.
Qed.

Lemma advice_of_three (p1 p2 p3 : list Point) (m1 m2 m3 : Metrics)
    (openai_reply : option string) :
  generate_investment_advice
    [mkSimulationResult "No Changes" p1 (total_return m1) (max_drawdown m1)
       (recovery_days m1);
     mkSimulationResult "20% Withdrawal" p2 (total_return m2) (max_drawdown m2)
       (recovery_days m2);
     mkSimulationResult "20% Addition" p3 (total_return m3) (max_drawdown m3)
       (recovery_days m3)] openai_reply
  = match openai_reply with
    | Some reply =>
        mkAdvice
          (fst (max_by_total_return
                  [("20% Withdrawal", m2); ("20% Addition", m3)]
                  ("No Changes", m1))) reply
    | None => mkAdvice "No Changes" fallback_text
    end.
Proof.
  destruct m1, m2, m3. destruct openai_reply; reflexivity.
Qed.

(** C5: the axis of a simulation is the set of all dates present in any
    asset's series, strictly ascending (hence without duplicates); every
    returned series runs over exactly this axis; an empty axis makes the
    simulation fail with HTTP 400 "Insufficient market data" and no
    scenario result. *)
Theorem axis_is_sorted_union (portfolio : Portfolio) (event_data : EventData)
    (openai_reply : option string) :
  let dates := date_axis event_data in
  (forall d, d ∈ dates
             <-> exists symbol asset_data data_point,
                   (symbol, asset_data) ∈ event_data
                   /\ data_point ∈ asset_data /\ dp_date data_point = d)
  /\ StronglySorted (strict String.le) dates
  /\ NoDup dates
  /\ (dates = [] ->
      simulate_portfolio_event portfolio event_data openai_reply
      = Raise (HTTPException 400 "Insufficient market data for simulation"))
  /\ (forall sim,
        simulate_portfolio_event portfolio event_data openai_reply = Ok sim ->
        dates <> []
        /\ Forall (fun r => List.map date (performance r) = dates)
             (simulation_results sim)).
Proof.
  cbv zeta. split; [apply elem_of_date_axis|].
  split; [apply date_axis_increasing|].
  split; [apply date_axis_NoDup|].
  split; [apply simulate_empty|].
  intros sim Hsim. split.
  - intros E. rewrite (simulate_empty _ _ _ E) in Hsim. discriminate.
  - apply simulate_Ok in Hsim as (pivot & mn & mw & ma & _ & _ & _ & _ & ->).
    simpl. repeat constructor; simpl; apply scenario_performance_dates.
Qed.

(** C8 (as the code has it): on a non-empty axis the run returns exactly
    when each of the three metric computations returns (a fault in one
    aborts the whole run); a returned run lists No Changes, 20% Withdrawal
    and 20% Addition in this order; the best scenario is one of maximal
    total_return when the advice call succeeded and "No Changes" when it
    failed. *)
Theorem three_scenarios_and_best (portfolio : Portfolio)
    (event_data : EventData) (openai_reply : option string) :
  let dates := date_axis event_data in
  let series scenario middle_date :=
    calculate_scenario_performance event_data dates scenario middle_date
      (Some portfolio) in
  dates <> [] ->
  exists pivot,
    dates !! (length dates / 2)%nat = Some pivot
    /\ (returns (simulate_portfolio_event portfolio event_data openai_reply)
        <-> returns (calculate_performance_metrics (series "no_change" None))
            /\ returns (calculate_performance_metrics
                          (series "withdraw" (Some pivot)))
            /\ returns (calculate_performance_metrics
                          (series "add" (Some pivot))))
    /\ (forall sim,
          simulate_portfolio_event portfolio event_data openai_reply = Ok sim ->
          List.map scenario (simulation_results sim)
          = ["No Changes"; "20% Withdrawal"; "20% Addition"]
          /\ match openai_reply with
             | Some _ =>
                 exists r, r ∈ simulation_results sim
                           /\ scenario r = best_scenario (advice sim)
                           /\ forall r', r' ∈ simulation_results sim ->
                                res_total_return r' <= res_total_return r
             | None => best_scenario (advice sim) = "No Changes"
             end).
Proof.
  cbv zeta. intros Hne.
  destruct (middle_index_in_range _ Hne) as [pivot Hpivot].
  exists pivot. split; [exact Hpivot|]. split.
  - split.
    + intros [sim Hsim].
      apply simulate_Ok in Hsim as (pivot' & mn & mw & ma & Hp' & Hn & Hw & Ha & _).
      rewrite Hpivot in Hp'. injection Hp' as <-.
      unfold returns. repeat split; eexists; eassumption.
    + intros (Hn & Hw & Ha). now apply (simulate_returns _ _ _ pivot).
  - intros sim Hsim.
    apply simulate_Ok in Hsim as (pivot' & mn & mw & ma & _ & _ & _ & _ & ->).
    cbv zeta. split; [reflexivity|]. cbn [advice simulation_results].
    rewrite advice_of_three. destruct openai_reply as [reply|]; [|reflexivity].
    cbn [best_scenario].
    destruct (max_by_total_return_spec
                [("20% Withdrawal", mw); ("20% Addition", ma)]
                ("No Changes", mn)) as [Hin Hmax].
    set (best := max_by_total_return _ _) in *.
    assert (forall r', r' ∈ [mkSimulationResult "No Changes"
                               (calculate_scenario_performance event_data
                                  (date_axis event_data) "no_change" None
                                  (Some portfolio))
                               (total_return mn) (max_drawdown mn) (recovery_days mn);
                             mkSimulationResult "20% Withdrawal"
                               (calculate_scenario_performance event_data
                                  (date_axis event_data) "withdraw" (Some pivot')
                                  (Some portfolio))
                               (total_return mw) (max_drawdown mw) (recovery_days mw);
                             mkSimulationResult "20% Addition"
                               (calculate_scenario_performance event_data
                                  (date_axis event_data) "add" (Some pivot')
                                  (Some portfolio))
                               (total_return ma) (max_drawdown ma) (recovery_days ma)] ->
              res_total_return r' <= total_return (snd best)) as Hall.
    { intros r' Hr'.
      apply elem_of_cons in Hr' as [->|Hr'];
        [apply (Hmax ("No Changes", mn)); left|].
      apply elem_of_cons in Hr' as [->|Hr'];
        [apply (Hmax ("20% Withdrawal", mw)); right; left|].
      apply list_elem_of_singleton in Hr' as ->.
      apply (Hmax ("20% Addition", ma)). right; right; left. }
    apply elem_of_cons in Hin as [Hb|Hin]; [|apply elem_of_cons in Hin as [Hb|Hin];
      [|apply list_elem_of_singleton in Hin as Hb]]; rewrite Hb in Hall |- *;
      eexists.
    + split; [left | split; [reflexivity | exact Hall]].
    + split; [right; left | split; [reflexivity | exact Hall]].
    + split; [right; right; left | split; [reflexivity | exact Hall]].
Qed.

Lemma three_scenarios_and_best_witness :
  exists sim,
    simulate_portfolio_event sample_portfolio sample_event_data
      (Some "Adding at the pivot did best.") = Ok sim
    /\ List.map scenario (simulation_results sim)
       = ["No Changes"; "20% Withdrawal"; "20% Addition"]
    /\ best_scenario (advice sim) = "20% Addition"
    /\ exists r, r ∈ simulation_results sim
                 /\ scenario r = best_scenario (advice sim)
                 /\ forall r', r' ∈ simulation_results sim ->
                      res_total_return r' <= res_total_return r.
Proof.
  assert (date_axis sample_event_data <> []) as Hne by (vm_compute; discriminate).
  destruct (three_scenarios_and_best sample_portfolio sample_event_data
              (Some "Adding at the pivot did best.") Hne)
    as (pivot & _ & _ & Hsim).
  eexists. split; [vm_compute; reflexivity|].
  split; [reflexivity|]. split; [reflexivity|].
  apply Hsim. vm_compute. reflexivity.
Defined.

(** C8 fails as stated.  On a window where the asset is quoted at 0 the
    axis is not empty, yet the run raises ZeroDivisionError and returns no
    scenario at all.  And when the advice call fails, the best scenario is
    "No Changes" although 20% Addition has the greater total_return. *)
Lemma three_scenarios_counterexample :
  (date_axis flat_zero_event_data <> []
   /\ simulate_portfolio_event sample_portfolio flat_zero_event_data
        (Some "Hold.") = Raise ZeroDivisionError)
  /\ exists sim hold add,
       simulate_portfolio_event sample_portfolio sample_event_data None = Ok sim
       /\ simulation_results sim !! 0%nat = Some hold
       /\ simulation_results sim !! 2%nat = Some add
       /\ scenario hold = best_scenario (advice sim)
       /\ res_total_return hold < res_total_return add.
Proof.
  split.
  - split; [vm_compute; discriminate | vm_compute; reflexivity].
  - do 3 eexists. split; [vm_compute; reflexivity|].
    split; [reflexivity|]. split; [reflexivity|]. split; reflexivity.
Qed.

(** ** Calendar facts *)

Section DateFacts.

Import PyDate.
Local Open Scope Z_scope.

Lemma strptime_valid (s : string) (d : date) : strptime s = Ok d -> valid d.
Proof.
  unfold strptime, valid. intros H.
  destruct (parse_Y s) as [[y s1]|]; [|discriminate].
  destruct (expect "-"%char s1) as [s2|]; [|discriminate].
  destruct (parse_m s2) as [[m s3]|]; [|discriminate].
  destruct (expect "-"%char s3) as [s4|]; [|discriminate].
  destruct (parse_d s4) as [[dd [|? ?]]|]; try discriminate.
  destruct (check_date_fields y m dd) eqn:E; [|discriminate].
  injection H as <-. exact E.
Qed.

Lemma div_pred (y n : Z) :
  0 < n -> (y - 1) / n = y / n - (if y mod n =? 0 then 1 else 0).
Proof.
  intros Hn. assert (n <> 0) as Hn0 by lia.
  pose proof (Z.div_mod y n Hn0) as Hy.
  pose proof (Z.mod_pos_bound y n Hn) as Hb.
  destruct (y mod n =? 0) eqn:E.
  - apply Z.eqb_eq in E. symmetry.
    apply (Z.div_unique _ _ _ (n - 1)); [lia | nia].
  - apply Z.eqb_neq in E. symmetry.
    apply (Z.div_unique _ _ _ (y mod n - 1)); [lia | nia].
Qed.

Lemma mod_of_multiple (y n k : Z) :
  n <> 0 -> k <> 0 -> y mod (k * n) = 0 -> y mod n = 0.
Proof.
  intros Hn Hk H. apply Z.mod_divide in H; [|lia]. apply Z.mod_divide; [lia|].
  destruct H as [c ->]. exists (c * k). ring.
Qed.

Lemma mod_4_of_100 (y : Z) : y mod 100 = 0 -> y mod 4 = 0.
Proof. apply (mod_of_multiple y 4 25); lia. Qed.

Lemma mod_100_of_400 (y : Z) : y mod 400 = 0 -> y mod 100 = 0.
Proof. apply (mod_of_multiple y 100 4); lia. Qed.

Lemma days_before_year_succ (y : Z) :
  _days_before_year (y + 1)
  = _days_before_year y + 365 + (if _is_leap y then 1 else 0).
Proof.
  unfold _days_before_year, _is_leap. cbv zeta.
  replace (y + 1 - 1) with y by lia.
  rewrite !div_pred by lia.
  pose proof (mod_4_of_100 y). pose proof (mod_100_of_400 y).
  destruct (y mod 4 =? 0) eqn:E4; destruct (y mod 100 =? 0) eqn:E100;
    destruct (y mod 400 =? 0) eqn:E400; simpl;
    rewrite ?Z.eqb_eq, ?Z.eqb_neq in *; lia.
Qed.

Lemma days_before_year_mono (y y' : Z) :
  y <= y' -> _days_before_year y <= _days_before_year y'.
Proof.
  intros H. replace y' with (y + (y' - y)) by lia.
  assert (0 <= y' - y) as Hn by lia. revert Hn. generalize (y' - y). clear.
  intros n Hn. pattern n. apply natlike_ind; [rewrite Z.add_0_r; lia | | exact Hn].
  intros x Hx IH. replace (y + Z.succ x) with (y + x + 1) by lia.
  rewrite days_before_year_succ. destruct (_is_leap (y + x)); lia.
Qed.

Lemma days_before_month_bound (y m d : Z) :
  check_date_fields y m d = true ->
  1 <= _days_before_month y m + d <= 365 + (if _is_leap y then 1 else 0).
Proof.
  unfold check_date_fields. rewrite !andb_true_iff, !Z.leb_le.
  intros [[[[[Hy1 Hy2] Hm1] Hm2] Hd1] Hd2].
  unfold _days_before_month, _days_in_month in *.
  assert (m = 1 \/ m = 2 \/ m = 3 \/ m = 4 \/ m = 5 \/ m = 6 \/ m = 7
          \/ m = 8 \/ m = 9 \/ m = 10 \/ m = 11 \/ m = 12) as Hm by lia.
  destruct (_is_leap y);
    repeat (destruct Hm as [-> | Hm]; [simpl in *; lia|]); subst m; simpl in *; lia.
Qed.

Lemma days_before_month_lt (y m d m' d' : Z) :
  check_date_fields y m d = true -> check_date_fields y m' d' = true ->
  m < m' -> _days_before_month y m + d < _days_before_month y m' + d'.
Proof.
  unfold check_date_fields. rewrite !andb_true_iff, !Z.leb_le.
  intros [[[[[Hy1 Hy2] Hm1] Hm2] Hd1] Hd2] [[[[[_ _] Hm1'] Hm2'] Hd1'] Hd2'] Hlt.
  unfold _days_before_month, _days_in_month in *.
  assert (m = 1 \/ m = 2 \/ m = 3 \/ m = 4 \/ m = 5 \/ m = 6 \/ m = 7
          \/ m = 8 \/ m = 9 \/ m = 10 \/ m = 11 \/ m = 12) as Hm by lia.
  assert (m' = 1 \/ m' = 2 \/ m' = 3 \/ m' = 4 \/ m' = 5 \/ m' = 6 \/ m' = 7
          \/ m' = 8 \/ m' = 9 \/ m' = 10 \/ m' = 11 \/ m' = 12) as Hm' by lia.
  destruct (_is_leap y);
    repeat (destruct Hm as [-> | Hm]; [|]); subst;
    repeat (destruct Hm' as [-> | Hm']; [try lia; simpl in *; lia|]);
    subst; try lia; simpl in *; lia.
Qed.

Lemma toordinal_lt (a b : date) :
  valid a -> valid b -> lt a b -> toordinal a < toordinal b.
Proof.
  unfold valid, lt, toordinal. destruct a as [ya ma da], b as [yb mb db]. simpl.
  intros Ha Hb [Hy | [[-> Hm] | (-> & -> & Hd)]].
  - pose proof (days_before_month_bound _ _ _ Ha).
    pose proof (days_before_month_bound _ _ _ Hb).
    pose proof (days_before_year_succ ya).
    assert (ya + 1 <= yb) as Hle by lia.
    pose proof (days_before_year_mono (ya + 1) yb Hle). lia.
  - pose proof (days_before_month_lt _ _ _ _ _ Ha Hb Hm). lia.
  - lia.
Qed.

End DateFacts.

(** ** Drawdown, trough and recovery *)

Lemma drawdown_step_sign (peak v : Q) :
  0 < peak -> v <= peak ->
  0 <= (peak - v) / peak * 100 /\ ((peak - v) / peak * 100 == 0 <-> v == peak).
Proof.
  intros Hp Hv. unfold Qdiv.
  pose proof (Qinv_lt_0_compat _ Hp) as Hi.
  set (x := / peak) in *. split; [nra|]. split; intros H; nra.
Qed.

Lemma drawdown_loop_ge (points : list Point) (peak dd r : Q) :
  drawdown_loop points peak dd = Ok r -> dd <= r.
Proof.
  revert peak dd. induction points as [|p points IH]; intros peak dd H; simpl in H.
  - injection H as <-. lra.
  - apply bind_Ok in H as (q & _ & H). apply IH in H.
    pose proof (pymax_ge_l dd (q * 100)). lra.
Qed.

Lemma nondecreasing_cons (p : Point) (points : list Point) :
  nondecreasing (p :: points)
  <-> Forall (fun q => value p <= value q) points /\ nondecreasing points.
Proof. apply StronglySorted_cons. Qed.

Lemma drawdown_loop_pos (points : list Point) (peak dd : Q) :
  0 < peak -> 0 <= dd ->
  exists r, drawdown_loop points peak dd = Ok r
            /\ (r == 0 <-> dd == 0
                           /\ Forall (fun q => peak <= value q) points
                           /\ nondecreasing points).
Proof.
  revert peak dd. induction points as [|p points IH]; intros peak dd Hp Hd; simpl.
  - exists dd. split; [reflexivity|]. split; [intros H|intros [H _]; exact H].
    split; [exact H|]. split; constructor.
  - set (peak' := if Qltb peak (value p) then value p else peak).
    assert (0 < peak' /\ value p <= peak' /\ peak <= peak'
            /\ (peak <= value p -> peak' == value p)) as (Hp' & Hv & Hpp & Heq).
    { unfold peak'. destruct (Qltb peak (value p)) eqn:E.
      - apply Qltb_lt in E. repeat split; try lra.
      - apply Qltb_ge in E. repeat split; try lra. }
    rewrite pydiv_nonzero by lra. simpl.
    destruct (drawdown_step_sign peak' (value p) Hp' Hv) as [Hc0 Hc].
    pose proof (pymax_ge_l dd ((peak' - value p) / peak' * 100)) as Hmax.
    destruct (IH peak' (pymax dd ((peak' - value p) / peak' * 100)) Hp' ltac:(lra))
      as (r & Hr & Hiff).
    exists r. split; [exact Hr|]. rewrite Hiff, (pymax_zero _ _ Hd Hc0), Hc.
    rewrite nondecreasing_cons, Forall_cons. split.
    + intros ((H1 & H2) & H3 & H4). split; [exact H1|].
      assert (Forall (fun q => value p <= value q) points) as H5.
      { eapply Forall_impl; [exact H3|]. simpl. intros q Hq. lra. }
      split; [split|split]; auto; try lra.
      eapply Forall_impl; [exact H3|]. simpl. intros q Hq. lra.
    + intros (H1 & (H2 & H3) & H4 & H5). specialize (Heq H2).
      split; [split; [exact H1 | lra]|]. split; [|exact H5].
      eapply Forall_impl; [exact H4|]. simpl. intros q Hq. lra.
Qed.

Lemma metrics_Ok (first second : Point) (rest : list Point) (m : Metrics) :
  let performance_data := first :: second :: rest in
  calculate_performance_metrics performance_data = Ok m ->
  exists final q,
    performance_data !! (length performance_data - 1)%nat = Some final
    /\ pydiv (value final - value first) (value first) = Ok q
    /\ total_return m = q * 100
    /\ drawdown_loop performance_data (value first) 0 = Ok (max_drawdown m)
    /\ (let lowest_point_idx := argmin_from (second :: rest) 1 0 (value first) in
        if (lowest_point_idx <? length performance_data - 1)%nat
        then
          lowest ← getitem performance_data lowest_point_idx;
          lowest_date ← PyDate.strptime (date lowest);
          recovery_scan (drop (S lowest_point_idx) performance_data)
            (value first) lowest_date
        else Ok None) = Ok (recovery_days m).
Proof.
  cbv zeta. rewrite metrics_unfold. cbv zeta. intros H.
  apply bind_Ok in H as (final & Hfinal & H).
  apply bind_Ok in H as (q & Hq & H).
  apply bind_Ok in H as (dd & Hdd & H).
  apply bind_Ok in H as (rec & Hrec & H).
  injection H as <-. exists final, q. simpl total_return. simpl max_drawdown.
  simpl recovery_days. split; [|auto].
  unfold getitem in Hfinal.
  destruct (_ !! _) as [x|]; [|discriminate]. now injection Hfinal as ->.
Qed.

Lemma argmin_from_spec (rest pre : list Point) (best : nat) (low : Point) :
  is_trough pre best low ->
  exists low',
    is_trough (pre ++ rest)
      (argmin_from rest (length pre) best (value low)) low'.
Proof.
  revert pre best low. induction rest as [|p rest IH]; intros pre best low Hlow.
  - simpl. rewrite app_nil_r. eauto.
  - simpl. replace (pre ++ p :: rest) with ((pre ++ [p]) ++ rest)
      by (now rewrite <- app_assoc).
    replace (S (length pre)) with (length (pre ++ [p]))
      by (rewrite length_app; simpl; lia).
    destruct Hlow as (Hl & Hmin & Hfirst).
    assert (forall j q, (pre ++ [p]) !! j = Some q ->
              (pre !! j = Some q /\ (j < length pre)%nat)
              \/ (j = length pre /\ q = p)) as Hsplit.
    { intros j q Hj. destruct (decide (j < length pre)%nat) as [Hlt|Hge].
      - left. rewrite lookup_app_l in Hj by exact Hlt. auto.
      - right. rewrite lookup_app_r in Hj by lia.
        destruct (j - length pre)%nat as [|n] eqn:E; simpl in Hj.
        + injection Hj as <-. split; [lia | reflexivity].
        + now rewrite lookup_nil in Hj. }
    destruct (Qltb (value p) (value low)) eqn:E.
    + apply Qltb_lt in E. apply IH. repeat split.
      * rewrite lookup_app_r by lia. now rewrite Nat.sub_diag.
      * intros j q Hj. apply Hsplit in Hj as [[Hj _] | [_ ->]]; [|lra].
        specialize (Hmin _ _ Hj). lra.
      * intros j q Hlt Hj. apply Hsplit in Hj as [[Hj _] | [-> _]]; [|lia].
        specialize (Hmin _ _ Hj). lra.
    + apply Qltb_ge in E. apply IH. repeat split.
      * apply lookup_app_l_Some. exact Hl.
      * intros j q Hj. apply Hsplit in Hj as [[Hj _] | [_ ->]]; [|lra].
        now apply (Hmin j).
      * intros j q Hlt Hj. apply Hsplit in Hj as [[Hj _] | [-> _]].
        -- now apply (Hfirst j).
        -- apply lookup_lt_Some in Hl. lia.
Qed.

Lemma lowest_point_index_spec (p : Point) (points : list Point) :
  exists t low, lowest_point_index (p :: points) = Ok t
                /\ t = argmin_from points 1 0 (value p)
                /\ is_trough (p :: points) t low.
Proof.
  unfold lowest_point_index. eexists.
  enough (exists low, is_trough (p :: points) (argmin_from points 1 0 (value p)) low)
    as [low Hlow] by eauto.
  destruct (argmin_from_spec points [p] 0 p) as [low Hlow]; [|eauto].
  repeat split.
  - intros [|j] q Hj; simpl in Hj; [injection Hj as <-; lra|].
    now rewrite lookup_nil in Hj.
  - intros j q Hj. lia.
Qed.

Lemma recovery_scan_spec (points : list Point) (initial_value : Q)
    (lowest_date : PyDate.date) (r : option Z) :
  recovery_scan points initial_value lowest_date = Ok r ->
  (r = None /\ Forall (fun p => value p < initial_value) points)
  \/ exists k pk d_rec,
       points !! k = Some pk /\ initial_value <= value pk
       /\ (forall j pj, (j < k)%nat -> points !! j = Some pj ->
                        value pj < initial_value)
       /\ PyDate.strptime (date pk) = Ok d_rec
       /\ r = Some (PyDate.days_between lowest_date d_rec).
Proof.
  induction points as [|p points IH]; simpl; intros H.
  - injection H as <-. left. split; [reflexivity | constructor].
  - destruct (Qle_bool initial_value (value p)) eqn:E.
    + apply Qle_bool_iff in E. apply bind_Ok in H as (d_rec & Hd & H).
      injection H as <-. right. exists 0%nat, p, d_rec.
      repeat split; auto. intros j pj Hj. lia.
    + apply Qle_bool_gt in E. destruct (IH H) as [[-> Hall] | (k & pk & d & Hk & Hv & Hbefore & Hd & ->)].
      * left. split; [reflexivity | now constructor].
      * right. exists (S k), pk, d. repeat split; auto.
        intros [|j] pj Hj Hpj; simpl in Hpj.
        -- now injection Hpj as <-.
        -- apply (Hbefore j); [lia | exact Hpj].
Qed.

Lemma getitem_Some {A} (xs : list A) (i : nat) (x : A) :
  xs !! i = Some x -> getitem xs i = Ok x.
Proof. intros H. unfold getitem. now rewrite H. Qed.

Lemma metrics_recovery_spec (performance_data : list Point) (m : Metrics) :
  (2 <= length performance_data)%nat ->
  calculate_performance_metrics performance_data = Ok m ->
  recovery_spec performance_data (recovery_days m).
Proof.
  intros Hlen H.
  destruct performance_data as [|first [|second rest]]; simpl in Hlen; try lia.
  apply metrics_Ok in H as (final & q & _ & _ & _ & _ & Hrec).
  destruct (lowest_point_index_spec first (second :: rest))
    as (t & low & _ & Ht_eq & Htrough).
  cbv zeta in Hrec. rewrite <- Ht_eq in Hrec. clear Ht_eq.
  set (points := first :: second :: rest) in *.
  exists t, low, first. split; [exact Htrough|]. split; [reflexivity|].
  destruct Htrough as (Hlow & _ & _).
  pose proof (lookup_lt_Some _ _ _ Hlow) as Ht.
  destruct (t <? length points - 1)%nat eqn:E.
  - apply Nat.ltb_lt in E. right. split; [exact E|].
    rewrite (getitem_Some _ _ _ Hlow) in Hrec.
    apply bind_Ok in Hrec as (low' & [= <-] & Hrec).
    apply bind_Ok in Hrec as (d_low & Hd_low & Hrec).
    apply recovery_scan_spec in Hrec
      as [[-> Hall] | (k & pk & d_rec & Hk & Hv & Hbefore & Hd & ->)].
    + right. split; [|reflexivity]. intros j pj Hj Hpj.
      rewrite Forall_forall in Hall. apply Hall.
      apply list_elem_of_lookup. exists (j - S t)%nat.
      rewrite lookup_drop, <- Hpj. f_equal. lia.
    + left. rewrite lookup_drop in Hk.
      exists (S t + k)%nat, pk, d_low, d_rec.
      split; [lia|]. split; [exact Hk|]. split; [exact Hv|].
      split; [|auto]. intros j pj Hj Hpj. apply (Hbefore (j - S t)%nat); [lia|].
      rewrite lookup_drop, <- Hpj. f_equal. lia.
  - apply Nat.ltb_ge in E. left. injection Hrec as <-. split; [lia | reflexivity].
Qed.

Lemma recovery_scan_returns (points : list Point) (initial_value : Q)
    (lowest_date : PyDate.date) :
  Forall (fun p => returns (PyDate.strptime (date p))) points ->
  returns (recovery_scan points initial_value lowest_date).
Proof.
  induction 1 as [|p points [d Hd] _ IH]; simpl; [eexists; reflexivity|].
  destruct (Qle_bool initial_value (value p)); [|exact IH].
  rewrite Hd. eexists. reflexivity.
Qed.

Lemma bind_of_Ok {A B} (a : A) (f : A -> result B) : Ok a ≫= f = f a.
Proof. reflexivity. Qed.

Lemma metrics_returns (performance_data : list Point) (first : Point) :
  (2 <= length performance_data)%nat ->
  head performance_data = Some first ->
  0 < value first ->
  Forall (fun p => returns (PyDate.strptime (date p))) performance_data ->
  returns (calculate_performance_metrics performance_data).
Proof.
  intros Hlen Hhead Hpos Hdates.
  destruct performance_data as [|p [|second rest]]; simpl in Hlen; try lia.
  injection Hhead as ->. rewrite metrics_unfold. cbv zeta.
  destruct (getitem_last first second rest) as [final ->].
  rewrite bind_of_Ok, pydiv_nonzero, bind_of_Ok by lra.
  destruct (drawdown_loop_pos (first :: second :: rest) (value first) 0 Hpos
              ltac:(lra)) as (dd & -> & _).
  rewrite bind_of_Ok.
  destruct (lowest_point_index_spec first (second :: rest))
    as (t & low & _ & <- & (Hlow & _)).
  set (points := first :: second :: rest) in *.
  destruct (t <? length points - 1)%nat.
  - rewrite (getitem_Some _ _ _ Hlow), bind_of_Ok.
    assert (returns (PyDate.strptime (date low))) as [d ->].
    { rewrite Forall_forall in Hdates. apply Hdates.
      eapply list_elem_of_lookup_2. exact Hlow. }
    rewrite bind_of_Ok.
    destruct (recovery_scan_returns (drop (S t) points) (value first) d)
      as [r ->]; [|eexists; reflexivity].
    now apply Forall_drop.
  - eexists. reflexivity.
Qed.

Lemma drawdown_of_metrics (performance_data : list Point) (first : Point)
    (m : Metrics) :
  (2 <= length performance_data)%nat ->
  head performance_data = Some first ->
  calculate_performance_metrics performance_data = Ok m ->
  drawdown_loop performance_data (value first) 0 = Ok (max_drawdown m).
Proof.
  intros Hlen Hhead H.
  destruct performance_data as [|p [|second rest]]; simpl in Hlen; try lia.
  injection Hhead as ->.
  now apply metrics_Ok in H as (final & q & _ & _ & _ & H & _).
Qed.

Lemma lookup_snoc_cases {A} (pre : list A) (p : A) (j : nat) (q : A) :
  (pre ++ [p]) !! j = Some q ->
  (pre !! j = Some q /\ (j < length pre)%nat) \/ (j = length pre /\ q = p).
Proof.
  intros Hj. destruct (decide (j < length pre)%nat) as [Hlt|Hge].
  - left. rewrite lookup_app_l in Hj by exact Hlt. auto.
  - right. rewrite lookup_app_r in Hj by lia.
    destruct (j - length pre)%nat as [|n] eqn:E; simpl in Hj.
    + injection Hj as <-. split; [lia | reflexivity].
    + now rewrite lookup_nil in Hj.
Qed.

Lemma decline_Qeq (a b p : Point) :
  value a == value b -> decline a p == decline b p.
Proof. unfold decline. now intros ->. Qed.

Lemma drawdown_loop_head (first : Point) (rest : list Point) :
  ~ value first == 0 ->
  drawdown_loop (first :: rest) (value first) 0
  = drawdown_loop rest (value first) 0.
Proof.
  intros Hne. simpl.
  replace (Qltb (value first) (value first)) with false
    by (symmetry; apply Qltb_ge; lra).
  rewrite pydiv_nonzero by exact Hne. rewrite bind_of_Ok.
  unfold pymax.
  replace (Qltb 0 ((value first - value first) / value first * 100)) with false;
    [reflexivity|].
  symmetry. apply Qltb_ge.
  assert ((value first - value first) / value first * 100 == 0) as ->
    by (field; exact Hne). lra.
Qed.

Lemma drawdown_loop_head_Ok (first : Point) (rest : list Point) (r : Q) :
  drawdown_loop (first :: rest) (value first) 0 = Ok r ->
  ~ value first == 0 /\ drawdown_loop rest (value first) 0 = Ok r.
Proof.
  intros H.
  assert (~ value first == 0) as Hne.
  { intros Hz. simpl in H.
    replace (Qltb (value first) (value first)) with false in H
      by (symmetry; apply Qltb_ge; lra).
    rewrite (pydiv_zero _ _ Hz) in H. discriminate. }
  split; [exact Hne|]. now rewrite <- (drawdown_loop_head _ _ Hne).
Qed.

Lemma running_peak_value (points : list Point) (j : nat) (peak : Point) (hi : Q) :
  running_peak points j peak ->
  (forall i p, (i <= j)%nat -> points !! i = Some p -> value p <= hi) ->
  (exists i p, (i <= j)%nat /\ points !! i = Some p /\ value p == hi) ->
  value peak == hi.
Proof.
  intros [(i & Hi & Hp) Hle] Hle' (i' & p' & Hi' & Hp' & Heq).
  specialize (Hle' _ _ Hi Hp). specialize (Hle _ _ Hi' Hp'). lra.
Qed.

Lemma drawdown_loop_running_peak (rest pre : list Point) (peak dd r : Q) :
  (forall i p, pre !! i = Some p -> value p <= peak) ->
  (exists i p, pre !! i = Some p /\ value p == peak) ->
  drawdown_loop rest peak dd = Ok r ->
  dd <= r
  /\ (forall j p pk,
        (length pre <= j)%nat -> (pre ++ rest) !! j = Some p ->
        running_peak (pre ++ rest) j pk ->
        ~ value pk == 0 /\ decline pk p <= r)
  /\ (r == dd
      \/ exists j p pk,
           (pre ++ rest) !! j = Some p /\ running_peak (pre ++ rest) j pk
           /\ r == decline pk p).
Proof.
  revert pre peak dd.
  induction rest as [|p rest IH]; intros pre peak dd Hle Hat H.
  - simpl in H. injection H as <-. split; [lra|]. split; [|now left].
    intros j q pk Hj Hq. rewrite app_nil_r in Hq.
    apply lookup_lt_Some in Hq. lia.
  - simpl in H.
    set (peak' := if Qltb peak (value p) then value p else peak) in H.
    apply bind_Ok in H as (q & Hq & H). apply pydiv_Ok in Hq as [Hne ->].
    set (cur := (peak' - value p) / peak' * 100) in H.
    assert (value p <= peak' /\ peak <= peak') as (Hvp & Hpp).
    { unfold peak'. destruct (Qltb peak (value p)) eqn:E.
      - apply Qltb_lt in E. split; lra.
      - apply Qltb_ge in E. split; lra. }
    assert (exists i q, (i <= length pre)%nat /\ (pre ++ [p]) !! i = Some q
                        /\ value q == peak') as Hat'.
    { destruct (Qltb peak (value p)) eqn:E; unfold peak'; rewrite ?E.
      - exists (length pre), p. split; [lia|]. split; [|reflexivity].
        rewrite lookup_app_r by lia. now rewrite Nat.sub_diag.
      - destruct Hat as (i & q & Hi & Hq). exists i, q.
        split; [apply lookup_lt_Some in Hi; lia|].
        split; [now apply lookup_app_l_Some | exact Hq]. }
    assert (forall i q, (pre ++ [p]) !! i = Some q -> value q <= peak') as Hle'.
    { intros i q Hi. apply lookup_snoc_cases in Hi as [[Hi _] | [_ ->]].
      - specialize (Hle _ _ Hi). lra.
      - exact Hvp. }
    replace (pre ++ p :: rest) with ((pre ++ [p]) ++ rest)
      by (now rewrite <- app_assoc).
    destruct (IH (pre ++ [p]) peak' (pymax dd cur)) as (Hge & Hall & Hex).
    { exact Hle'. }
    { destruct Hat' as (i & q & _ & Hi & Hq). eauto. }
    { exact H. }
    pose proof (pymax_ge_l dd cur) as Hmax.
    assert (forall pk, running_peak ((pre ++ [p]) ++ rest) (length pre) pk ->
                       value pk == peak') as Hpk.
    { intros pk Hr. apply (running_peak_value _ _ _ _ Hr).
      - intros i q Hi Hq. apply (Hle' i).
        rewrite lookup_app_l in Hq; [exact Hq|].
        rewrite length_app. simpl. lia.
      - destruct Hat' as (i & q & Hi & Hq & Heq). exists i, q.
        split; [exact Hi|]. split; [|exact Heq].
        now apply lookup_app_l_Some. }
    assert (((pre ++ [p]) ++ rest) !! length pre = Some p) as Hp.
    { apply lookup_app_l_Some. rewrite lookup_app_r by lia.
      now rewrite Nat.sub_diag. }
    split; [lra|]. split.
    + intros j q pk Hj Hq Hr.
      destruct (decide (j = length pre)) as [->|Hjne].
      * rewrite Hp in Hq. injection Hq as <-.
        pose proof (Hpk pk Hr) as Heq. split; [now rewrite Heq|].
        assert (decline pk p == cur) as ->
          by (unfold decline, cur; now rewrite Heq).
        assert (cur <= pymax dd cur); [|lra].
        unfold pymax. destruct (Qltb dd cur) eqn:E; [lra|].
        now apply Qltb_ge in E.
      * apply (Hall j q pk); [|exact Hq | exact Hr].
        rewrite length_app. simpl. lia.
    + destruct Hex as [Hex | Hex]; [|right; exact Hex].
      unfold pymax in Hex. destruct (Qltb dd cur) eqn:E; [|now left].
      right. destruct Hat' as (i & q & Hi & Hq & Heq).
      exists (length pre), p, q. split; [exact Hp|]. split.
      * split.
        -- exists i. split; [exact Hi|]. now apply lookup_app_l_Some.
        -- intros i' q' Hi' Hq'. rewrite Heq. apply (Hle' i').
           rewrite lookup_app_l in Hq'; [exact Hq'|].
           rewrite length_app. simpl. lia.
      * rewrite Hex. unfold decline, cur. now rewrite Heq.
Qed.

(** The drawdown of a returned series in terms of its running peaks. *)
Lemma drawdown_running_peak (performance_data : list Point) (m : Metrics) :
  (2 <= length performance_data)%nat ->
  calculate_performance_metrics performance_data = Ok m ->
  0 <= max_drawdown m
  /\ (forall j p pk,
        performance_data !! j = Some p -> running_peak performance_data j pk ->
        ~ value pk == 0 /\ decline pk p <= max_drawdown m)
  /\ (exists j p pk,
        performance_data !! j = Some p /\ running_peak performance_data j pk
        /\ max_drawdown m == decline pk p).
Proof.
  intros Hlen Hm.
  destruct performance_data as [|first rest] eqn:E; [simpl in Hlen; lia|].
  pose proof (drawdown_of_metrics _ first _ Hlen eq_refl Hm) as Hdd.
  apply drawdown_loop_head_Ok in Hdd as [Hne Hdd].
  assert (decline first first == 0) as Hz by (unfold decline; field; exact Hne).
  assert (running_peak (first :: rest) 0 first) as Hr0.
  { split; [exists 0%nat; split; [lia | reflexivity]|].
    intros [|i] p Hi Hp; [|lia]. injection Hp as <-. lra. }
  destruct (drawdown_loop_running_peak rest [first] (value first) 0 (max_drawdown m))
    as (Hge & Hall & Hex); [| |exact Hdd|].
  { intros [|i] p Hi; simpl in Hi; [injection Hi as <-; lra|].
    now rewrite lookup_nil in Hi. }
  { exists 0%nat, first. split; reflexivity. }
  simpl app in *. split; [exact Hge|]. split.
  - intros [|j] p pk Hp Hr.
    + injection Hp as <-.
      assert (value pk == value first) as Heq.
      { apply (running_peak_value _ _ _ _ Hr).
        - intros [|i] q Hi Hq; [|lia]. injection Hq as <-. lra.
        - exists 0%nat, first. split; [lia|]. split; reflexivity. }
      split; [now rewrite Heq|]. rewrite (decline_Qeq _ _ _ Heq). lra.
    + apply (Hall (S j)); [simpl; lia | exact Hp | exact Hr].
  - destruct Hex as [Hex | Hex]; [|exact Hex].
    exists 0%nat, first, first. split; [reflexivity|]. split; [exact Hr0|].
    rewrite Hex, Hz. reflexivity.
Qed.

Lemma decline_sign (pk p : Point) :
  ~ value pk == 0 -> value p <= value pk ->
  (decline pk p <= 0 <-> (0 < value pk -> value pk <= value p)).
Proof.
  intros Hne Hle. unfold decline, Qdiv.
  destruct (Qlt_le_dec 0 (value pk)) as [Hpos|Hneg].
  - pose proof (Qinv_lt_0_compat _ Hpos) as Hi.
    set (x := / value pk) in *. split; [intros H _; nra | intros H; nra].
  - assert (value pk < 0) as Hlt.
    { destruct (Qeq_dec (value pk) 0); [contradiction | lra]. }
    pose proof (Qinv_lt_0_compat (- value pk) ltac:(lra)) as Hi.
    assert (/ - value pk == - / value pk) as Hinv by (field; lra).
    rewrite Hinv in Hi. set (x := / value pk) in *.
    split; [intros _ H; lra | intros _; nra].
Qed.

Lemma drawdown_zero_iff (performance_data : list Point) (m : Metrics) :
  (2 <= length performance_data)%nat ->
  calculate_performance_metrics performance_data = Ok m ->
  (max_drawdown m == 0 <-> never_below_positive_peak performance_data).
Proof.
  intros Hlen Hm.
  destruct (drawdown_running_peak _ _ Hlen Hm) as (Hge & Hall & Hex).
  split.
  - intros Hz j p pk Hp Hr Hpos.
    destruct (Hall _ _ _ Hp Hr) as [Hne Hd].
    apply (decline_sign pk p Hne); [|lra | exact Hpos].
    destruct Hr as [_ Hle]. apply (Hle j); [lia | exact Hp].
  - intros Hnb. destruct Hex as (j & p & pk & Hp & Hr & Heq).
    destruct (Hall _ _ _ Hp Hr) as [Hne _].
    assert (decline pk p <= 0); [|lra].
    apply (decline_sign pk p Hne).
    + destruct Hr as [_ Hle]. apply (Hle j); [lia | exact Hp].
    + intros Hpos. exact (Hnb _ _ _ Hp Hr Hpos).
Qed.

Lemma nondecreasing_never_below (points : list Point) :
  nondecreasing points -> never_below_positive_peak points.
Proof.
  intros Hnd j p pk Hp [(i & Hi & Hpk) _] _.
  destruct (decide (i = j)) as [->|Hne].
  - rewrite Hp in Hpk. injection Hpk as <-. lra.
  - apply (StronglySorted_lookup_lt _ _ i j pk p Hnd); [lia | assumption..].
Qed.

(** C4 (as the code has it): a returned max_drawdown is never negative and
    is 0 whenever the series is non-decreasing, whatever the sign of its
    values; it is 0 exactly when no entry lies below a positive running
    peak.  So from a positive starting value it is 0 exactly when the
    series is non-decreasing (and the call returns when the dates are date
    strings), while a series that falls under a negative peak has
    max_drawdown 0 as well. *)
Theorem max_drawdown_sign (performance_data : list Point) (first : Point) :
  (2 <= length performance_data)%nat ->
  head performance_data = Some first ->
  (forall m, calculate_performance_metrics performance_data = Ok m ->
     0 <= max_drawdown m
     /\ (nondecreasing performance_data -> max_drawdown m == 0)
     /\ (0 < value first ->
         (max_drawdown m == 0 <-> nondecreasing performance_data))
     /\ (max_drawdown m == 0 <-> never_below_positive_peak performance_data))
  /\ (0 < value first ->
      Forall (fun p => returns (PyDate.strptime (date p))) performance_data ->
      returns (calculate_performance_metrics performance_data)).
Proof.
  intros Hlen Hhead. split; [|now apply metrics_returns].
  intros m Hm. pose proof (drawdown_of_metrics _ _ _ Hlen Hhead Hm) as Hdd.
  pose proof (drawdown_zero_iff _ _ Hlen Hm) as Hiff.
  split; [now apply drawdown_loop_ge in Hdd|].
  split; [intros Hnd; apply Hiff; now apply nondecreasing_never_below|].
  split; [|exact Hiff].
  intros Hpos.
  destruct (drawdown_loop_pos performance_data (value first) 0 Hpos ltac:(lra))
    as (r & Hr & Hpos_iff).
  rewrite Hdd in Hr. injection Hr as <-. rewrite Hpos_iff.
  destruct performance_data as [|p rest]; [discriminate|]. injection Hhead as ->.
  split; [tauto|]. intros Hnd. split; [reflexivity|]. split; [|exact Hnd].
  apply nondecreasing_cons in Hnd as [Hall _].
  constructor; [lra | exact Hall].
Qed.

Lemma max_drawdown_sign_witness :
  exists m, calculate_performance_metrics sample_series = Ok m
            /\ 0 <= max_drawdown m
            /\ (nondecreasing sample_series -> max_drawdown m == 0)
            /\ (max_drawdown m == 0 <-> nondecreasing sample_series)
            /\ (max_drawdown m == 0
                <-> never_below_positive_peak sample_series).
Proof.
  assert (2 <= length sample_series)%nat as Hlen by (simpl; lia).
  assert (head sample_series = Some (mkPoint "2020-01-01" 100)) as Hhead
    by reflexivity.
  destruct (max_drawdown_sign sample_series _ Hlen Hhead) as [Hm _].
  eexists. split; [vm_compute; reflexivity|].
  split; [apply Hm | split; [apply Hm | split; apply Hm]]; reflexivity.
Defined.

(** C4 fails as stated: the falling series -1, -2 gets max_drawdown 0. *)
Lemma max_drawdown_counterexample :
  (2 <= length negative_series)%nat
  /\ exists m, calculate_performance_metrics negative_series = Ok m
               /\ max_drawdown m == 0
               /\ ~ nondecreasing negative_series.
Proof.
  split; [simpl; lia|]. eexists. split; [vm_compute; reflexivity|].
  split; [reflexivity|]. intros H.
  apply nondecreasing_cons in H as [H _].
  apply Forall_cons in H as [H _]. simpl in H. lra.
Qed.

Lemma metrics_zero_start (performance_data : list Point) (first : Point) :
  (2 <= length performance_data)%nat ->
  head performance_data = Some first ->
  value first == 0 ->
  calculate_performance_metrics performance_data = Raise ZeroDivisionError.
Proof.
  intros Hlen Hhead Hzero.
  destruct performance_data as [|p [|second rest]]; simpl in Hlen; try lia.
  injection Hhead as ->.
  rewrite metrics_unfold. cbv zeta.
  destruct (getitem_last first second rest) as [final ->]. simpl.
  now rewrite (pydiv_zero _ _ Hzero).
Qed.

(** C3 (as the code has it): for every series of at least two points on
    which the metrics are returned, recovery_days is as specified: the
    trough is the first index of the global minimum; when it is the last
    index recovery_days is absent; otherwise the first later entry whose
    value is at least the series' first value gives recovery_days as the
    calendar-day difference between its date and the trough's date, and
    recovery_days is absent when there is no such entry.  The metrics are
    returned whenever the series starts at a positive value and its dates
    are date strings; a series that starts at 0 gets no recovery_days, the
    call raises ZeroDivisionError. *)
Theorem recovery_days_as_specified (performance_data : list Point) :
  (2 <= length performance_data)%nat ->
  (forall m, calculate_performance_metrics performance_data = Ok m ->
     recovery_spec performance_data (recovery_days m))
  /\ (forall first, head performance_data = Some first -> 0 < value first ->
        Forall (fun p => returns (PyDate.strptime (date p))) performance_data ->
        returns (calculate_performance_metrics performance_data))
  /\ (forall first, head performance_data = Some first -> value first == 0 ->
        calculate_performance_metrics performance_data
        = Raise ZeroDivisionError).
Proof.
  intros Hlen. split; [|split].
  - intros m. now apply metrics_recovery_spec.
  - intros first. now apply metrics_returns.
  - intros first. now apply metrics_zero_start.
Qed.

Lemma recovery_days_as_specified_witness :
  exists m, calculate_performance_metrics sample_series = Ok m
            /\ recovery_days m = Some 2%Z
            /\ recovery_spec sample_series (recovery_days m).
Proof.
  assert (2 <= length sample_series)%nat as Hlen by (simpl; lia).
  destruct (recovery_days_as_specified sample_series Hlen) as [Hspec _].
  eexists. split; [vm_compute; reflexivity|].
  split; [reflexivity | apply Hspec; reflexivity].
Defined.

(** C3 fails as stated: on the series 0, 5 the rule gives a recovery after
    1 day, but the code divides by the first value and raises. *)
Lemma recovery_days_counterexample :
  (2 <= length zero_start_series)%nat
  /\ recovery_spec zero_start_series (Some 1%Z)
  /\ calculate_performance_metrics zero_start_series = Raise ZeroDivisionError.
Proof.
  split; [simpl; lia|]. split; [|vm_compute; reflexivity].
  exists 0%nat, (mkPoint "2020-03-02" 0), (mkPoint "2020-03-02" 0).
  split; [|split; [reflexivity|]].
  - split; [reflexivity|]. split.
    + intros [|[|j]] p Hp; simpl in Hp; try discriminate;
        injection Hp as <-; simpl; lra.
    + intros j p Hj. lia.
  - right. split; [simpl; lia|]. left.
    exists 1%nat, (mkPoint "2020-03-03" 5),
      (PyDate.mkdate 2020 3 2), (PyDate.mkdate 2020 3 3).
    split; [lia|]. split; [reflexivity|]. split; [simpl; lra|].
    split; [intros j pj Hj; lia|].
    split; [vm_compute; reflexivity|]. split; [vm_compute; reflexivity|].
    vm_compute. reflexivity.
Qed.

(** C10: when the dates of a series of at least two points are strictly
    increasing calendar dates, a present recovery_days is at least 1: the
    recovery entry lies strictly after the trough. *)
Theorem recovery_days_at_least_one (performance_data : list Point)
    (cal : list PyDate.date) (m : Metrics) (r : Z) :
  (2 <= length performance_data)%nat ->
  calendar_dates performance_data cal ->
  StronglySorted PyDate.lt cal ->
  calculate_performance_metrics performance_data = Ok m ->
  recovery_days m = Some r ->
  (1 <= r)%Z.
Proof.
  intros Hlen Hcal Hsorted Hm Hr.
  destruct (metrics_recovery_spec _ _ Hlen Hm)
    as (t & low & first & (Hlow & _) & _ & Hcases).
  rewrite Hr in Hcases.
  destruct Hcases as [[_ ?] | [_ [Hfound | [_ ?]]]]; try discriminate.
  destruct Hfound as (k & pk & d_low & d_rec & Htk & Hk & _ & _ & Hdl & Hdr & Heq).
  injection Heq as ->.
  destruct (Forall2_lookup_l _ _ _ _ _ Hcal Hlow) as (c_low & Hcl & Hpl).
  destruct (Forall2_lookup_l _ _ _ _ _ Hcal Hk) as (c_rec & Hcr & Hpr).
  rewrite Hdl in Hpl. injection Hpl as <-.
  rewrite Hdr in Hpr. injection Hpr as <-.
  pose proof (StronglySorted_lookup_lt _ _ _ _ _ _ Hsorted Htk Hcl Hcr) as Hlt.
  pose proof (toordinal_lt _ _ (strptime_valid _ _ Hdl) (strptime_valid _ _ Hdr) Hlt).
  lia.
Qed.

Lemma recovery_days_at_least_one_witness :
  exists m r, calculate_performance_metrics sample_series = Ok m
              /\ recovery_days m = Some r /\ (1 <= r)%Z.
Proof.
  do 2 eexists. split; [vm_compute; reflexivity|]. split; [reflexivity|].
  eapply (recovery_days_at_least_one sample_series sample_calendar).
  - simpl. lia.
  - repeat constructor.
  - repeat constructor; unfold PyDate.lt; simpl; lia.
  - vm_compute. reflexivity.
  - reflexivity.
Defined.

(** The trough and the recovery entry are determined by the series, so
    [recovery_spec] fixes recovery_days. *)
Lemma is_trough_unique (points : list Point) (t t' : nat) (low low' : Point) :
  is_trough points t low -> is_trough points t' low' -> t = t' /\ low = low'.
Proof.
  intros (Hl & Hmin & Hfirst) (Hl' & Hmin' & Hfirst').
  assert (t = t') as <-.
  { destruct (lt_eq_lt_dec t t') as [[Hlt | Heq] | Hgt]; [| exact Heq |].
    - specialize (Hfirst' _ _ Hlt Hl). specialize (Hmin _ _ Hl'). lra.
    - specialize (Hfirst _ _ Hgt Hl'). specialize (Hmin' _ _ Hl). lra. }
  split; [reflexivity | congruence].
Qed.

Lemma recovery_spec_functional (points : list Point) (r r' : option Z) :
  recovery_spec points r -> recovery_spec points r' -> r = r'.
Proof.
  intros (t & low & first & Ht & Hf & Hc) (t' & low' & first' & Ht' & Hf' & Hc').
  destruct (is_trough_unique _ _ _ _ _ Ht Ht') as [<- <-].
  rewrite Hf in Hf'. injection Hf' as <-.
  destruct Hc as [[Hlast ->] | [Hin Hc]], Hc' as [[Hlast' ->] | [Hin' Hc']];
    try reflexivity; try lia.
  destruct Hc as [(k & pk & dl & dr & Hk & Hpk & Hv & Hb & Hdl & Hdr & ->) | [Hn ->]],
           Hc' as [(k' & pk' & dl' & dr' & Hk' & Hpk' & Hv' & Hb' & Hdl' & Hdr' & ->)
                  | [Hn' ->]]; try reflexivity.
  - assert (k = k') as <-.
    { destruct (lt_eq_lt_dec k k') as [[Hlt | Heq] | Hgt]; [| exact Heq |].
      - specialize (Hb' k pk ltac:(lia) Hpk). lra.
      - specialize (Hb k' pk' ltac:(lia) Hpk'). lra. }
    rewrite Hpk in Hpk'. injection Hpk' as <-.
    rewrite Hdl in Hdl'. injection Hdl' as <-.
    rewrite Hdr in Hdr'. injection Hdr' as <-. reflexivity.
  - specialize (Hn' k pk Hk Hpk). lra.
  - specialize (Hn k' pk' Hk' Hpk'). lra.
Qed.

(** ** The worked scenario of the specification *)

(** Hold over 100, 80, 60, 90, 110: total return 10%, maximum drawdown
    40%, recovery two days after the trough. *)
Example worked_scenario_hold :
  exists m, calculate_performance_metrics sample_series = Ok m
            /\ total_return m == 10 /\ max_drawdown m == 40
            /\ recovery_days m = Some 2%Z.
Proof.
  eexists. split; [vm_compute; reflexivity|]. repeat split; reflexivity.
Qed.

(** Withdraw with the pivot on the third day: 100, 80, 48, 72, 88, total
    return -12% and no recovery. *)
Example worked_scenario_withdraw :
  let withdraw :=
    calculate_scenario_performance sample_event_data
      (date_axis sample_event_data) "withdraw" (Some "2020-01-03")
      (Some sample_portfolio) in
  Forall2 (fun p v => value p == v) withdraw [100; 80; 48; 72; 88]
  /\ exists m, calculate_performance_metrics withdraw = Ok m
               /\ total_return m == -12 /\ recovery_days m = None.
Proof.
  cbv zeta. split.
  - vm_compute. repeat constructor.
  - eexists. split; [vm_compute; reflexivity|]. split; reflexivity.
Qed.

(** ** Failure modes and the empty axis *)

(* what can calculate_performance_metrics raise *)
Lemma drawdown_loop_raises (points : list Point) (peak dd : Q) (e : exn) :
  drawdown_loop points peak dd = Raise e -> e = ZeroDivisionError.
Proof.
  revert peak dd. induction points as [|p points IH]; intros peak dd; simpl.
  - discriminate.
  - unfold pydiv. destruct (Qeq_bool _ 0); simpl.
    + now intros [= <-].
    + apply IH.
Qed.

Lemma strptime_raises (s : string) (e : exn) :
  PyDate.strptime s = Raise e -> e = ValueError.
Proof.
  unfold PyDate.strptime.
  repeat match goal with
         | |- context [match ?x with _ => _ end] => destruct x
         end; congruence.
Qed.

Lemma recovery_scan_raises (points : list Point) (v : Q) (d : PyDate.date)
    (e : exn) :
  recovery_scan points v d = Raise e -> e = ValueError.
Proof.
  induction points as [|p points IH]; simpl; [discriminate|].
  destruct (Qle_bool v (value p)); [|exact IH].
  destruct (PyDate.strptime (date p)) eqn:E; simpl; [discriminate|].
  intros [= <-]. now apply strptime_raises in E.
Qed.

Lemma metrics_raises (performance_data : list Point) (e : exn) :
  calculate_performance_metrics performance_data = Raise e ->
  e = ZeroDivisionError \/ e = ValueError.
Proof.
  destruct performance_data as [|first [|second rest]]; try discriminate.
  rewrite metrics_unfold. cbv zeta.
  destruct (getitem_last first second rest) as [final ->].
  rewrite bind_of_Ok. unfold pydiv at 1.
  destruct (Qeq_bool (value first) 0); [intros [= <-]; now left|].
  rewrite bind_of_Ok.
  destruct (drawdown_loop _ _ _) as [dd|e'] eqn:Edd.
  2:{ intros [= <-]. left. now apply drawdown_loop_raises in Edd. }
  rewrite bind_of_Ok.
  destruct (lowest_point_index_spec first (second :: rest))
    as (t & low & _ & <- & (Hlow & _)).
  destruct (t <? _)%nat; [|discriminate].
  rewrite (getitem_Some _ _ _ Hlow), bind_of_Ok.
  destruct (PyDate.strptime (date low)) as [d|e'] eqn:Ed.
  2:{ intros [= <-]. right. now apply strptime_raises in Ed. }
  rewrite bind_of_Ok.
  destruct (recovery_scan _ _ _) as [r|e'] eqn:Er; [discriminate|].
  intros [= <-]. right. now apply recovery_scan_raises in Er.
Qed.

Lemma date_axis_empty_iff (event_data : EventData) :
  date_axis event_data = []
  <-> forall symbol asset_data, (symbol, asset_data) ∈ event_data -> asset_data = [].
Proof.
  split.
  - intros E symbol asset_data Hin. destruct asset_data as [|p asset_data]; [reflexivity|].
    assert (dp_date p ∈ date_axis event_data) as Hd.
    { apply elem_of_date_axis. exists symbol, (p :: asset_data), p.
      split; [exact Hin|]. split; [left | reflexivity]. }
    rewrite E in Hd. inversion Hd.
  - intros Hall. destruct (date_axis event_data) as [|d dates] eqn:E; [reflexivity|].
    assert (d ∈ date_axis event_data) as Hd by (rewrite E; left).
    apply elem_of_date_axis in Hd as (s & ad & p & Hin & Hp & _).
    rewrite (Hall _ _ Hin) in Hp. inversion Hp.
Qed.

Lemma run_scenario_raises (label : string) (points : list Point) (e : exn) :
  run_scenario label points = Raise e ->
  e = ZeroDivisionError \/ e = ValueError.
Proof.
  unfold run_scenario.
  destruct (calculate_performance_metrics points) as [m|e'] eqn:E; [discriminate|].
  intros [= <-]. now apply metrics_raises in E.
Qed.

Lemma simulate_raises_http_iff (portfolio : Portfolio) (event_data : EventData)
    (openai_reply : option string) :
  (exists status_code detail,
     simulate_portfolio_event portfolio event_data openai_reply
     = Raise (HTTPException status_code detail))
  <-> forall symbol asset_data,
        (symbol, asset_data) ∈ event_data -> asset_data = [].
Proof.
  rewrite <- date_axis_empty_iff. split.
  - intros (code & detail & H).
    destruct (decide (date_axis event_data = [])) as [E|E]; [exact E|].
    exfalso. destruct (middle_index_in_range _ E) as [pivot Hpivot].
    rewrite (simulate_unfold _ _ _ _ Hpivot) in H.
    repeat match type of H with
           | context [run_scenario ?l ?p] =>
               let Er := fresh "Er" in
               destruct (run_scenario l p) as [?|?] eqn:Er;
               [rewrite bind_of_Ok in H
               | apply run_scenario_raises in Er as [-> | ->]; discriminate H]
           end.
    discriminate H.
  - intros E. do 2 eexists. now apply simulate_empty.
Qed.

Lemma simulate_raises (portfolio : Portfolio) (event_data : EventData)
    (openai_reply : option string) (e : exn) :
  simulate_portfolio_event portfolio event_data openai_reply = Raise e ->
  e = HTTPException 400 "Insufficient market data for simulation"
  \/ e = ZeroDivisionError \/ e = ValueError.
Proof.
  intros H.
  destruct (decide (date_axis event_data = [])) as [E|E].
  - rewrite (simulate_empty _ _ _ E) in H. injection H as <-. now left.
  - right. destruct (middle_index_in_range _ E) as [pivot Hpivot].
    rewrite (simulate_unfold _ _ _ _ Hpivot) in H.
    repeat match type of H with
           | context [run_scenario ?l ?p] =>
               let Er := fresh "Er" in
               destruct (run_scenario l p) as [?|?] eqn:Er;
               [rewrite bind_of_Ok in H
               | apply run_scenario_raises in Er; now injection H as <-]
           end.
    discriminate H.
Qed.

(** X1: [simulate_portfolio_event] raises an [HTTPException] exactly when
    every asset series of the event data is empty (in particular when
    no asset was fetched); any other failure of a run is the
    [ZeroDivisionError] or [ValueError] of a metrics computation. *)
Theorem insufficient_data_iff (portfolio : Portfolio) (event_data : EventData)
    (openai_reply : option string) :
  ((exists status_code detail,
      simulate_portfolio_event portfolio event_data openai_reply
      = Raise (HTTPException status_code detail))
   <-> forall symbol asset_data,
         (symbol, asset_data) ∈ event_data -> asset_data = [])
  /\ forall e,
       simulate_portfolio_event portfolio event_data openai_reply = Raise e ->
       e = HTTPException 400 "Insufficient market data for simulation"
       \/ e = ZeroDivisionError \/ e = ValueError.
Proof. split; [apply simulate_raises_http_iff | apply simulate_raises]. Qed.

(** X2: when the date axis has a single date, the simulation returns:
    that date is the pivot, the three scenarios are reported in the order
    No Changes, 20% Withdrawal, 20% Addition, each over the one date with
    total return 0, maximum drawdown 0 and no recovery days, and the best
    scenario is "No Changes" whatever the advice call did. *)
Theorem single_date_axis (portfolio : Portfolio) (event_data : EventData)
    (openai_reply : option string) (d : string) :
  date_axis event_data = [d] ->
  exists sim,
    simulate_portfolio_event portfolio event_data openai_reply = Ok sim
    /\ middle_date sim = d
    /\ List.map scenario (simulation_results sim)
       = ["No Changes"; "20% Withdrawal"; "20% Addition"]
    /\ Forall (fun r => List.map date (performance r) = [d]
                        /\ res_total_return r = 0 /\ res_max_drawdown r = 0
                        /\ res_recovery_days r = None)
         (simulation_results sim)
    /\ best_scenario (advice sim) = "No Changes".
Proof.
  intros E.
  assert (date_axis event_data !! (length (date_axis event_data) / 2)%nat = Some d)
    as Hpivot by (rewrite E; reflexivity).
  rewrite (simulate_unfold _ _ _ _ Hpivot). rewrite E.
  unfold run_scenario, calculate_scenario_performance. simpl List.map.
  unfold calculate_performance_metrics. simpl length. simpl Nat.ltb.
  rewrite ?bind_of_Ok. eexists. split; [reflexivity|]. simpl.
  split; [reflexivity|]. split; [reflexivity|].
  split; [repeat constructor|].
  destruct openai_reply; reflexivity.
Qed.

Lemma single_date_axis_witness :
  exists sim,
    simulate_portfolio_event sample_portfolio single_day_event_data None = Ok sim
    /\ middle_date sim = "2020-01-02"
    /\ best_scenario (advice sim) = "No Changes".
Proof.
  destruct (single_date_axis sample_portfolio single_day_event_data None
              "2020-01-02") as (sim & Hsim & Hmid & _ & _ & Hbest);
    [vm_compute; reflexivity|].
  exists sim. repeat split; assumption.
Defined.

Lemma recovery_scan_raises_date (points : list Point) (v : Q)
    (d : PyDate.date) (e : exn) :
  recovery_scan points v d = Raise e ->
  exists p, p ∈ points /\ ~ returns (PyDate.strptime (date p)).
Proof.
  induction points as [|p points IH]; simpl; [discriminate|].
  destruct (Qle_bool v (value p)).
  - destruct (PyDate.strptime (date p)) as [x|e'] eqn:E; simpl; [discriminate|].
    intros _. exists p. split; [left|]. rewrite E. intros [x Hx]. discriminate.
  - intros H. destruct (IH H) as (q & Hq & Hn). exists q. split; [now right | exact Hn].
Qed.

Lemma metrics_raise_cases (first second : Point) (rest : list Point) (e : exn) :
  let performance_data := first :: second :: rest in
  calculate_performance_metrics performance_data = Raise e ->
  (e = ZeroDivisionError /\ value first == 0)
  \/ (e = ZeroDivisionError
      /\ drawdown_loop performance_data (value first) 0
         = Raise ZeroDivisionError)
  \/ (e = ValueError
      /\ exists p, p ∈ performance_data
                   /\ ~ returns (PyDate.strptime (date p))).
Proof.
  cbv zeta. rewrite metrics_unfold. cbv zeta.
  destruct (getitem_last first second rest) as [final ->].
  rewrite bind_of_Ok. unfold pydiv at 1.
  destruct (Qeq_bool (value first) 0) eqn:E0.
  { intros [= <-]. left. split; [reflexivity | now apply Qeq_bool_eq]. }
  rewrite bind_of_Ok.
  destruct (drawdown_loop _ _ _) as [dd|e'] eqn:Edd.
  2:{ intros [= <-]. apply drawdown_loop_raises in Edd as Hk. subst e'.
      right. left. auto. }
  rewrite bind_of_Ok.
  destruct (lowest_point_index_spec first (second :: rest))
    as (t & low & _ & <- & (Hlow & _)).
  destruct (t <? _)%nat; [|discriminate].
  rewrite (getitem_Some _ _ _ Hlow), bind_of_Ok.
  destruct (PyDate.strptime (date low)) as [d|e'] eqn:Ed.
  2:{ intros [= <-]. apply strptime_raises in Ed as Hk. subst e'.
      right. right. split; [reflexivity|]. exists low. split.
      - eapply list_elem_of_lookup_2. exact Hlow.
      - rewrite Ed. intros [x Hx]. discriminate. }
  rewrite bind_of_Ok.
  destruct (recovery_scan _ _ _) as [r|e'] eqn:Er; [discriminate|].
  intros [= <-]. apply recovery_scan_raises in Er as Hk. subst e'.
  right. right. split; [reflexivity|].
  apply recovery_scan_raises_date in Er as (p & Hp & Hn).
  exists p. split; [|exact Hn]. eapply elem_of_sublist; [exact Hp | apply sublist_drop].
Qed.

(** X3: [calculate_performance_metrics] fails only on a series of at least
    two points, and only with [ZeroDivisionError] or [ValueError]; from a
    positive starting value only the date parser can fail, and when every
    date parses only the division can. *)
Theorem metrics_failure_modes (performance_data : list Point) (e : exn) :
  calculate_performance_metrics performance_data = Raise e ->
  (2 <= length performance_data)%nat
  /\ (e = ZeroDivisionError \/ e = ValueError)
  /\ ((exists first, head performance_data = Some first /\ 0 < value first) ->
      e = ValueError)
  /\ (Forall (fun p => returns (PyDate.strptime (date p))) performance_data ->
      e = ZeroDivisionError).
Proof.
  intros H.
  destruct performance_data as [|first [|second rest]]; try discriminate.
  split; [simpl; lia|].
  apply metrics_raise_cases in H as [[-> Hz] | [[-> Hdd] | [-> (p & Hp & Hn)]]].
  - split; [now left|]. split; [|reflexivity].
    intros (f & [= <-] & Hpos). lra.
  - split; [now left|]. split; [|reflexivity].
    intros (f & [= <-] & Hpos).
    destruct (drawdown_loop_pos (first :: second :: rest) (value first) 0 Hpos
                ltac:(lra)) as (dd & Hok & _).
    congruence.
  - split; [now right|]. split; [reflexivity|].
    intros Hdates. rewrite Forall_forall in Hdates. now specialize (Hdates _ Hp).
Qed.

Lemma metrics_failure_modes_witness :
  calculate_performance_metrics zero_start_series = Raise ZeroDivisionError
  /\ (2 <= length zero_start_series)%nat.
Proof.
  split; [vm_compute; reflexivity|].
  apply (metrics_failure_modes zero_start_series ZeroDivisionError).
  vm_compute. reflexivity.
Defined.

(** ** Returns of the three scenarios *)



Lemma scenario_performance_lookup (event_data : EventData)
    (dates : list string) (scenario : string) (middle_date : option string)
    (portfolio : option Portfolio) (i : nat) (d : string) :
  dates !! i = Some d ->
  calculate_scenario_performance event_data dates scenario middle_date portfolio
    !! i
  = Some (mkPoint d (scenario_value event_data scenario middle_date portfolio d)).
Proof.
  unfold calculate_scenario_performance. revert i.
  induction dates as [|a dates IH]; intros [|i] H; simpl in *; try discriminate.
  - now injection H as ->.
  - now apply IH.
Qed.

Lemma scenario_performance_length (event_data : EventData)
    (dates : list string) (scenario : string) (middle_date : option string)
    (portfolio : option Portfolio) :
  length (calculate_scenario_performance event_data dates scenario middle_date
            portfolio) = length dates.
Proof. unfold calculate_scenario_performance. apply length_map. Qed.

Section Returns.

Variables (portfolio : Portfolio) (event_data : EventData).

Local Abbreviation dates := (date_axis event_data).
Local Abbreviation series scenario middle_date :=
  (calculate_scenario_performance event_data dates scenario middle_date
     (Some portfolio)).
Local Abbreviation value_at scenario middle_date :=
  (scenario_value event_data scenario middle_date (Some portfolio)).


(** Before the pivot index a scenario's value is the Hold value; from the
    pivot index on it is the factor times the Hold value. *)
Lemma value_at_index (pivot d : string) (i : nat) :
  Forall (fun d => d <> "") dates ->
  dates !! (length dates / 2)%nat = Some pivot ->
  dates !! i = Some d ->
  (if bool_decide (length dates / 2 <= i)%nat
   then value_at "withdraw" (Some pivot) d == 0.8 * value_at "no_change" None d
        /\ value_at "add" (Some pivot) d == 1.2 * value_at "no_change" None d
   else value_at "withdraw" (Some pivot) d = value_at "no_change" None d
        /\ value_at "add" (Some pivot) d = value_at "no_change" None d).
Proof.
  intros Hdates Hpivot Hi.
  assert (pivot <> "") as Hp.
  { rewrite Forall_forall in Hdates. apply Hdates.
    eapply list_elem_of_lookup_2. exact Hpivot. }
  unfold scenario_value.
  rewrite (adjustment_factor_withdraw _ _ Hp), (adjustment_factor_add _ _ Hp).
  rewrite adjustment_factor_no_change.
  rewrite (axis_on_or_after _ _ _ _ _ (date_axis_increasing event_data) Hpivot Hi).
  destruct (bool_decide _); [|split; reflexivity].
  split; apply scale_by_amount_factor; reflexivity.
Qed.

End Returns.

(** ** The pivot of a run *)

Section Pivot.

Variables (portfolio : Portfolio) (event_data : EventData).
Variable openai_reply : option string.

Local Abbreviation dates := (date_axis event_data).
Local Abbreviation series scenario middle_date :=
  (calculate_scenario_performance event_data dates scenario middle_date
     (Some portfolio)).
Local Abbreviation scale := (scale_by_amount (Some portfolio)).

Lemma series_values (pivot : string) (i : nat) (d : string) :
  Forall (fun d => d <> "") dates ->
  dates !! (length dates / 2)%nat = Some pivot ->
  dates !! i = Some d ->
  let from_pivot := bool_decide (length dates / 2 <= i)%nat in
  let raw := raw_value event_data d in
  series "no_change" None !! i = Some (mkPoint d (scale (raw * 1.0)))
  /\ series "withdraw" (Some pivot) !! i
     = Some (mkPoint d (scale (raw * if from_pivot then 0.8 else 1.0)))
  /\ series "add" (Some pivot) !! i
     = Some (mkPoint d (scale (raw * if from_pivot then 1.2 else 1.0))).
Proof.
  intros Hdates Hpivot Hi. cbv zeta.
  assert (pivot <> "") as Hp.
  { rewrite Forall_forall in Hdates. apply Hdates.
    eapply list_elem_of_lookup_2. exact Hpivot. }
  rewrite !(scenario_performance_lookup _ _ _ _ _ _ _ Hi).
  unfold scenario_value.
  rewrite (adjustment_factor_withdraw _ _ Hp), (adjustment_factor_add _ _ Hp).
  rewrite adjustment_factor_no_change.
  rewrite (axis_on_or_after _ _ _ _ _ (date_axis_increasing event_data) Hpivot Hi).
  auto.
Qed.

Lemma series_returns (scenario : string) (middle_date : option string)
    (d0 : string) :
  dates !! 0%nat = Some d0 ->
  0 < scenario_value event_data scenario middle_date (Some portfolio) d0 ->
  Forall (fun d => returns (PyDate.strptime d)) dates ->
  returns (calculate_performance_metrics (series scenario middle_date)).
Proof.
  intros H0 Hpos Hparse.
  destruct (decide (2 <= length dates)%nat) as [Hlen|Hlen].
  - apply (metrics_returns _
             (mkPoint d0 (scenario_value event_data scenario middle_date
                            (Some portfolio) d0))).
    + now rewrite scenario_performance_length.
    + rewrite head_lookup. now apply scenario_performance_lookup.
    + exact Hpos.
    + unfold calculate_scenario_performance. rewrite Forall_map. exact Hparse.
  - unfold calculate_performance_metrics.
    rewrite scenario_performance_length.
    replace (length dates <? 2)%nat with true
      by (symmetry; apply Nat.ltb_lt; lia).
    eexists. reflexivity.
Qed.

Lemma simulate_returns_positive (d0 : string) :
  Forall (fun d => d <> "") dates ->
  dates !! 0%nat = Some d0 ->
  0 < scenario_value event_data "no_change" None (Some portfolio) d0 ->
  Forall (fun d => returns (PyDate.strptime d)) dates ->
  returns (simulate_portfolio_event portfolio event_data openai_reply).
Proof.
  intros Hdates H0 Hpos Hparse.
  assert (dates <> []) as Hne by (intros E; rewrite E in H0; discriminate).
  destruct (middle_index_in_range _ Hne) as [pivot Hpivot].
  apply (simulate_returns _ _ _ pivot Hpivot).
  - now apply (series_returns _ _ d0).
  - destruct (decide (2 <= length dates)%nat) as [Hlen|Hlen].
    + apply (series_returns _ _ d0); [exact H0 | | exact Hparse].
      pose proof (value_at_index portfolio event_data pivot d0 0 Hdates Hpivot H0)
        as V0.
      rewrite bool_decide_eq_false_2 in V0
        by (assert (1 <= length dates / 2)%nat
              by (apply Nat.div_le_lower_bound; lia); lia).
      destruct V0 as [-> _]. exact Hpos.
    + unfold calculate_performance_metrics.
      rewrite scenario_performance_length.
      replace (length dates <? 2)%nat with true
        by (symmetry; apply Nat.ltb_lt; lia).
      eexists. reflexivity.
  - destruct (decide (2 <= length dates)%nat) as [Hlen|Hlen].
    + apply (series_returns _ _ d0); [exact H0 | | exact Hparse].
      pose proof (value_at_index portfolio event_data pivot d0 0 Hdates Hpivot H0)
        as V0.
      rewrite bool_decide_eq_false_2 in V0
        by (assert (1 <= length dates / 2)%nat
              by (apply Nat.div_le_lower_bound; lia); lia).
      destruct V0 as [_ ->]. exact Hpos.
    + unfold calculate_performance_metrics.
      rewrite scenario_performance_length.
      replace (length dates <? 2)%nat with true
        by (symmetry; apply Nat.ltb_lt; lia).
      eexists. reflexivity.
Qed.

End Pivot.

(** C6: on a non-empty axis of date strings (none of them empty, as Python
    reads an empty [middle_date] as false) the pivot is the axis entry at
    index [len(axis) // 2].  The run returns exactly when the metrics of
    the three series computed with this pivot return, which they do when
    the first Hold value is positive and the axis dates parse; a returned
    run reports this pivot, and its Hold, Withdraw and Add series are the
    series computed with it.  At every axis index the entry of each series
    has the axis date; its value is the weighted close sum times 0.8
    (Withdraw) or 1.2 (Add) from the pivot index on and times 1.0 before
    it and in the Hold series, then scaled by the investment amount. *)
Theorem pivot_is_middle_of_axis (portfolio : Portfolio)
    (event_data : EventData) (openai_reply : option string) :
  let dates := date_axis event_data in
  let series scenario middle_date :=
    calculate_scenario_performance event_data dates scenario middle_date
      (Some portfolio) in
  let scale := scale_by_amount (Some portfolio) in
  dates <> [] ->
  Forall (fun d => d <> "") dates ->
  exists pivot,
    dates !! (length dates / 2)%nat = Some pivot
    /\ (returns (simulate_portfolio_event portfolio event_data openai_reply)
        <-> returns (calculate_performance_metrics (series "no_change" None))
            /\ returns (calculate_performance_metrics
                          (series "withdraw" (Some pivot)))
            /\ returns (calculate_performance_metrics
                          (series "add" (Some pivot))))
    /\ (forall d0,
          dates !! 0%nat = Some d0 ->
          0 < scale (raw_value event_data d0 * 1.0) ->
          Forall (fun d => returns (PyDate.strptime d)) dates ->
          returns (simulate_portfolio_event portfolio event_data openai_reply))
    /\ (forall sim,
          simulate_portfolio_event portfolio event_data openai_reply = Ok sim ->
          middle_date sim = pivot
          /\ exists hold withdraw add,
               simulation_results sim = [hold; withdraw; add]
               /\ performance hold = series "no_change" None
               /\ performance withdraw = series "withdraw" (Some pivot)
               /\ performance add = series "add" (Some pivot))
    /\ (forall i d, dates !! i = Some d ->
          let from_pivot := bool_decide (length dates / 2 <= i)%nat in
          let raw := raw_value event_data d in
          series "no_change" None !! i = Some (mkPoint d (scale (raw * 1.0)))
          /\ series "withdraw" (Some pivot) !! i
             = Some (mkPoint d (scale (raw * if from_pivot then 0.8 else 1.0)))
          /\ series "add" (Some pivot) !! i
             = Some (mkPoint d (scale (raw * if from_pivot then 1.2 else 1.0)))
          /\ adjustment_factor "withdraw" (Some pivot) d
             = (if from_pivot then 0.8 else 1.0)
          /\ adjustment_factor "add" (Some pivot) d
             = (if from_pivot then 1.2 else 1.0)).
Proof.
  cbv zeta. intros Hne Hdates.
  destruct (middle_index_in_range _ Hne) as [pivot Hpivot].
  assert (pivot <> "") as Hp.
  { rewrite Forall_forall in Hdates. apply Hdates.
    eapply list_elem_of_lookup_2. exact Hpivot. }
  exists pivot. split; [exact Hpivot|]. split; [|split; [|split]].
  - split.
    + intros [sim Hsim].
      apply simulate_Ok in Hsim as (pivot' & mn & mw & ma & Hp' & Hn & Hw & Ha & _).
      rewrite Hpivot in Hp'. injection Hp' as <-.
      unfold returns. repeat split; eexists; eassumption.
    + intros (Hn & Hw & Ha). now apply (simulate_returns _ _ _ pivot).
  - intros d0 H0 Hpos Hparse.
    now apply (simulate_returns_positive _ _ _ d0).
  - intros sim Hsim.
    apply simulate_Ok in Hsim as (pivot' & mn & mw & ma & Hp' & _ & _ & _ & ->).
    rewrite Hpivot in Hp'. injection Hp' as <-. simpl.
    split; [reflexivity|]. do 3 eexists. split; [reflexivity|].
    split; [reflexivity|]. split; reflexivity.
  - intros i d Hi.
    destruct (series_values portfolio event_data pivot i d Hdates Hpivot Hi)
      as (Hh & Hw & Ha).
    split; [exact Hh|]. split; [exact Hw|]. split; [exact Ha|].
    rewrite (adjustment_factor_withdraw _ _ Hp), (adjustment_factor_add _ _ Hp).
    rewrite (axis_on_or_after _ _ _ _ _ (date_axis_increasing event_data) Hpivot Hi).
    split; reflexivity.
Qed.

Lemma pivot_is_middle_of_axis_witness :
  let dates := date_axis sample_event_data in
  let series scenario middle_date :=
    calculate_scenario_performance sample_event_data dates scenario middle_date
      (Some sample_portfolio) in
  let scale := scale_by_amount (Some sample_portfolio) in
  exists sim,
    simulate_portfolio_event sample_portfolio sample_event_data None = Ok sim
    /\ middle_date sim = "2020-01-03"
    /\ dates !! (length dates / 2)%nat = Some (middle_date sim)
    /\ (returns (simulate_portfolio_event sample_portfolio sample_event_data
                   None)
        <-> returns (calculate_performance_metrics (series "no_change" None))
            /\ returns (calculate_performance_metrics
                          (series "withdraw" (Some (middle_date sim))))
            /\ returns (calculate_performance_metrics
                          (series "add" (Some (middle_date sim)))))
    /\ (exists hold withdraw add,
          simulation_results sim = [hold; withdraw; add]
          /\ performance hold = series "no_change" None
          /\ performance withdraw = series "withdraw" (Some (middle_date sim))
          /\ performance add = series "add" (Some (middle_date sim)))
    /\ (forall i d, dates !! i = Some d ->
          let from_pivot := bool_decide (length dates / 2 <= i)%nat in
          let raw := raw_value sample_event_data d in
          series "no_change" None !! i = Some (mkPoint d (scale (raw * 1.0)))
          /\ series "withdraw" (Some (middle_date sim)) !! i
             = Some (mkPoint d (scale (raw * if from_pivot then 0.8 else 1.0)))
          /\ series "add" (Some (middle_date sim)) !! i
             = Some (mkPoint d (scale (raw * if from_pivot then 1.2 else 1.0)))
          /\ adjustment_factor "withdraw" (Some (middle_date sim)) d
             = (if from_pivot then 0.8 else 1.0)
          /\ adjustment_factor "add" (Some (middle_date sim)) d
             = (if from_pivot then 1.2 else 1.0)).
Proof.
  cbv zeta.
  assert (date_axis sample_event_data <> []) as Hne by (vm_compute; discriminate).
  assert (Forall (fun d => d <> "") (date_axis sample_event_data)) as Hdates
    by (vm_compute; repeat constructor; discriminate).
  destruct (pivot_is_middle_of_axis sample_portfolio sample_event_data None
              Hne Hdates) as (pivot & Hpivot & Hiff & Hret & Hrun & Hval).
  destruct (Hret "2020-01-01") as [sim Hsim].
  - vm_compute. reflexivity.
  - vm_compute. reflexivity.
  - assert (date_axis sample_event_data
            = ["2020-01-01"; "2020-01-02"; "2020-01-03"; "2020-01-04";
               "2020-01-05"]) as -> by (vm_compute; reflexivity).
    repeat (constructor; [eexists; vm_compute; reflexivity|]). constructor.
  - destruct (Hrun sim Hsim) as [Hmid Hres].
    exists sim. split; [exact Hsim|]. rewrite Hmid.
    split; [vm_compute in Hpivot; now injection Hpivot as <-|].
    split; [exact Hpivot|]. split; [exact Hiff|]. split; [exact Hres|].
    exact Hval.
Defined.



(** ** Maximum drawdown as the decline from the running peak *)

Lemma drawdown_ratio_lt_100 (a v : Q) :
  0 < a -> 0 < v -> (a - v) / a * 100 < 100.
Proof.
  intros Ha Hv.
  assert ((a - v) / a < 1) as H; [|lra].
  apply Qlt_shift_div_r; [lra|]. lra.
Qed.

(** X5: the returned [max_drawdown] is the largest decline from the
    running peak (the greatest value so far) to the entry under it: it
    bounds the decline at every index, it is the decline at one index, it
    is never negative, and on a series of positive values it is at most
    100. *)
Theorem max_drawdown_is_peak_to_trough (performance_data : list Point)
    (m : Metrics) :
  (2 <= length performance_data)%nat ->
  calculate_performance_metrics performance_data = Ok m ->
  (forall j p peak,
     performance_data !! j = Some p -> running_peak performance_data j peak ->
     decline peak p <= max_drawdown m)
  /\ (exists j p peak,
        performance_data !! j = Some p /\ running_peak performance_data j peak
        /\ max_drawdown m == decline peak p)
  /\ 0 <= max_drawdown m
  /\ (Forall (fun p => 0 < value p) performance_data -> max_drawdown m <= 100).
Proof.
  intros Hlen Hm.
  destruct (drawdown_running_peak _ _ Hlen Hm) as (Hge & Hall & Hex).
  split; [intros j p peak Hp Hr; now apply (Hall j)|].
  split; [exact Hex|]. split; [exact Hge|].
  intros Hpos. destruct Hex as (j & p & peak & Hp & [(i & _ & Hpk) _] & ->).
  rewrite Forall_forall in Hpos. unfold decline.
  apply Qlt_le_weak, drawdown_ratio_lt_100; apply Hpos;
    eapply list_elem_of_lookup_2; eauto.
Qed.

Lemma max_drawdown_is_peak_to_trough_witness :
  exists m,
    calculate_performance_metrics sample_series = Ok m
    /\ (forall j p peak,
          sample_series !! j = Some p -> running_peak sample_series j peak ->
          decline peak p <= max_drawdown m)
    /\ (exists j p peak,
          sample_series !! j = Some p /\ running_peak sample_series j peak
          /\ max_drawdown m == decline peak p)
    /\ 0 <= max_drawdown m
    /\ (Forall (fun p => 0 < value p) sample_series -> max_drawdown m <= 100).
Proof.
  eexists. split; [vm_compute; reflexivity|].
  eapply (max_drawdown_is_peak_to_trough sample_series).
  - simpl. lia.
  - vm_compute. reflexivity.
Defined.

(** ** Scaling a series *)

Section Scaling.

Variable a : Q.
Hypothesis a_pos : 0 < a.

Lemma Qltb_scale (x y x' y' : Q) :
  x == a * x' -> y == a * y' -> Qltb x y = Qltb x' y'.
Proof.
  intros Hx Hy. destruct (Qltb x y) eqn:E, (Qltb x' y') eqn:E'; try reflexivity.
  - apply Qltb_lt in E. apply Qltb_ge in E'. nra.
  - apply Qltb_ge in E. apply Qltb_lt in E'. nra.
Qed.

Lemma Qle_bool_scale (x y x' y' : Q) :
  x == a * x' -> y == a * y' -> Qle_bool x y = Qle_bool x' y'.
Proof.
  intros Hx Hy. destruct (Qle_bool x y) eqn:E, (Qle_bool x' y') eqn:E'; try reflexivity.
  - apply Qle_bool_iff in E. apply Qle_bool_gt in E'. nra.
  - apply Qle_bool_gt in E. apply Qle_bool_iff in E'. nra.
Qed.

Lemma pydiv_scale (x y x' y' : Q) :
  x == a * x' -> y == a * y' ->
  match pydiv x y, pydiv x' y' with
  | Ok q, Ok q' => q == q'
  | Raise e, Raise e' => e = e'
  | _, _ => False
  end.
Proof.
  intros Hx Hy. unfold pydiv.
  destruct (Qeq_bool y 0) eqn:E, (Qeq_bool y' 0) eqn:E'; try reflexivity.
  - apply Qeq_bool_eq in E. apply Qeq_bool_neq in E'. apply E'. nra.
  - apply Qeq_bool_neq in E. apply Qeq_bool_eq in E'. apply E. nra.
  - apply Qeq_bool_neq in E'. rewrite Hx, Hy. field. split; [exact E' | lra].
Qed.

Lemma drawdown_loop_scale (scaled points : list Point) (peak peak' dd dd' : Q) :
  scaled_series a scaled points -> peak == a * peak' -> dd == dd' ->
  match drawdown_loop scaled peak dd, drawdown_loop points peak' dd' with
  | Ok r, Ok r' => r == r'
  | Raise e, Raise e' => e = e'
  | _, _ => False
  end.
Proof.
  intros H. revert peak peak' dd dd'.
  induction H as [|p q scaled points [_ Hv] _ IH]; intros peak peak' dd dd' Hp Hd.
  - simpl. exact Hd.
  - simpl. rewrite (Qltb_scale _ _ _ _ Hp Hv).
    set (pk := if Qltb peak' (value q) then value p else peak).
    set (pk' := if Qltb peak' (value q) then value q else peak').
    assert (pk == a * pk') as Hpk
      by (unfold pk, pk'; destruct (Qltb peak' (value q)); assumption).
    assert (pk - value p == a * (pk' - value q)) as Hnum by (rewrite Hpk, Hv; ring).
    pose proof (pydiv_scale _ _ _ _ Hnum Hpk) as Hdiv.
    destruct (pydiv (pk - value p) pk) as [x|e], (pydiv (pk' - value q) pk') as [x'|e'];
      try contradiction; [|exact Hdiv].
    rewrite !bind_of_Ok. apply IH; [exact Hpk|].
    unfold pymax.
    assert (Qltb dd (x * 100) = Qltb dd' (x' * 100)) as ->.
    { destruct (Qltb dd (x * 100)) eqn:E, (Qltb dd' (x' * 100)) eqn:E'; try reflexivity.
      - apply Qltb_lt in E. apply Qltb_ge in E'. lra.
      - apply Qltb_ge in E. apply Qltb_lt in E'. lra. }
    destruct (Qltb dd' (x' * 100)); [lra | exact Hd].
Qed.

Lemma argmin_from_scale (scaled points : list Point) (i best : nat) (v v' : Q) :
  scaled_series a scaled points -> v == a * v' ->
  argmin_from scaled i best v = argmin_from points i best v'.
Proof.
  intros H. revert i best v v'.
  induction H as [|p q scaled points [_ Hv] _ IH]; intros i best v v' Hvv; simpl.
  - reflexivity.
  - rewrite (Qltb_scale _ _ _ _ Hv Hvv).
    destruct (Qltb (value q) v'); now apply IH.
Qed.

Lemma recovery_scan_scale (scaled points : list Point) (v v' : Q)
    (d : PyDate.date) :
  scaled_series a scaled points -> v == a * v' ->
  recovery_scan scaled v d = recovery_scan points v' d.
Proof.
  intros H Hvv. induction H as [|p q scaled points [Hd Hv] _ IH]; simpl.
  - reflexivity.
  - rewrite (Qle_bool_scale _ _ _ _ Hvv Hv), Hd, IH. reflexivity.
Qed.

Lemma metrics_scale (scaled points : list Point) :
  scaled_series a scaled points ->
  same_metrics (calculate_performance_metrics scaled)
    (calculate_performance_metrics points).
Proof.
  intros H. pose proof (Forall2_length _ _ _ H) as Hlen.
  destruct H as [|p1 q1 scaled points [Hd1 Hv1] H].
  { simpl. repeat split; reflexivity. }
  destruct H as [|p2 q2 scaled points [Hd2 Hv2] H].
  { simpl. repeat split; reflexivity. }
  assert (scaled_series a (p1 :: p2 :: scaled) (q1 :: q2 :: points)) as Hall
    by (repeat constructor; auto).
  rewrite !metrics_unfold. cbv zeta.
  destruct (getitem_last p1 p2 scaled) as [fp Hfp].
  destruct (getitem_last q1 q2 points) as [fq Hfq].
  rewrite Hfp, Hfq, !bind_of_Ok.
  assert (value fp == a * value fq) as Hf.
  { unfold getitem in Hfp, Hfq. rewrite <- Hlen in Hfq.
    destruct (_ !! _) as [x|] eqn:Ex in Hfp; [|discriminate]. injection Hfp as ->.
    destruct (_ !! _) as [y|] eqn:Ey in Hfq; [|discriminate]. injection Hfq as ->.
    destruct (Forall2_lookup_lr _ _ _ _ _ _ Hall Ex Ey) as [_ Hv]. exact Hv. }
  assert (value fp - value p1 == a * (value fq - value q1)) as Hnum
    by (rewrite Hf, Hv1; ring).
  pose proof (pydiv_scale _ _ _ _ Hnum Hv1) as Hdiv.
  destruct (pydiv (value fp - value p1) (value p1)) as [x|e],
           (pydiv (value fq - value q1) (value q1)) as [x'|e'];
    try contradiction; [|exact Hdiv].
  rewrite !bind_of_Ok.
  pose proof (drawdown_loop_scale _ _ _ _ 0 0 Hall Hv1 ltac:(reflexivity)) as Hdd.
  destruct (drawdown_loop (p1 :: p2 :: scaled) (value p1) 0) as [r|e],
           (drawdown_loop (q1 :: q2 :: points) (value q1) 0) as [r'|e'];
    try contradiction; [|exact Hdd].
  rewrite !bind_of_Ok.
  assert (scaled_series a (p2 :: scaled) (q2 :: points)) as Htail
    by (constructor; auto).
  rewrite (argmin_from_scale _ _ 1 0 _ _ Htail Hv1).
  set (t := argmin_from (q2 :: points) 1 0 (value q1)).
  rewrite <- Hlen.
  assert (same_metrics
            (recovery_days ←
               (if (t <? length (p1 :: p2 :: scaled) - 1)%nat
                then lowest ← getitem (p1 :: p2 :: scaled) t;
                     lowest_date ← PyDate.strptime (date lowest);
                     recovery_scan (drop (S t) (p1 :: p2 :: scaled)) (value p1)
                       lowest_date
                else Ok None);
             Ok (mkMetrics (x * 100) r recovery_days))
            (recovery_days ←
               (if (t <? length (p1 :: p2 :: scaled) - 1)%nat
                then lowest ← getitem (q1 :: q2 :: points) t;
                     lowest_date ← PyDate.strptime (date lowest);
                     recovery_scan (drop (S t) (q1 :: q2 :: points)) (value q1)
                       lowest_date
                else Ok None);
             Ok (mkMetrics (x' * 100) r' recovery_days))); [|assumption].
  destruct (t <? length (p1 :: p2 :: scaled) - 1)%nat.
  2:{ rewrite !bind_of_Ok. simpl. repeat split; [lra | exact Hdd]. }
  unfold getitem.
  destruct ((p1 :: p2 :: scaled) !! t) as [lp|] eqn:Elp,
           ((q1 :: q2 :: points) !! t) as [lq|] eqn:Elq.
  - destruct (Forall2_lookup_lr _ _ _ _ _ _ Hall Elp Elq) as [Hd _].
    rewrite !bind_of_Ok, Hd.
    destruct (PyDate.strptime (date lq)) as [d|e]; [|reflexivity].
    rewrite !bind_of_Ok.
    rewrite (recovery_scan_scale (drop (S t) (p1 :: p2 :: scaled))
               (drop (S t) (q1 :: q2 :: points)) _ _ d
               (Forall2_drop _ _ _ _ Hall) Hv1).
    destruct (recovery_scan _ _ _) as [rd|e]; [|reflexivity].
    rewrite !bind_of_Ok. simpl. repeat split; [lra | exact Hdd].
  - apply lookup_lt_Some in Elp. apply lookup_ge_None in Elq. lia.
  - apply lookup_ge_None in Elp. apply lookup_lt_Some in Elq. lia.
  - reflexivity.
Qed.

End Scaling.

(** X6: multiplying every value of a series by the same positive factor
    changes nothing in the outcome of [calculate_performance_metrics]:
    the same exception, or the same total return, maximum drawdown and
    recovery days. *)
Theorem metrics_scale_invariant (a : Q) (scaled points : list Point) :
  0 < a -> scaled_series a scaled points ->
  same_metrics (calculate_performance_metrics scaled)
    (calculate_performance_metrics points).
Proof. intros Ha Hscaled. exact (metrics_scale a Ha scaled points Hscaled). Qed.

Lemma metrics_scale_invariant_witness :
  same_metrics
    (calculate_performance_metrics
       (List.map (fun p => mkPoint (date p) (2 * value p)) sample_series))
    (calculate_performance_metrics sample_series).
Proof.
  apply (metrics_scale_invariant 2).
  - reflexivity.
  - repeat constructor; reflexivity.
Defined.

(** ** Missing dates *)

Lemma raw_value_app (ed1 ed2 : EventData) (d : string) :
  raw_value (ed1 ++ ed2) d
  = foldl (fun portfolio_value '(_, asset_data) =>
             match data_point_at asset_data d with
             | Some data_point =>
                 portfolio_value
                 + close data_point * (allocation data_point / 100)
             | None => portfolio_value
             end) (raw_value ed1 d) ed2.
Proof. unfold raw_value. now rewrite foldl_app. Qed.

Lemma data_point_at_None (asset_data : list DataPoint) (d : string) :
  data_point_at asset_data d = None
  <-> forall p, p ∈ asset_data -> dp_date p <> d.
Proof.
  unfold data_point_at. induction asset_data as [|q l IH]; simpl.
  - split; [intros _ p Hp; inversion Hp | reflexivity].
  - destruct (String.eqb_spec (dp_date q) d) as [E|E].
    + split; [discriminate|]. intros H. exfalso. apply (H q); [left | exact E].
    + rewrite IH. split.
      * intros H p Hp. apply elem_of_cons in Hp as [->|Hp]; auto.
      * intros H p Hp. apply H. now right.
Qed.

(** X8: an asset that has no data point on any date of the list
    contributes nothing: [calculate_scenario_performance] returns the
    series it returns without that asset. *)
Theorem missing_date_contributes_nothing (ed1 ed2 : EventData)
    (symbol : string) (asset_data : list DataPoint) (dates : list string)
    (scenario : string) (middle_date : option string)
    (portfolio : option Portfolio) :
  (forall d p, d ∈ dates -> p ∈ asset_data -> dp_date p <> d) ->
  calculate_scenario_performance (ed1 ++ (symbol, asset_data) :: ed2) dates
    scenario middle_date portfolio
  = calculate_scenario_performance (ed1 ++ ed2) dates scenario middle_date
      portfolio.
Proof.
  intros Hmiss. unfold calculate_scenario_performance.
  apply List.map_ext_in. intros d Hd. apply list_elem_of_In in Hd.
  unfold scenario_value. do 3 f_equal.
  rewrite !raw_value_app. simpl.
  assert (data_point_at asset_data d = None) as ->; [|reflexivity].
  apply data_point_at_None. intros p Hp. now apply (Hmiss d p).
Qed.

Lemma missing_date_contributes_nothing_witness :
  calculate_scenario_performance
    (("GLD", [mkDataPoint "2021-06-01" 170 50]) :: sample_event_data)
    (date_axis sample_event_data) "add" (Some "2020-01-03") None
  = calculate_scenario_performance sample_event_data
      (date_axis sample_event_data) "add" (Some "2020-01-03") None.
Proof.
  apply (missing_date_contributes_nothing [] sample_event_data "GLD"
           [mkDataPoint "2021-06-01" 170 50]).
  intros d p Hd Hp Heq. apply list_elem_of_singleton in Hp. subst.
  apply list_elem_of_In in Hd. vm_compute in Hd. intuition discriminate.
Defined.

(** ** Market impact *)

Lemma impact_unfold (market_data : list MarketRow) :
  (2 <= length market_data)%nat ->
  calculate_market_impact market_data =
  let pre_event_days := Nat.min 30 (length market_data / 3) in
  pre_event_value ←
    pydiv (pysum (List.map row_close (take pre_event_days market_data)))
      (inject_Z (Z.of_nat pre_event_days));
  let event_data := drop pre_event_days market_data in
  match event_data with
  | [] => Ok (mkMarketImpact (Some pre_event_value) None None None None None)
  | first_row :: rest =>
      let lowest_point := min_by_close rest first_row in
      current ← getitem event_data (length event_data - 1);
      q ← pydiv (row_close lowest_point - pre_event_value) pre_event_value;
      let recovered := Qle_bool pre_event_value (row_close current) in
      recovery_days ←
        (if recovered
         then impact_recovery_scan
                (drop (S (index_of_date event_data (row_date lowest_point) 0))
                   event_data)
                pre_event_value (row_date lowest_point)
         else Ok None);
      Ok (mkMarketImpact (Some pre_event_value) (Some (row_close lowest_point))
            (Some (row_close current)) (Some (q * 100)) recovery_days
            (Some recovered))
  end.
Proof.
  intros Hlen. unfold calculate_market_impact.
  replace (length market_data <? 2)%nat with false; [reflexivity|].
  symmetry. apply Nat.ltb_ge. exact Hlen.
Qed.

Lemma impact_two_rows (market_data : list MarketRow) :
  length market_data = 2%nat ->
  calculate_market_impact market_data = Raise ZeroDivisionError.
Proof.
  intros Hlen. rewrite impact_unfold by lia. rewrite Hlen. reflexivity.
Qed.

(** X9: with exactly two rows of market data [pre_event_days] is 0 and
    [calculate_market_impact] raises [ZeroDivisionError]. *)
Theorem two_rows_divide_by_zero (market_data : list MarketRow) :
  length market_data = 2%nat ->
  calculate_market_impact market_data = Raise ZeroDivisionError.
Proof.
  intros Hlen. rewrite impact_unfold by lia.
  replace (Nat.min 30 (length market_data / 3)) with 0%nat
    by (rewrite Hlen; reflexivity).
  reflexivity.
Qed.

Lemma two_rows_divide_by_zero_witness :
  calculate_market_impact two_market_rows = Raise ZeroDivisionError.
Proof. apply (two_rows_divide_by_zero two_market_rows). reflexivity. Defined.

Lemma pre_event_days_bounds (n : nat) :
  (3 <= n)%nat ->
  (1 <= Nat.min 30 (n / 3) <= 30)%nat /\ (Nat.min 30 (n / 3) < n)%nat.
Proof.
  intros Hn.
  assert (1 <= n / 3)%nat by (apply Nat.div_le_lower_bound; lia).
  assert (n / 3 < n)%nat by (apply Nat.div_lt; lia).
  lia.
Qed.

Lemma min_by_close_spec (rest : list MarketRow) (best : MarketRow) :
  min_by_close rest best ∈ best :: rest
  /\ forall row, row ∈ best :: rest ->
       row_close (min_by_close rest best) <= row_close row.
Proof.
  revert best. induction rest as [|r rest IH]; intros best; simpl.
  - split; [left|]. intros row Hrow. apply list_elem_of_singleton in Hrow as ->. lra.
  - destruct (Qltb (row_close r) (row_close best)) eqn:E.
    + destruct (IH r) as [Hin Hmin]. split; [now right|].
      intros row Hrow. apply elem_of_cons in Hrow as [->|Hrow]; [|now apply Hmin].
      apply Qltb_lt in E. specialize (Hmin r ltac:(left)). lra.
    + destruct (IH best) as [Hin Hmin]. split.
      * apply elem_of_cons in Hin as [->|Hin]; [left | right; now right].
      * intros row Hrow. apply elem_of_cons in Hrow as [->|Hrow]; [apply Hmin; left|].
        apply elem_of_cons in Hrow as [->|Hrow]; [|apply Hmin; now right].
        apply Qltb_ge in E. specialize (Hmin best ltac:(left)). lra.
Qed.

Lemma impact_Ok (market_data : list MarketRow) (impact : MarketImpact) :
  (3 <= length market_data)%nat ->
  calculate_market_impact market_data = Ok impact ->
  let n := Nat.min 30 (length market_data / 3) in
  let event_data := drop n market_data in
  exists pre first_row rest current q rd,
    pydiv (pysum (List.map row_close (take n market_data)))
      (inject_Z (Z.of_nat n)) = Ok pre
    /\ event_data = first_row :: rest
    /\ event_data !! (length event_data - 1)%nat = Some current
    /\ pydiv (row_close (min_by_close rest first_row) - pre) pre = Ok q
    /\ (if Qle_bool pre (row_close current)
        then impact_recovery_scan
               (drop (S (index_of_date event_data
                           (row_date (min_by_close rest first_row)) 0))
                  event_data)
               pre (row_date (min_by_close rest first_row))
        else Ok None) = Ok rd
    /\ impact = mkMarketImpact (Some pre)
                  (Some (row_close (min_by_close rest first_row)))
                  (Some (row_close current)) (Some (q * 100)) rd
                  (Some (Qle_bool pre (row_close current))).
Proof.
  intros Hlen H. cbv zeta. rewrite impact_unfold in H by lia. cbv zeta in H.
  destruct (pre_event_days_bounds _ Hlen) as [_ Hn].
  apply bind_Ok in H as (pre & Hpre & H).
  destruct (drop (Nat.min 30 (length market_data / 3)) market_data)
    as [|first_row rest] eqn:E.
  { apply (f_equal length) in E. rewrite length_drop in E.
    change (length (@nil MarketRow)) with 0%nat in E. lia. }
  apply bind_Ok in H as (current & Hcur & H).
  apply bind_Ok in H as (q & Hq & H).
  apply bind_Ok in H as (rd & Hrd & H).
  injection H as <-. exists pre, first_row, rest, current, q, rd.
  split; [exact Hpre|]. split; [reflexivity|]. split; [|auto].
  unfold getitem in Hcur. destruct (_ !! _) as [x|]; [|discriminate].
  now injection Hcur as ->.
Qed.

(** X10: with three or more rows a returned impact has all its values: the
    pre-event value is the mean of the first [n = min(30, len // 3)]
    closes, with [1 <= n <= 30]; the lowest value is the least close of
    the rows after them, the current value is the close of the last row,
    the percent change is [(lowest - pre) / pre * 100] with [pre] not 0,
    and [recovered] says whether the current value has reached the
    pre-event value. *)
Theorem impact_of_three_or_more_rows (market_data : list MarketRow)
    (impact : MarketImpact) :
  (3 <= length market_data)%nat ->
  calculate_market_impact market_data = Ok impact ->
  let n := Nat.min 30 (length market_data / 3) in
  exists pre low cur pct rec last_row,
    pre_event_value impact = Some pre /\ lowest_value impact = Some low
    /\ current_value impact = Some cur /\ percent_change impact = Some pct
    /\ recovered impact = Some rec
    /\ (1 <= n <= 30)%nat /\ (n < length market_data)%nat
    /\ pre * inject_Z (Z.of_nat n)
       == pysum (List.map row_close (take n market_data))
    /\ (forall row, row ∈ drop n market_data -> low <= row_close row)
    /\ (exists row, row ∈ drop n market_data /\ row_close row = low)
    /\ last market_data = Some last_row /\ cur = row_close last_row
    /\ low <= cur
    /\ ~ pre == 0 /\ pct == (low - pre) / pre * 100
    /\ (rec = true <-> pre <= cur).
Proof.
  intros Hlen H. cbv zeta.
  destruct (pre_event_days_bounds _ Hlen) as [Hn1 Hn2].
  apply impact_Ok in H as (pre & first_row & rest & current & q & rd
                           & Hpre & Hev & Hcur & Hq & _ & ->); [|exact Hlen].
  cbv zeta in *. set (n := Nat.min 30 (length market_data / 3)) in *.
  apply pydiv_Ok in Hpre as [Hn0 ->]. apply pydiv_Ok in Hq as [Hp0 ->].
  destruct (min_by_close_spec rest first_row) as [Hin Hmin].
  rewrite Hev in *.
  assert (current ∈ first_row :: rest) as Hcin
    by (eapply list_elem_of_lookup_2; exact Hcur).
  exists (pysum (List.map row_close (take n market_data)) / inject_Z (Z.of_nat n)),
    (row_close (min_by_close rest first_row)), (row_close current),
    ((row_close (min_by_close rest first_row)
      - pysum (List.map row_close (take n market_data)) / inject_Z (Z.of_nat n))
     / (pysum (List.map row_close (take n market_data)) / inject_Z (Z.of_nat n))
     * 100),
    (Qle_bool (pysum (List.map row_close (take n market_data))
               / inject_Z (Z.of_nat n)) (row_close current)), current.
  simpl. repeat split; try reflexivity; try lia; auto.
  - field. exact Hn0.
  - eauto.
  - rewrite last_lookup.
    assert (length (first_row :: rest) = (length market_data - n)%nat) as Hl
      by (rewrite <- Hev; apply length_drop).
    rewrite <- Hev in Hcur. rewrite lookup_drop in Hcur. rewrite <- Hcur.
    f_equal. rewrite length_drop. lia.
  - apply Qle_bool_iff.
  - apply Qle_bool_iff.
Qed.

Lemma impact_of_three_or_more_rows_witness :
  exists impact pre low,
    calculate_market_impact sample_market_data = Ok impact
    /\ pre_event_value impact = Some pre /\ lowest_value impact = Some low
    /\ (forall row, row ∈ drop 2 sample_market_data -> low <= row_close row).
Proof.
  destruct (calculate_market_impact sample_market_data) as [impact|e] eqn:Hi;
    [|vm_compute in Hi; discriminate].
  destruct (impact_of_three_or_more_rows sample_market_data impact)
    as (pre & low & cur & pct & rec & last_row & Hpre & Hlow & _ & _ & _ & _
        & _ & _ & Hmin & _).
  - simpl. lia.
  - exact Hi.
  - exists impact, pre, low. split; [reflexivity|]. split; [exact Hpre|].
    split; [exact Hlow | exact Hmin].
Defined.

Lemma index_of_date_spec (rows : list MarketRow) (d : string) (i k : nat)
    (row : MarketRow) :
  rows !! k = Some row -> row_date row = d ->
  exists k0 row0,
    index_of_date rows d i = (i + k0)%nat /\ (k0 <= k)%nat
    /\ rows !! k0 = Some row0 /\ row_date row0 = d.
Proof.
  revert i k. induction rows as [|r rows IH]; intros i k Hk Hd.
  - now rewrite lookup_nil in Hk.
  - simpl. destruct (String.eqb_spec (row_date r) d) as [E|E].
    + exists 0%nat, r. repeat split; [lia | lia | exact E].
    + destruct k as [|k]; [simpl in Hk; congruence|]. simpl in Hk.
      destruct (IH (S i) k Hk Hd) as (k0 & row0 & Hi & Hle & Hl & Hd0).
      exists (S k0), row0. repeat split; [lia | lia | exact Hl | exact Hd0].
Qed.

Lemma impact_recovery_scan_spec (rows : list MarketRow) (pre : Q) (d : string)
    (r : option Z) :
  impact_recovery_scan rows pre d = Ok r ->
  (r = None /\ Forall (fun row => row_close row < pre) rows)
  \/ exists k row d_rec d_low,
       rows !! k = Some row /\ pre <= row_close row
       /\ PyDate.strptime (row_date row) = Ok d_rec
       /\ PyDate.strptime d = Ok d_low
       /\ r = Some (PyDate.days_between d_low d_rec).
Proof.
  induction rows as [|row rows IH]; simpl; intros H.
  - injection H as <-. left. split; [reflexivity | constructor].
  - destruct (Qle_bool pre (row_close row)) eqn:E.
    + apply Qle_bool_iff in E. apply bind_Ok in H as (d_rec & Hd & H).
      apply bind_Ok in H as (d_low & Hl & H). injection H as <-.
      right. exists 0%nat, row, d_rec, d_low. auto.
    + apply Qle_bool_gt in E.
      destruct (IH H) as [[-> Hall] | (k & row' & dr & dl & Hk & Hv & Hdr & Hdl & ->)].
      * left. split; [reflexivity | now constructor].
      * right. exists (S k), row', dr, dl. auto.
Qed.

Section Impact.

Variables (market_data : list MarketRow) (impact : MarketImpact).
Hypothesis enough_rows : (3 <= length market_data)%nat.
Hypothesis returned : calculate_market_impact market_data = Ok impact.

Local Abbreviation event_data :=
  (drop (Nat.min 30 (length market_data / 3)) market_data).

(** The trough's date first occurs at an index of the event window that is
    not after the trough, and the scan starts right after it. *)
Lemma impact_recovery_facts :
  exists pre low_row k_low li first_date_row current,
    pre_event_value impact = Some pre
    /\ lowest_value impact = Some (row_close low_row)
    /\ current_value impact = Some (row_close current)
    /\ recovered impact = Some (Qle_bool pre (row_close current))
    /\ event_data !! k_low = Some low_row
    /\ event_data !! (length event_data - 1)%nat = Some current
    /\ (li <= k_low)%nat /\ event_data !! li = Some first_date_row
    /\ row_date first_date_row = row_date low_row
    /\ (if Qle_bool pre (row_close current)
        then impact_recovery_scan (drop (S li) event_data) pre (row_date low_row)
        else Ok None) = Ok (impact_recovery_days impact).
Proof.
  destruct (impact_Ok _ _ enough_rows returned)
    as (pre & first_row & rest & current & q & rd & _ & Hev & Hcur & _ & Hrd & ->).
  cbv zeta in *.
  destruct (min_by_close_spec rest first_row) as [Hin _].
  rewrite <- Hev in Hin. apply list_elem_of_lookup_1 in Hin as [k_low Hk].
  destruct (index_of_date_spec _ _ 0 _ _ Hk eq_refl) as (li & row0 & Hli & Hle & Hl0 & Hd0).
  rewrite Hli in Hrd. simpl in Hrd.
  exists pre, (min_by_close rest first_row), k_low, li, row0, current.
  simpl. repeat split; auto.
Qed.

End Impact.

(** X11: [recovery_days] of the market impact is [None] when the index
    has not recovered, and is a number when it has recovered and the
    current value is above the lowest one. *)
Theorem impact_recovery_consistent (market_data : list MarketRow)
    (impact : MarketImpact) :
  (3 <= length market_data)%nat ->
  calculate_market_impact market_data = Ok impact ->
  (recovered impact = Some false -> impact_recovery_days impact = None)
  /\ (forall low cur,
        recovered impact = Some true ->
        lowest_value impact = Some low -> current_value impact = Some cur ->
        low < cur -> exists days, impact_recovery_days impact = Some days).
Proof.
  intros Hlen H.
  destruct (impact_recovery_facts _ _ Hlen H)
    as (pre & low_row & k_low & li & row0 & current
        & _ & Hlow & Hcurv & Hrec & Hk & Hcur & Hle & _ & _ & Hscan).
  split.
  - intros Hfalse. rewrite Hrec in Hfalse. injection Hfalse as Hfalse.
    rewrite Hfalse in Hscan. now injection Hscan.
  - intros low cur Htrue Hl Hc Hlt. rewrite Hrec in Htrue. injection Htrue as Htrue.
    rewrite Hlow in Hl. injection Hl as <-. rewrite Hcurv in Hc. injection Hc as <-.
    rewrite Htrue in Hscan. apply Qle_bool_iff in Htrue.
    assert (k_low < length (drop (Nat.min 30 (length market_data / 3)) market_data) - 1)%nat
      as Hklt.
    { pose proof (lookup_lt_Some _ _ _ Hk) as Hb.
      destruct (decide (k_low = length (drop (Nat.min 30 (length market_data / 3)) market_data) - 1)%nat)
        as [E|E]; [|lia].
      rewrite E, Hcur in Hk. injection Hk as ->. lra. }
    apply impact_recovery_scan_spec in Hscan
      as [[_ Hall] | (k & row & dr & dl & _ & _ & _ & _ & ->)]; [|eauto].
    exfalso. rewrite Forall_forall in Hall.
    assert (row_close current < pre); [|lra].
    apply Hall. apply list_elem_of_lookup.
    exists (length (drop (Nat.min 30 (length market_data / 3)) market_data) - 1 - S li)%nat.
    rewrite lookup_drop, <- Hcur. f_equal. lia.
Qed.

Lemma impact_recovery_consistent_witness :
  exists impact,
    calculate_market_impact sample_market_data = Ok impact
    /\ (recovered impact = Some false -> impact_recovery_days impact = None).
Proof.
  destruct (calculate_market_impact sample_market_data) as [impact|e] eqn:Hi;
    [|vm_compute in Hi; discriminate].
  destruct (impact_recovery_consistent sample_market_data impact) as [H _].
  - simpl. lia.
  - exact Hi.
  - exists impact. split; [reflexivity | exact H].
Defined.

(** X12: when the rows of the index are in ascending calendar order, a
    reported number of recovery days of the market impact is at least 1. *)
Theorem impact_recovery_at_least_one_day (market_data : list MarketRow)
    (cal : list PyDate.date) (impact : MarketImpact) (days : Z) :
  (3 <= length market_data)%nat ->
  market_calendar market_data cal ->
  StronglySorted PyDate.lt cal ->
  calculate_market_impact market_data = Ok impact ->
  impact_recovery_days impact = Some days ->
  (1 <= days)%Z.
Proof.
  intros Hlen Hcal Hsorted H Hdays.
  destruct (impact_recovery_facts _ _ Hlen H)
    as (pre & low_row & k_low & li & row0 & current
        & _ & _ & _ & _ & _ & _ & _ & Hli & Hdate & Hscan).
  rewrite Hdays in Hscan.
  destruct (Qle_bool pre (row_close current)); [|discriminate].
  apply impact_recovery_scan_spec in Hscan
    as [[? _] | (k & row & dr & dl & Hk & _ & Hdr & Hdl & Heq)]; [discriminate|].
  injection Heq as ->. rewrite lookup_drop in Hk. rewrite <- Hdate in Hdl.
  set (n := Nat.min 30 (length market_data / 3)) in *.
  rewrite lookup_drop in Hli, Hk.
  destruct (Forall2_lookup_l _ _ _ _ _ Hcal Hli) as (c_low & Hcl & Hpl).
  destruct (Forall2_lookup_l _ _ _ _ _ Hcal Hk) as (c_rec & Hcr & Hpr).
  rewrite Hdl in Hpl. injection Hpl as <-.
  rewrite Hdr in Hpr. injection Hpr as <-.
  assert (n + li < n + (S li + k))%nat as Hlt by lia.
  pose proof (StronglySorted_lookup_lt _ _ _ _ _ _ Hsorted Hlt Hcl Hcr) as Hord.
  pose proof (toordinal_lt _ _ (strptime_valid _ _ Hdl) (strptime_valid _ _ Hdr) Hord).
  unfold PyDate.days_between. lia.
Qed.

Lemma impact_recovery_at_least_one_day_witness :
  exists impact days,
    calculate_market_impact sample_market_data = Ok impact
    /\ impact_recovery_days impact = Some days /\ (1 <= days)%Z.
Proof.
  destruct (calculate_market_impact sample_market_data) as [impact|e] eqn:Hi;
    [|vm_compute in Hi; discriminate].
  destruct (impact_recovery_days impact) as [days|] eqn:Hd;
    [|vm_compute in Hi; injection Hi as <-; discriminate Hd].
  exists impact, days. split; [reflexivity|]. split; [exact Hd|].
  apply (impact_recovery_at_least_one_day sample_market_data
           sample_market_calendar impact days).
  - simpl. lia.
  - repeat (constructor; [vm_compute; reflexivity|]). constructor.
  - repeat (constructor;
      [|repeat (constructor; [unfold PyDate.lt; simpl; lia|]); constructor]).
    constructor.
  - exact Hi.
  - exact Hd.
Defined.

(** ** Event analysis *)

Lemma recovery_status_known (impact_data : MarketImpact) :
  recovery_status_of impact_data <> "Unknown".
Proof.
  unfold recovery_status_of.
  destruct (recovered impact_data) as [[|]|]; try discriminate.
  destruct (impact_recovery_days impact_data) as [days|]; [|discriminate].
  destruct (days =? 0)%Z; discriminate.
Qed.

Section Analyze.

Variables (event : string) (time_period : list (string * option string)).
Variable market_data_for : option string -> option string -> list MarketRow.
Variable openai : completion.

Local Abbreviation start_date :=
  (default None (dict_get time_period "start_date")).
Local Abbreviation end_date :=
  (default None (dict_get time_period "end_date")).
Local Abbreviation market_data := (market_data_for start_date end_date).

Lemma analyze_event_unfold :
  time_period <> [] -> (2 <= length market_data)%nat ->
  analyze_event event time_period market_data_for openai
  = (impact_data ← calculate_market_impact market_data;
     Ok (generate_event_analysis event impact_data openai, start_date, end_date)).
Proof.
  intros Hp Hlen. apply Nat.ltb_ge in Hlen. unfold analyze_event.
  destruct time_period as [|x l]; [contradiction|].
  now rewrite Hlen.
Qed.

(** X13: when the event period is known and the index history has
    exactly two rows, [analyze_event] raises [ZeroDivisionError]: the
    analysis endpoint answers HTTP 500 with its message, and the
    simulation handler of a known portfolio lets it escape. *)
Theorem two_market_rows_fail (str_of_exn : exn -> string) :
  time_period <> [] -> length market_data = 2%nat ->
  analyze_event event time_period market_data_for openai
  = Raise ZeroDivisionError
  /\ analyze_market_event str_of_exn event time_period market_data_for openai
     = Raise (HTTPException 500 (str_of_exn ZeroDivisionError))
  /\ forall portfolios portfolio_id history openai_reply,
       dict_get portfolios portfolio_id <> None ->
       simulate_portfolio_event_handler portfolios portfolio_id event
         (analyze_event event time_period market_data_for openai)
         history openai_reply
       = Raise ZeroDivisionError.
Proof.
  intros Hp Hlen.
  assert (analyze_event event time_period market_data_for openai
          = Raise ZeroDivisionError) as H.
  { rewrite analyze_event_unfold by (auto; lia).
    now rewrite (impact_two_rows _ Hlen). }
  split; [exact H|]. split.
  - unfold analyze_market_event. now rewrite H.
  - intros portfolios portfolio_id history openai_reply Hfound.
    unfold simulate_portfolio_event_handler. rewrite H.
    destruct (dict_get portfolios portfolio_id); [reflexivity | contradiction].
Qed.

(** X14: a returned analysis over at least two rows of index history
    comes from at least three rows and carries the period of the event;
    with a completion reply it has that reply as text, a percent change
    and a recovery status other than "Unknown", and with a failed
    completion it is the fallback analysis with the error message. *)
Theorem analysis_of_event analysis start_ end_ :
  time_period <> [] -> (2 <= length market_data)%nat ->
  analyze_event event time_period market_data_for openai
  = Ok (analysis, start_, end_) ->
  (3 <= length market_data)%nat
  /\ start_ = start_date /\ end_ = end_date
  /\ match openai with
     | Reply analysis_text =>
         ea_analysis analysis = analysis_text
         /\ (exists change, ea_percent_change analysis = Some change)
         /\ ea_recovery_status analysis <> "Unknown"
     | Failed message => analysis = analysis_failure event message
     end.
Proof.
  intros Hp Hlen H. rewrite analyze_event_unfold in H by auto.
  apply bind_Ok in H as (impact & Himpact & H). injection H as <- <- <-.
  assert (3 <= length market_data)%nat as H3.
  { destruct (decide (length market_data = 2%nat)) as [E|E]; [|lia].
    rewrite (impact_two_rows _ E) in Himpact. discriminate. }
  split; [exact H3|]. split; [reflexivity|]. split; [reflexivity|].
  apply impact_Ok in Himpact
    as (pre & first_row & rest & current & q & rd & _ & _ & _ & _ & _ & ->);
    [|exact H3].
  unfold generate_event_analysis. cbn [percent_change].
  destruct openai as [text|message]; [|reflexivity].
  cbn [ea_analysis ea_percent_change ea_recovery_status].
  split; [reflexivity|]. split; [eauto|]. apply recovery_status_known.
Qed.

End Analyze.

Lemma two_market_rows_fail_witness :
  analyze_event "the 2020 crash" sample_time_period (fun _ _ => two_market_rows)
    (Reply "Markets fell.")
  = Raise ZeroDivisionError.
Proof.
  apply (two_market_rows_fail "the 2020 crash" sample_time_period
           (fun _ _ => two_market_rows) (Reply "Markets fell.")
           (fun _ => "float division by zero")).
  - discriminate.
  - reflexivity.
Defined.

Lemma analysis_of_event_witness :
  exists analysis start_ end_,
    analyze_event "the 2020 crash" sample_time_period
      (fun _ _ => sample_market_data) (Reply "Markets fell.")
    = Ok (analysis, start_, end_)
    /\ start_ = Some "2020-01-01" /\ end_ = Some "2020-01-07"
    /\ ea_analysis analysis = "Markets fell.".
Proof.
  destruct (analyze_event "the 2020 crash" sample_time_period
              (fun _ _ => sample_market_data) (Reply "Markets fell."))
    as [[[analysis start_] end_]|e] eqn:Ha; [|vm_compute in Ha; discriminate].
  destruct (analysis_of_event "the 2020 crash" sample_time_period
              (fun _ _ => sample_market_data) (Reply "Markets fell.")
              analysis start_ end_) as (_ & Hs & He & Htext & _).
  - discriminate.
  - simpl. lia.
  - exact Ha.
  - exists analysis, start_, end_. repeat split; assumption.
Defined.

(** ** Dicts in insertion order *)

Section Dict.

Context {V : Type}.
Implicit Types (d : list (string * V)) (k : string) (v : V).

Lemma dict_get_cons d k k' v :
  dict_get ((k', v) :: d) k = if String.eqb k' k then Some v else dict_get d k.
Proof.
  unfold dict_get. simpl. now destruct (String.eqb k' k).
Qed.

Lemma dict_get_set_eq d k v : dict_get (dict_set d k v) k = Some v.
Proof.
  induction d as [|[k' v'] d IH]; simpl.
  - rewrite dict_get_cons. now rewrite String.eqb_refl.
  - destruct (String.eqb k' k) eqn:E; rewrite dict_get_cons, E; [reflexivity | exact IH].
Qed.

Lemma dict_get_set_ne d k k' v :
  k <> k' -> dict_get (dict_set d k v) k' = dict_get d k'.
Proof.
  intros Hne. induction d as [|[k0 v0] d IH]; simpl.
  - rewrite dict_get_cons. destruct (String.eqb_spec k k'); [contradiction | reflexivity].
  - destruct (String.eqb_spec k0 k) as [->|E]; rewrite !dict_get_cons.
    + destruct (String.eqb_spec k k'); [contradiction | reflexivity].
    + now rewrite IH.
Qed.

Lemma dict_get_Some_elem d k v : dict_get d k = Some v -> (k, v) ∈ d.
Proof.
  induction d as [|[k' v'] d IH]; [discriminate|].
  rewrite dict_get_cons. destruct (String.eqb_spec k' k) as [->|E].
  - intros [= ->]. left.
  - intros H. right. now apply IH.
Qed.

Lemma dict_get_None_keys d k : dict_get d k = None <-> k ∉ List.map fst d.
Proof.
  induction d as [|[k' v'] d IH]; simpl.
  - split; [intros _ H; inversion H | reflexivity].
  - rewrite dict_get_cons, not_elem_of_cons.
    destruct (String.eqb_spec k' k) as [->|E].
    + split; [discriminate | intros [H _]; contradiction].
    + rewrite IH. split; [intros H; split; [congruence | exact H] | tauto].
Qed.

Lemma dict_set_keys_in d k v :
  k ∈ List.map fst d -> List.map fst (dict_set d k v) = List.map fst d.
Proof.
  induction d as [|[k' v'] d IH]; simpl; intros H; [inversion H|].
  destruct (String.eqb_spec k' k) as [->|E]; simpl; [reflexivity|].
  apply elem_of_cons in H as [->|H]; [congruence|]. now rewrite IH.
Qed.

Lemma dict_set_keys_fresh d k v :
  k ∉ List.map fst d -> List.map fst (dict_set d k v) = List.map fst d ++ [k].
Proof.
  induction d as [|[k' v'] d IH]; simpl; intros H; [reflexivity|].
  apply not_elem_of_cons in H as [Hk H].
  destruct (String.eqb_spec k' k) as [->|E]; [contradiction|].
  simpl. now rewrite IH.
Qed.

Lemma dict_del_keys_subseteq d k x :
  x ∈ List.map fst (dict_del d k) -> x ∈ List.map fst d.
Proof.
  induction d as [|[k' v'] d IH]; simpl; [auto|].
  destruct (String.eqb k' k); simpl.
  - intros H. now right.
  - intros H. apply elem_of_cons in H as [->|H]; [left | right; auto].
Qed.

Lemma dict_del_NoDup d k :
  NoDup (List.map fst d) -> NoDup (List.map fst (dict_del d k)).
Proof.
  induction d as [|[k' v'] d IH]; simpl; [auto|].
  intros Hnd. apply NoDup_cons in Hnd as [Hk Hnd].
  destruct (String.eqb k' k); simpl; [exact Hnd|].
  apply NoDup_cons. split; [|auto].
  intros H. apply Hk. eapply dict_del_keys_subseteq. exact H.
Qed.

Lemma dict_get_del_eq d k :
  NoDup (List.map fst d) -> dict_get (dict_del d k) k = None.
Proof.
  induction d as [|[k' v'] d IH]; simpl; [reflexivity|].
  intros Hnd. apply NoDup_cons in Hnd as [Hk Hnd].
  destruct (String.eqb_spec k' k) as [->|E].
  - now apply dict_get_None_keys.
  - rewrite dict_get_cons. destruct (String.eqb_spec k' k); [contradiction | auto].
Qed.

Lemma dict_get_del_ne d k k' :
  k <> k' -> dict_get (dict_del d k) k' = dict_get d k'.
Proof.
  intros Hne. induction d as [|[k0 v0] d IH]; simpl; [reflexivity|].
  destruct (String.eqb_spec k0 k) as [->|E]; rewrite !dict_get_cons.
  - destruct (String.eqb_spec k k'); [contradiction | reflexivity].
  - now rewrite IH.
Qed.

Lemma dict_set_NoDup d k v :
  NoDup (List.map fst d) -> NoDup (List.map fst (dict_set d k v)).
Proof.
  intros Hnd. destruct (decide (k ∈ List.map fst d)) as [H|H].
  { now rewrite dict_set_keys_in. }
  rewrite dict_set_keys_fresh by exact H.
  apply NoDup_app. split; [exact Hnd|]. split; [|apply NoDup_singleton].
  intros x Hx Hx'. apply list_elem_of_singleton in Hx' as ->. contradiction.
Qed.

Lemma dict_del_length d k v :
  dict_get d k = Some v -> S (length (dict_del d k)) = length d.
Proof.
  induction d as [|[k' v'] d IH]; [discriminate|].
  rewrite dict_get_cons. simpl. destruct (String.eqb k' k); [reflexivity|].
  intros H. simpl. now rewrite IH.
Qed.

Lemma dict_set_elem d k v k' v' :
  (k', v') ∈ dict_set d k v -> (k', v') ∈ d \/ (k' = k /\ v' = v).
Proof.
  induction d as [|[k0 v0] d IH]; simpl.
  - intros H. apply list_elem_of_singleton in H. injection H as -> ->. now right.
  - destruct (String.eqb_spec k0 k) as [->|E]; intros H.
    + apply elem_of_cons in H as [[= -> ->]|H]; [now right | left; now right].
    + apply elem_of_cons in H as [[= -> ->]|H]; [left; left|].
      destruct (IH H) as [H'|H']; [left; now right | now right].
Qed.

End Dict.

(** ** The store *)

Lemma store_get_id (portfolios : Store) (k : string) (p : StoredPortfolio) :
  store_ok portfolios -> dict_get portfolios k = Some p -> sp_id p = k.
Proof.
  intros [_ Hid] H. apply dict_get_Some_elem in H.
  rewrite Forall_forall in Hid. symmetry. exact (Hid _ H).
Qed.

Lemma dict_set_ids (portfolios : Store) (k : string) (p : StoredPortfolio) :
  Forall (fun kv => fst kv = sp_id (snd kv)) portfolios -> k = sp_id p ->
  Forall (fun kv => fst kv = sp_id (snd kv)) (dict_set portfolios k p).
Proof.
  intros Hall Hk. rewrite Forall_forall in *. intros [k' v'] Hin.
  apply dict_set_elem in Hin as [Hin | [-> ->]]; [now apply Hall | exact Hk].
Qed.

Lemma dict_del_elem {V} (d : list (string * V)) (k : string) (x : string * V) :
  x ∈ dict_del d k -> x ∈ d.
Proof.
  induction d as [|[k' v'] d IH]; simpl; [auto|].
  destruct (String.eqb k' k).
  - intros H. now right.
  - intros H. apply elem_of_cons in H as [->|H]; [left | right; auto].
Qed.

(** X15: creating, updating and deleting keep the store well formed: keys
    stay distinct and every portfolio stays stored under its own id. *)
Theorem store_invariant (portfolios : Store) :
  store_ok portfolios ->
  (forall new_id now pc,
     store_ok (fst (create_portfolio portfolios new_id now pc)))
  /\ (forall portfolio_id pu portfolios' p,
        update_portfolio portfolios portfolio_id pu = Ok (portfolios', p) ->
        store_ok portfolios')
  /\ (forall portfolio_id portfolios' message,
        delete_portfolio portfolios portfolio_id = Ok (portfolios', message) ->
        store_ok portfolios').
Proof.
  intros [Hnd Hid]. split; [|split].
  - intros new_id now pc. split; simpl.
    + now apply dict_set_NoDup.
    + now apply dict_set_ids.
  - intros k pu s' p. unfold update_portfolio.
    destruct (dict_get portfolios k) as [e|] eqn:E; [|discriminate].
    intros [= <- <-]. split.
    + now apply dict_set_NoDup.
    + apply dict_set_ids; [exact Hid|]. simpl. symmetry.
      now apply (store_get_id portfolios).
  - intros k s' msg. unfold delete_portfolio.
    destruct (dict_get portfolios k) as [e|] eqn:E; [|discriminate].
    intros [= <- <-]. split.
    + now apply dict_del_NoDup.
    + rewrite Forall_forall in *. intros x Hx. apply Hid.
      eapply dict_del_elem. exact Hx.
Qed.

Lemma store_invariant_witness :
  store_ok
    (fst (create_portfolio sample_store "p-2" 1577923200
            (mkPortfolioCreate "Growth" [sample_asset] (Some 1000)))).
Proof.
  apply (store_invariant sample_store).
  split; [|repeat constructor].
  constructor; [apply not_elem_of_nil | constructor].
Defined.

(** X16: a created portfolio has the given id, time stamp, name, assets
    and amount; it is what [get_portfolio] then returns for that id, the
    other ids are answered as before, and under a fresh id it is listed
    last. *)
Theorem create_then_get (portfolios : Store) (new_id : string) (now : Z)
    (pc : PortfolioCreate) :
  let '(portfolios', created) := create_portfolio portfolios new_id now pc in
  created = mkStoredPortfolio new_id (pc_name pc) (pc_assets pc) now
              (pc_investment_amount pc)
  /\ get_portfolio portfolios' new_id = Ok created
  /\ (forall other, other <> new_id ->
        get_portfolio portfolios' other = get_portfolio portfolios other)
  /\ (new_id ∉ List.map fst portfolios ->
      list_portfolios portfolios' = list_portfolios portfolios ++ [created]).
Proof.
  simpl. split; [reflexivity|]. unfold get_portfolio. split; [|split].
  - now rewrite dict_get_set_eq.
  - intros other Hne. rewrite dict_get_set_ne by congruence. reflexivity.
  - intros Hfresh. unfold list_portfolios.
    induction portfolios as [|[k v] s IH]; simpl; [reflexivity|].
    simpl in Hfresh. apply not_elem_of_cons in Hfresh as [Hk Hs].
    destruct (String.eqb_spec k new_id) as [->|E]; [contradiction|].
    simpl. f_equal. now apply IH.
Qed.

(** X17: [delete_portfolio] answers 404 exactly for an unknown id;
    otherwise the id is unknown afterwards, the store has one portfolio
    less and the other ids are answered as before. *)
Theorem delete_then_get (portfolios : Store) (portfolio_id : string) :
  store_ok portfolios ->
  match delete_portfolio portfolios portfolio_id with
  | Ok (portfolios', _) =>
      portfolio_id ∈ List.map fst portfolios
      /\ get_portfolio portfolios' portfolio_id = not_found
      /\ S (length portfolios') = length portfolios
      /\ forall other, other <> portfolio_id ->
           get_portfolio portfolios' other = get_portfolio portfolios other
  | Raise e =>
      e = HTTPException 404 "Portfolio not found"
      /\ portfolio_id ∉ List.map fst portfolios
  end.
Proof.
  intros [Hnd _]. unfold delete_portfolio.
  destruct (dict_get portfolios portfolio_id) as [p|] eqn:E.
  - split.
    { destruct (decide (portfolio_id ∈ List.map fst portfolios)) as [H|H]; [exact H|].
      apply dict_get_None_keys in H. congruence. }
    unfold get_portfolio. split; [now rewrite dict_get_del_eq|].
    split; [now apply (dict_del_length _ _ p)|].
    intros other Hne. now rewrite dict_get_del_ne by congruence.
  - split; [reflexivity|]. now apply dict_get_None_keys.
Qed.

Lemma delete_then_get_witness :
  exists portfolios' message,
    delete_portfolio sample_store "p-1" = Ok (portfolios', message)
    /\ get_portfolio portfolios' "p-1" = not_found.
Proof.
  assert (store_ok sample_store) as Hok.
  { split; [|repeat constructor].
    constructor; [apply not_elem_of_nil | constructor]. }
  pose proof (delete_then_get sample_store "p-1" Hok) as H.
  destruct (delete_portfolio sample_store "p-1") as [[portfolios' message]|e]
    eqn:E; [|vm_compute in E; discriminate].
  exists portfolios', message. split; [reflexivity | apply H].
Defined.

(** X18: [update_portfolio] answers 404 exactly for an unknown id;
    otherwise the update keeps the id and the creation time, takes name,
    assets and amount from the request, is what [get_portfolio] then
    returns, and leaves the order of the listing and the other portfolios
    as they were. *)
Theorem update_keeps_identity (portfolios : Store) (portfolio_id : string)
    (pu : PortfolioCreate) :
  store_ok portfolios ->
  match update_portfolio portfolios portfolio_id pu with
  | Ok (portfolios', updated) =>
      exists existing,
        get_portfolio portfolios portfolio_id = Ok existing
        /\ updated = mkStoredPortfolio portfolio_id (pc_name pu) (pc_assets pu)
                       (sp_created_at existing) (pc_investment_amount pu)
        /\ get_portfolio portfolios' portfolio_id = Ok updated
        /\ List.map fst portfolios' = List.map fst portfolios
        /\ forall other, other <> portfolio_id ->
             get_portfolio portfolios' other = get_portfolio portfolios other
  | Raise e =>
      e = HTTPException 404 "Portfolio not found"
      /\ portfolio_id ∉ List.map fst portfolios
  end.
Proof.
  intros Hok. unfold update_portfolio.
  destruct (dict_get portfolios portfolio_id) as [p|] eqn:E.
  - exists p. unfold get_portfolio. rewrite E.
    split; [reflexivity|].
    split; [now rewrite (store_get_id _ _ _ Hok E)|].
    split; [now rewrite dict_get_set_eq|].
    split.
    + apply dict_set_keys_in.
      destruct (decide (portfolio_id ∈ List.map fst portfolios)) as [H|H]; [exact H|].
      apply dict_get_None_keys in H. congruence.
    + intros other Hne. now rewrite dict_get_set_ne by congruence.
  - split; [reflexivity|]. now apply dict_get_None_keys.
Qed.

Lemma update_keeps_identity_witness :
  exists portfolios' updated,
    update_portfolio sample_store "p-1" (mkPortfolioCreate "Growth" [] None)
    = Ok (portfolios', updated)
    /\ get_portfolio portfolios' "p-1" = Ok updated
    /\ List.map fst portfolios' = List.map fst sample_store.
Proof.
  assert (store_ok sample_store) as Hok.
  { split; [|repeat constructor].
    constructor; [apply not_elem_of_nil | constructor]. }
  pose proof (update_keeps_identity sample_store "p-1"
                (mkPortfolioCreate "Growth" [] None) Hok) as H.
  destruct (update_portfolio sample_store "p-1" _) as [[portfolios' updated]|e]
    eqn:E; [|vm_compute in E; discriminate].
  destruct H as (existing & _ & _ & Hget & Hkeys & _).
  exists portfolios', updated. repeat split; assumption.
Defined.

(** ** Fetching and the simulation handler *)

Section Fetch.

Variable history : string -> option (list (string * Q)).

Local Abbreviation rows_of asset rows :=
  (List.map (fun '(d, c) => mkDataPoint d c (asset_allocation asset)) rows).

Lemma fetch_snoc (assets : list PortfolioAsset) (asset : PortfolioAsset) :
  fetch_asset_data (assets ++ [asset]) history
  = match history (asset_symbol asset) with
    | Some rows =>
        dict_set (fetch_asset_data assets history) (asset_symbol asset)
          (rows_of asset rows)
    | None => fetch_asset_data assets history
    end.
Proof. unfold fetch_asset_data. now rewrite foldl_app. Qed.

Lemma fetch_elem (assets : list PortfolioAsset) (symbol : string)
    (asset_data : list DataPoint) :
  (symbol, asset_data) ∈ fetch_asset_data assets history ->
  exists asset rows,
    asset ∈ assets /\ asset_symbol asset = symbol
    /\ history symbol = Some rows /\ asset_data = rows_of asset rows.
Proof.
  induction assets as [|a assets IH] using rev_ind.
  - intros H. inversion H.
  - rewrite fetch_snoc. destruct (history (asset_symbol a)) as [rows|] eqn:E.
    + intros H. apply dict_set_elem in H as [H | [-> ->]].
      * destruct (IH H) as (asset & rows' & Hin & Hs & Hh & Hd).
        exists asset, rows'. split; [apply elem_of_app; now left | auto].
      * exists a, rows. split; [apply elem_of_app; right; left | auto].
    + intros H. destruct (IH H) as (asset & rows' & Hin & Hs & Hh & Hd).
      exists asset, rows'. split; [apply elem_of_app; now left | auto].
Qed.

Lemma fetch_keys (assets : list PortfolioAsset) (asset : PortfolioAsset)
    (rows : list (string * Q)) :
  asset ∈ assets -> history (asset_symbol asset) = Some rows ->
  asset_symbol asset ∈ List.map fst (fetch_asset_data assets history).
Proof.
  induction assets as [|a assets IH] using rev_ind.
  - intros H. inversion H.
  - intros Hin Hh. rewrite fetch_snoc.
    destruct (decide (asset_symbol a = asset_symbol asset)) as [Es|Es].
    + rewrite Es, Hh.
      destruct (decide (asset_symbol asset
                        ∈ List.map fst (fetch_asset_data assets history))) as [H|H].
      * now rewrite dict_set_keys_in.
      * rewrite dict_set_keys_fresh by exact H. apply elem_of_app. right. left.
    + apply elem_of_app in Hin as [Hin|Hin].
      2:{ apply list_elem_of_singleton in Hin as ->. contradiction. }
      specialize (IH Hin Hh).
      destruct (history (asset_symbol a)) as [rows'|]; [|exact IH].
      destruct (decide (asset_symbol a
                        ∈ List.map fst (fetch_asset_data assets history))) as [H|H].
      * now rewrite dict_set_keys_in.
      * rewrite dict_set_keys_fresh by exact H. apply elem_of_app. now left.
Qed.

Lemma fetch_NoDup (assets : list PortfolioAsset) :
  NoDup (List.map fst (fetch_asset_data assets history)).
Proof.
  induction assets as [|a assets IH] using rev_ind; [constructor|].
  rewrite fetch_snoc. destruct (history (asset_symbol a)); [|exact IH].
  now apply dict_set_NoDup.
Qed.

Lemma fetch_all_empty_iff (assets : list PortfolioAsset) :
  (forall symbol asset_data,
     (symbol, asset_data) ∈ fetch_asset_data assets history -> asset_data = [])
  <-> forall asset, asset ∈ assets ->
        history (asset_symbol asset) = None
        \/ history (asset_symbol asset) = Some [].
Proof.
  split.
  - intros Hall asset Hin.
    destruct (history (asset_symbol asset)) as [rows|] eqn:E; [|now left].
    right. f_equal.
    pose proof (fetch_keys _ _ _ Hin E) as Hk.
    apply list_elem_of_fmap in Hk as ([s data] & Hs & Hd). simpl in Hs.
    pose proof (Hall _ _ Hd) as ->.
    apply fetch_elem in Hd as (asset' & rows' & _ & _ & Hh & Hrows).
    rewrite <- Hs, E in Hh. injection Hh as <-.
    destruct rows; [reflexivity | discriminate].
  - intros Hall symbol asset_data Hin.
    apply fetch_elem in Hin as (asset & rows & Hin & <- & Hh & ->).
    destruct (Hall _ Hin) as [H|H]; rewrite H in Hh; [discriminate|].
    now injection Hh as <-.
Qed.

End Fetch.

Lemma period_known_iff (start_date end_date : option string) :
  period_known start_date end_date
  <-> truthy start_date = true /\ truthy end_date = true.
Proof.
  unfold period_known, truthy. split.
  - intros [(s & -> & Hs) (e & -> & He)].
    destruct (String.eqb_spec s ""), (String.eqb_spec e ""); try contradiction.
    split; reflexivity.
  - intros [Hs He]. split.
    + destruct start_date as [s|]; [|discriminate]. exists s. split; [reflexivity|].
      destruct (String.eqb_spec s ""); [discriminate | assumption].
    + destruct end_date as [e|]; [|discriminate]. exists e. split; [reflexivity|].
      destruct (String.eqb_spec e ""); [discriminate | assumption].
Qed.

(** X19: the HTTP errors of the simulation handler after a returned
    analysis: 404 "Portfolio not found" for an unknown id; for a known one
    400 "Could not determine event time period" when an end of the period
    is missing or empty, and otherwise 400 "Insufficient market data for
    simulation" exactly when every asset's history failed or is empty. *)
Theorem handler_http_errors (portfolios : Store) (portfolio_id event : string)
    (analysis : EventAnalysis) (start_date end_date : option string)
    (history : string -> option (list (string * Q)))
    (openai_reply : option string) (status_code : Z) (detail : string) :
  simulate_portfolio_event_handler portfolios portfolio_id event
    (Ok (analysis, start_date, end_date)) history openai_reply
  = Raise (HTTPException status_code detail)
  <-> match dict_get portfolios portfolio_id with
      | None => status_code = 404%Z /\ detail = "Portfolio not found"
      | Some portfolio =>
          status_code = 400%Z
          /\ ((~ period_known start_date end_date
               /\ detail = "Could not determine event time period")
              \/ (period_known start_date end_date
                  /\ detail = "Insufficient market data for simulation"
                  /\ forall asset, asset ∈ sp_assets portfolio ->
                       history (asset_symbol asset) = None
                       \/ history (asset_symbol asset) = Some []))
      end.
Proof.
  unfold simulate_portfolio_event_handler.
  destruct (dict_get portfolios portfolio_id) as [p|].
  2:{ unfold not_found. split; [intros [= <- <-]; auto | intros [-> ->]; reflexivity]. }
  rewrite bind_of_Ok.
  destruct (negb (truthy start_date) || negb (truthy end_date)) eqn:Et.
  - assert (~ period_known start_date end_date) as Hnot.
    { rewrite period_known_iff. intros [Hs He]. rewrite Hs, He in Et. discriminate. }
    split.
    + intros [= <- <-]. split; [reflexivity|]. left. auto.
    + intros [-> [[_ ->] | [Hk _]]]; [reflexivity | contradiction].
  - assert (period_known start_date end_date) as Hk.
    { rewrite period_known_iff. apply orb_false_iff in Et as [Hs He].
      apply negb_false_iff in Hs, He. auto. }
    rewrite <- fetch_all_empty_iff.
    destruct (simulate_portfolio_event _ _ _) as [sim|e] eqn:E.
    + rewrite bind_of_Ok. split; [discriminate|].
      intros [_ [[Hn _] | (_ & _ & Hall)]]; [contradiction|].
      pose proof (proj2 (date_axis_empty_iff _) Hall) as Hempty.
      rewrite (simulate_empty _ _ openai_reply Hempty) in E. discriminate.
    + split.
      * intros [= ->].
        assert (exists c' d', simulate_portfolio_event (as_portfolio p)
                  (fetch_asset_data (sp_assets p) history) openai_reply
                = Raise (HTTPException c' d')) as Hex by eauto.
        pose proof (proj1 (simulate_raises_http_iff _ _ _) Hex) as Hall.
        pose proof (proj2 (date_axis_empty_iff _) Hall) as Hempty.
        rewrite (simulate_empty _ _ openai_reply Hempty) in E.
        injection E as <- <-. split; [reflexivity|]. right. auto.
      * intros [-> [[Hn _] | (_ & -> & Hall)]]; [contradiction|].
        pose proof (proj2 (date_axis_empty_iff _) Hall) as Hempty.
        rewrite (simulate_empty _ _ openai_reply Hempty) in E.
        now injection E as <-.
Qed.

(** ** Asset performance and portfolio performance *)

Lemma dict_get_app {V} (d d' : list (string * V)) (k : string) :
  dict_get (d ++ d') k
  = match dict_get d k with
    | Some v => Some v
    | None => dict_get d' k
    end.
Proof.
  induction d as [|[k' v'] d IH]; simpl; [reflexivity|].
  rewrite !dict_get_cons. now destruct (String.eqb k' k).
Qed.

Section AssetPerformance.

Variable assets : list PortfolioAsset.

Local Abbreviation first_with symbol :=
  (List.find (fun a => String.eqb (asset_symbol a) symbol) assets).

Lemma first_with_Some (asset : PortfolioAsset) :
  asset ∈ assets ->
  exists info, first_with (asset_symbol asset) = Some info
               /\ asset_symbol info = asset_symbol asset.
Proof.
  intros Hin.
  destruct (first_with (asset_symbol asset)) as [info|] eqn:E.
  - exists info. split; [reflexivity|].
    apply List.find_some in E as [_ E]. now apply String.eqb_eq in E.
  - apply list_elem_of_In in Hin.
    pose proof (List.find_none _ _ E _ Hin) as H. simpl in H.
    now rewrite String.eqb_refl in H.
Qed.

Lemma asset_performance_snoc (event_data : EventData) (symbol : string)
    (asset_data : list DataPoint) :
  asset_performance_of assets (event_data ++ [(symbol, asset_data)])
  = match first_with symbol with
    | Some info =>
        dict_set (asset_performance_of assets event_data) symbol
          (mkAssetPerformance (asset_name info) (asset_allocation info)
             asset_data)
    | None => asset_performance_of assets event_data
    end.
Proof. unfold asset_performance_of. now rewrite foldl_app. Qed.

Lemma asset_performance_spec (event_data : EventData) :
  NoDup (List.map fst event_data) ->
  (forall symbol asset_data, (symbol, asset_data) ∈ event_data ->
     exists asset, asset ∈ assets /\ asset_symbol asset = symbol) ->
  List.map fst (asset_performance_of assets event_data)
  = List.map fst event_data
  /\ forall symbol asset_data,
       dict_get event_data symbol = Some asset_data ->
       exists info,
         first_with symbol = Some info
         /\ dict_get (asset_performance_of assets event_data) symbol
            = Some (mkAssetPerformance (asset_name info)
                      (asset_allocation info) asset_data).
Proof.
  induction event_data as [|[s d] l IH] using rev_ind; intros Hnd Hall.
  - split; [reflexivity | discriminate].
  - rewrite List.map_app in Hnd. simpl in Hnd.
    apply NoDup_app in Hnd as (Hnd & Hfresh & _).
    assert (s ∉ List.map fst l) as Hs.
    { intros H. apply (Hfresh s H). left. }
    destruct IH as [IHk IHg]; [exact Hnd | |].
    { intros symbol asset_data Hin. apply (Hall symbol asset_data).
      apply elem_of_app. now left. }
    destruct (Hall s d) as (asset & Hin & Hsym).
    { apply elem_of_app. right. left. }
    destruct (first_with_Some asset Hin) as (info & Hfind & _).
    rewrite Hsym in Hfind.
    rewrite asset_performance_snoc, Hfind. split.
    + rewrite dict_set_keys_fresh by (now rewrite IHk).
      rewrite IHk, List.map_app. reflexivity.
    + intros symbol asset_data. rewrite dict_get_app.
      destruct (dict_get l symbol) as [v|] eqn:E.
      * intros [= ->]. destruct (IHg _ _ E) as (info' & Hf' & Hg').
        exists info'. split; [exact Hf'|].
        rewrite dict_get_set_ne; [exact Hg'|].
        intros ->. apply Hs. apply dict_get_Some_elem in E.
        apply list_elem_of_fmap. now exists (symbol, asset_data).
      * rewrite dict_get_cons. destruct (String.eqb_spec s symbol) as [->|Hne];
          [|discriminate].
        intros [= ->]. exists info. split; [exact Hfind|].
        apply dict_get_set_eq.
Qed.

End AssetPerformance.

(** X20: [asset_performance] has the keys of the fetched event data, in
    the same order and without duplicates, and gives each symbol its
    fetched series with the name and allocation of the first asset of the
    portfolio that has this symbol. *)
Theorem asset_performance_lists_fetched_assets (assets : list PortfolioAsset)
    (history : string -> option (list (string * Q))) :
  let event_data := fetch_asset_data assets history in
  let asset_performance := asset_performance_of assets event_data in
  List.map fst asset_performance = List.map fst event_data
  /\ NoDup (List.map fst asset_performance)
  /\ forall symbol asset_data,
       dict_get event_data symbol = Some asset_data ->
       exists info,
         List.find (fun a => String.eqb (asset_symbol a) symbol) assets
         = Some info
         /\ dict_get asset_performance symbol
            = Some (mkAssetPerformance (asset_name info)
                      (asset_allocation info) asset_data).
Proof.
  cbv zeta.
  destruct (asset_performance_spec assets (fetch_asset_data assets history))
    as [Hk Hg].
  - apply fetch_NoDup.
  - intros symbol asset_data Hin.
    apply fetch_elem in Hin as (asset & rows & Hin & Hs & _). eauto.
  - split; [exact Hk|]. split; [|exact Hg]. rewrite Hk. apply fetch_NoDup.
Qed.

Lemma scale_by_amount_Qeq (portfolio : option Portfolio) (x y : Q) :
  x == y -> scale_by_amount portfolio x == scale_by_amount portfolio y.
Proof.
  intros Hxy. unfold scale_by_amount.
  destruct portfolio as [p|]; [|exact Hxy].
  destruct (investment_amount p) as [amount|]; [|exact Hxy].
  destruct (Qltb 0 x) eqn:E1, (Qltb 0 y) eqn:E2.
  - now rewrite Hxy.
  - apply Qltb_lt in E1. apply Qltb_ge in E2. lra.
  - apply Qltb_ge in E1. apply Qltb_lt in E2. lra.
  - exact Hxy.
Qed.

Lemma unadjusted_series_is_hold (event_data : EventData)
    (dates : list string) (portfolio : Portfolio) :
  Forall2 (fun p h => date p = date h /\ value p == value h)
    (List.map (fun d =>
                 mkPoint d
                   (scale_by_amount (Some portfolio) (raw_value event_data d)))
       dates)
    (calculate_scenario_performance event_data dates "no_change" None
       (Some portfolio)).
Proof.
  unfold calculate_scenario_performance.
  induction dates as [|d ds IH]; [constructor|].
  rewrite !List.map_cons. constructor; [|exact IH].
  cbn [date value]. split; [reflexivity|]. unfold scenario_value.
  apply scale_by_amount_Qeq. rewrite adjustment_factor_no_change. ring.
Qed.

(** X21: when a simulation is returned, [get_portfolio_performance]
    over the same histories returns too, and its series is the series of
    the "No Changes" scenario: the same dates and equal values. *)
Theorem performance_is_hold_series (portfolios : Store)
    (portfolio_id event : string)
    (analyzed : result (EventAnalysis * option string * option string))
    (history : string -> option (list (string * Q)))
    (openai_reply : option string) (response : SimulationResponse) :
  simulate_portfolio_event_handler portfolios portfolio_id event analyzed
    history openai_reply = Ok response ->
  exists perf hold,
    get_portfolio_performance portfolios portfolio_id history = Ok perf
    /\ simulation_results (resp_simulation response) !! 0%nat = Some hold
    /\ scenario hold = "No Changes"
    /\ perf_portfolio_id perf = resp_portfolio_id response
    /\ Forall2 (fun p h => date p = date h /\ value p == value h)
         (perf_performance perf) (performance hold).
Proof.
  unfold simulate_portfolio_event_handler, get_portfolio_performance.
  destruct (dict_get portfolios portfolio_id) as [p|]; [|discriminate].
  intros H. apply bind_Ok in H as ([[a s] e] & _ & H).
  destruct (negb (truthy s) || negb (truthy e)); [discriminate|].
  apply bind_Ok in H as (sim & Hsim & H). injection H as <-.
  apply simulate_Ok in Hsim as (pivot & mh & mw & ma & _ & _ & _ & _ & ->).
  do 2 eexists. split; [reflexivity|].
  cbn [resp_simulation simulation_results perf_performance perf_portfolio_id
       resp_portfolio_id].
  split; [reflexivity|]. split; [reflexivity|]. split; [reflexivity|].
  cbn [performance]. apply unadjusted_series_is_hold.
Qed.

Lemma performance_is_hold_series_witness :
  exists response perf,
    simulate_portfolio_event_handler sample_store "p-1" "the 2020 crash"
      (Ok (sample_analysis, Some "2020-01-01", Some "2020-01-06"))
      sample_history None = Ok response
    /\ get_portfolio_performance sample_store "p-1" sample_history = Ok perf
    /\ perf_portfolio_id perf = resp_portfolio_id response.
Proof.
  destruct (simulate_portfolio_event_handler sample_store "p-1" "the 2020 crash"
              (Ok (sample_analysis, Some "2020-01-01", Some "2020-01-06"))
              sample_history None) as [response|e] eqn:Hr;
    [|vm_compute in Hr; discriminate].
  destruct (performance_is_hold_series sample_store "p-1" "the 2020 crash"
              (Ok (sample_analysis, Some "2020-01-01", Some "2020-01-06"))
              sample_history None response Hr)
    as (perf & hold & Hperf & _ & _ & Hid & _).
  exists response, perf. repeat split; assumption.
Defined.

(** X22: [get_portfolio_performance] answers 404 for an unknown id and
    otherwise always returns, over the date axis of the fetched data; the
    series is empty exactly when every asset's history failed or is
    empty. *)
Theorem performance_without_data (portfolios : Store) (portfolio_id : string)
    (history : string -> option (list (string * Q))) :
  match dict_get portfolios portfolio_id with
  | None =>
      get_portfolio_performance portfolios portfolio_id history
      = Raise (HTTPException 404 "Portfolio not found")
  | Some portfolio =>
      exists perf,
        get_portfolio_performance portfolios portfolio_id history = Ok perf
        /\ List.map date (perf_performance perf)
           = date_axis (fetch_asset_data (sp_assets portfolio) history)
        /\ ((forall asset, asset ∈ sp_assets portfolio ->
               history (asset_symbol asset) = None
               \/ history (asset_symbol asset) = Some [])
            <-> perf_performance perf = [])
  end.
Proof.
  unfold get_portfolio_performance.
  destruct (dict_get portfolios portfolio_id) as [p|]; [|reflexivity].
  eexists. split; [reflexivity|]. simpl. split.
  - rewrite List.map_map. simpl. apply List.map_id.
  - rewrite <- fetch_all_empty_iff, <- date_axis_empty_iff.
    destruct (date_axis _); simpl; split; congruence.
Qed.

(** ** Asset search *)

Lemma lower_char_idemp (c : ascii) : lower_char (lower_char c) = lower_char c.
Proof.
  destruct c as [[] [] [] [] [] [] [] []]; reflexivity.
Qed.

Lemma lower_idemp (s : string) : lower (lower s) = lower s.
Proof.
  induction s as [|c s IH]; simpl; [reflexivity|].
  now rewrite lower_char_idemp, IH.
Qed.

Lemma append_cons (c : ascii) (s t : string) :
  (String c s +:+ t = String c (s +:+ t))%string.
Proof. reflexivity. Qed.

Lemma prefix_spec (needle hay : string) :
  String.prefix needle hay = true <-> exists post, hay = needle +:+ post.
Proof.
  revert hay. induction needle as [|c needle IH]; intros hay.
  - split; [intros _; now exists hay | intros _; now destruct hay].
  - destruct hay as [|c' hay]; simpl.
    + split; [discriminate | intros [post H]; discriminate].
    + destruct (Ascii.ascii_dec c c') as [->|Hne].
      * rewrite IH. split; intros [post H]; exists post;
          rewrite append_cons in *; congruence.
      * split; [discriminate|].
        intros [post H]. rewrite append_cons in H. congruence.
Qed.

Lemma contains_spec (needle hay : string) :
  contains needle hay = true <-> is_substring needle hay.
Proof.
  induction hay as [|c hay IH].
  - cbn [contains]. rewrite orb_false_r, prefix_spec. split.
    + intros [post H]. now exists EmptyString, post.
    + intros ([|c pre] & post & H); [now exists post | discriminate].
  - cbn [contains]. rewrite orb_true_iff, prefix_spec, IH. split.
    + intros [[post H] | (pre & post & H)].
      * now exists EmptyString, post.
      * exists (String c pre), post. rewrite append_cons. now rewrite H.
    + intros ([|c' pre] & post & H).
      * left. now exists post.
      * right. exists pre, post. rewrite append_cons in H. congruence.
Qed.

Lemma filter_sublist {A} (f : A -> bool) (l : list A) :
  List.filter f l `sublist_of` l.
Proof.
  induction l as [|x l IH]; simpl; [constructor|].
  destruct (f x); now constructor.
Qed.

(** X23: [search_assets] returns at most 10 assets, in the order of the
    catalogue, each with the lower-cased query inside its lower-cased
    symbol or name; a matching asset is left out only when 10 results are
    returned. *)
Theorem search_results (query : string) :
  let results := search_assets query in
  (length results <= 10)%nat
  /\ results `sublist_of` valid_assets
  /\ (forall asset, asset ∈ results ->
        is_substring (lower query) (lower (a_symbol asset))
        \/ is_substring (lower query) (lower (a_name asset)))
  /\ (forall asset, asset ∈ valid_assets ->
        is_substring (lower query) (lower (a_symbol asset))
        \/ is_substring (lower query) (lower (a_name asset)) ->
        asset ∈ results
        \/ length results = 10%nat).
Proof.
  cbv zeta. unfold search_assets.
  set (found := List.filter (matches (lower query)) valid_assets).
  split; [rewrite length_take; lia|].
  split; [etransitivity; [apply sublist_take | apply filter_sublist]|].
  split.
  - intros asset Hin. apply elem_of_take in Hin as (i & Hi & _).
    apply list_elem_of_lookup_2, list_elem_of_In, List.filter_In in Hi as [_ Hm].
    unfold matches in Hm. apply orb_true_iff in Hm.
    now rewrite !contains_spec in Hm.
  - intros asset Hin Hm.
    assert (asset ∈ found) as Hf.
    { apply list_elem_of_In, List.filter_In. split; [now apply list_elem_of_In|].
      unfold matches. apply orb_true_iff. now rewrite !contains_spec. }
    destruct (decide (length found <= 10)%nat) as [Hle|Hgt].
    + left. now rewrite take_ge.
    + right. rewrite length_take. lia.
Qed.

(** X24: [search_assets] gives a query and its lower-cased form the same
    results. *)
Theorem search_ignores_case (query : string) :
  search_assets (lower query) = search_assets query.
Proof.
  unfold search_assets. now rewrite lower_idemp.
Qed.
